(** * Valhalla orchestrator: model gateway, persistence gateway, session controller

    A shallow embedding of [vertex_claude_v2.py], [context_manager_v2.py] and
    the chat turn of [app_v2.py].  Python objects are records held in one
    program state; everything outside the repository (Vertex AI, Firestore,
    the clocks, the built-in string functions) is an oracle of the
    environment class [Env].  Methods are computations of a state and
    exception monad, so that [try ... except Exception] is [try_except];
    the exceptions are those that [except Exception] catches.  Logging and
    the drawing of the page have no part in the state and are left out. *)

From Stdlib Require Import ZArith List String Ascii Uint63 Floats Lia.
From stdpp Require Import gmap list.
Import ListNotations.
Set Warnings "-inexact-float,-register-all".

(** ** Python values *)

(** A Python [str] is a sequence of code points, so that [len] counts
    characters and not bytes. *)
Definition char := N.
Definition str := list char.

Definition lit (s : string) : str :=
  map N_of_ascii (list_ascii_of_string s).
Arguments lit s%_string.

Definition nl : str := [10%N].

(** ["\n".join(ls)] *)
Fixpoint join_lines (ls : list str) : str :=
  match ls with
  | [] => []
  | [l] => l
  | l :: rest => l ++ nl ++ join_lines rest
  end.

(** [s.replace(' ', '_')] *)
Definition replace_space (s : str) : str :=
  map (fun c => if N.eqb c 32 then 95%N else c) s.

Inductive pyval :=
| VNone
| VBool (b : bool)
| VInt (z : Z)
| VFloat (f : float)
| VStr (s : str)
| VList (l : list pyval)
| VDict (d : list (str * pyval))
| VServerTimestamp              (* firestore.SERVER_TIMESTAMP, not yet resolved *)
| VDatetime (micros : Z).

(** A [dict] keeps its keys in insertion order; keys are unique. *)
Definition dict := list (str * pyval).

Definition str_eqb (a b : str) : bool := bool_decide (a = b).

Fixpoint dict_get (d : dict) (k : str) : option pyval :=
  match d with
  | [] => None
  | (k', v) :: rest => if str_eqb k' k then Some v else dict_get rest k
  end.

(** [d[k] = v]: replaces the binding in place, or appends a new one. *)
Fixpoint dict_set (d : dict) (k : str) (v : pyval) : dict :=
  match d with
  | [] => [(k, v)]
  | (k', v') :: rest =>
      if str_eqb k' k then (k', v) :: rest else (k', v') :: dict_set rest k v
  end.

(** [d.update(u)] *)
Definition dict_update (d u : dict) : dict :=
  fold_left (fun acc kv => dict_set acc (fst kv) (snd kv)) u d.

(** [l[-n:]] for a positive [n] *)
Definition last_n {A} (n : nat) (l : list A) : list A :=
  drop (length l - n) l.

(** [{"role": role, "content": content}] *)
Definition message (role content : str) : dict :=
  [(lit "role", VStr role); (lit "content", VStr content)].

(** ** Exceptions *)

(** An exception of class [exn_class]; [exn_text] is [str(e)]. *)
Record exn := Exception { exn_class : str; exn_text : str }.

Inductive result (A : Type) :=
| Ok (a : A)
| Raise (e : exn).
Arguments Ok {A} a.
Arguments Raise {A} e.

(** ** The environment: what is outside the repository *)

(** The response object of the generative model; reading [response.text]
    may itself raise (a blocked or empty candidate). *)
Record Response := { response_text : result str }.

Class Env := {
  (* Python built-ins *)
  str_upper : str -> str;                 (* s.upper() *)
  str_lower : str -> str;                 (* s.lower() *)
  str_of_value : pyval -> str;            (* str(v) for a v that is not a str *)
  type_name : pyval -> str;               (* type(v).__name__ *)
  format_exc : exn -> str;                (* traceback.format_exc() *)
  (* os.getenv *)
  getenv : str -> option str;
  (* vertexai.init and GenerativeModel(...): the exception raised, if any *)
  vertexai_init : option exn;
  (* the k-th call model.generate_content(prompt, max_tokens, temperature) *)
  generate_content : nat -> str -> Z -> float -> result Response;
  (* the k-th reading of time.time(), in seconds *)
  time_time : nat -> float;
  (* the k-th reading of datetime.now(), in microseconds *)
  datetime_now : nat -> Z;
  (* firestore.Client(project=...): the exception raised, if any *)
  firestore_client : option exn;
  (* the k-th access to the document store: the exception raised, if any *)
  store_fault : nat -> option exn;
  (* the server time that resolves SERVER_TIMESTAMP in the k-th access *)
  server_time : nat -> Z;
  (* the k-th auto-generated document identifier *)
  auto_id : nat -> str
}.

(** [f"{v}"] *)
Definition format_value `{Env} (v : pyval) : str :=
  match v with
  | VStr s => s
  | _ => str_of_value v
  end.

(** [len(v)]: strings, lists and maps have a length, the other values
    raise a TypeError. *)
Definition py_len `{Env} (v : pyval) : result Z :=
  match v with
  | VStr s => Ok (Z.of_nat (length s))
  | VList l => Ok (Z.of_nat (length l))
  | VDict d => Ok (Z.of_nat (length d))
  | _ =>
      Raise (Exception (lit "TypeError")
               (lit "object of type '" ++ type_name v ++ lit "' has no len()"))
  end.

(** [f"{v:.4f}"], as far as the code depends on it: the text goes to a
    log line only, so what matters is whether the formatting raises.
    Numbers have a fixed-point format, an [int] as long as it converts to
    a [float]; a [datetime] takes the format as a [strftime] pattern;
    every other value raises. *)
Definition format_fixed_point `{Env} (v : pyval) : result unit :=
  match v with
  | VBool _ | VFloat _ | VDatetime _ => Ok tt
  | VInt z =>
      if (Z.abs z <? 2 ^ 1024 - 2 ^ 970)%Z then Ok tt
      else Raise (Exception (lit "OverflowError")
                    (lit "int too large to convert to float"))
  | VStr _ =>
      Raise (Exception (lit "ValueError")
               (lit "Unknown format code 'f' for object of type 'str'"))
  | _ =>
      Raise (Exception (lit "TypeError")
               (lit "unsupported format string passed to " ++ type_name v ++
                lit ".__format__"))
  end.

(** [hay.startswith(needle)] *)
Fixpoint starts_with (needle hay : str) : bool :=
  match needle, hay with
  | [], _ => true
  | _ :: _, [] => false
  | a :: needle', b :: hay' => N.eqb a b && starts_with needle' hay'
  end.

(** [needle in hay] for two strings *)
Fixpoint contains (needle hay : str) : bool :=
  starts_with needle hay ||
  match hay with
  | [] => false
  | _ :: hay' => contains needle hay'
  end.

(** ** Program state *)

(** A call of the document store. *)
Inductive store_call :=
| StoreGet (collection doc_id : str)
| StoreSet (collection doc_id : str) (data : dict)
| StoreUpdate (collection doc_id : str) (data : dict).

(** What the process does to the outside.  A store call is recorded with
    its outcome: the exception it raised, or [Ok found], where [found] is
    the document a get has read ([None] when it does not exist, and for
    writes). *)
Inductive event :=
| EvGenerate (prompt : str) (max_tokens : Z) (temperature : float)
| EvSleep (seconds : Z)
| EvStore (call : store_call) (outcome : result (option dict)).

(** The world outside the process: the document store, how often each
    oracle has been consulted, and the trace of external calls in
    chronological order. *)
Record World := {
  w_docs : gmap (str * str) dict;
  w_store_ops : nat;
  w_auto_ids : nat;
  w_generate_calls : nat;
  w_time_reads : nat;
  w_now_reads : nat;
  w_trace : list event
}.

(** [class VertexClaudeV2] *)
Record VertexClaudeV2 := {
  vc_project_id : option str;
  vc_location : str;
  vc_model_name : str;
  vc_model : option str;          (* GenerativeModel(model_name), or None *)
  vc_last_request_cost : float;
  vc_total_requests : Z;
  vc_total_cost : float;
  vc_last_response_time : float
}.

(** [class ContextManagerV2]; a cache entry is [(context, cached_time)]. *)
Record ContextManagerV2 := {
  cm_project_id : option str;
  cm_db : option str;             (* firestore.Client(project=...), or None *)
  cm_cache : gmap str (dict * Z);
  cm_cache_ttl : Z
}.

(** [st.session_state] *)
Record SessionState := {
  ss_context_manager : ContextManagerV2;
  ss_vertex_claude : VertexClaudeV2;
  ss_messages : list dict;
  ss_current_project : str;
  ss_total_cost : float;
  ss_request_count : Z
}.

Record State := {
  session : SessionState;
  world : World
}.

(** ** The monad of methods *)

Definition M (A : Type) : Type := State -> result A * State.

Definition ret {A} (a : A) : M A := fun s => (Ok a, s).

Definition bind {A B} (m : M A) (k : A -> M B) : M B :=
  fun s =>
    match m s with
    | (Ok a, s') => k a s'
    | (Raise e, s') => (Raise e, s')
    end.

Definition raise {A} (e : exn) : M A := fun s => (Raise e, s).

(** [try: m except Exception as e: h e]; the state changes made by [m]
    before it raised are kept. *)
Definition try_except {A} (m : M A) (h : exn -> M A) : M A :=
  fun s =>
    match m s with
    | (Ok a, s') => (Ok a, s')
    | (Raise e, s') => h e s'
    end.

Declare Scope py_scope.
Delimit Scope py_scope with py.
Notation "x <- m ;; k" := (bind m (fun x => k))
  (at level 100, m at next level, right associativity) : py_scope.
Notation "m ;;; k" := (bind m (fun _ => k))
  (at level 100, right associativity) : py_scope.
Local Open Scope py_scope.

Definition lift_result {A} (r : result A) : M A :=
  match r with
  | Ok a => ret a
  | Raise e => raise e
  end.

(** *** Accessors of the state *)

Definition with_world (w : World) (s : State) : State :=
  {| session := session s; world := w |}.

Definition with_session (ss : SessionState) (s : State) : State :=
  {| session := ss; world := world s |}.

Definition with_vc (vc : VertexClaudeV2) (s : State) : State :=
  with_session {| ss_context_manager := ss_context_manager (session s);
                  ss_vertex_claude := vc;
                  ss_messages := ss_messages (session s);
                  ss_current_project := ss_current_project (session s);
                  ss_total_cost := ss_total_cost (session s);
                  ss_request_count := ss_request_count (session s) |} s.

Definition with_cm (cm : ContextManagerV2) (s : State) : State :=
  with_session {| ss_context_manager := cm;
                  ss_vertex_claude := ss_vertex_claude (session s);
                  ss_messages := ss_messages (session s);
                  ss_current_project := ss_current_project (session s);
                  ss_total_cost := ss_total_cost (session s);
                  ss_request_count := ss_request_count (session s) |} s.

Definition get_world : M World := fun s => (Ok (world s), s).
Definition put_world (w : World) : M unit := fun s => (Ok tt, with_world w s).

Definition get_session : M SessionState := fun s => (Ok (session s), s).
Definition put_session (ss : SessionState) : M unit :=
  fun s => (Ok tt, with_session ss s).

Definition get_vc : M VertexClaudeV2 :=
  fun s => (Ok (ss_vertex_claude (session s)), s).
Definition put_vc (vc : VertexClaudeV2) : M unit :=
  fun s => (Ok tt, with_vc vc s).

Definition get_cm : M ContextManagerV2 :=
  fun s => (Ok (ss_context_manager (session s)), s).
Definition put_cm (cm : ContextManagerV2) : M unit :=
  fun s => (Ok tt, with_cm cm s).

(** *** Updates of the world *)

Definition log_event (e : event) (w : World) : World :=
  {| w_docs := w_docs w; w_store_ops := w_store_ops w;
     w_auto_ids := w_auto_ids w;
     w_generate_calls := w_generate_calls w;
     w_time_reads := w_time_reads w; w_now_reads := w_now_reads w;
     w_trace := w_trace w ++ [e] |}.

Definition count_generate (w : World) : World :=
  {| w_docs := w_docs w; w_store_ops := w_store_ops w;
     w_auto_ids := w_auto_ids w;
     w_generate_calls := S (w_generate_calls w);
     w_time_reads := w_time_reads w; w_now_reads := w_now_reads w;
     w_trace := w_trace w |}.

Definition count_time_read (w : World) : World :=
  {| w_docs := w_docs w; w_store_ops := w_store_ops w;
     w_auto_ids := w_auto_ids w;
     w_generate_calls := w_generate_calls w;
     w_time_reads := S (w_time_reads w); w_now_reads := w_now_reads w;
     w_trace := w_trace w |}.

Definition count_now_read (w : World) : World :=
  {| w_docs := w_docs w; w_store_ops := w_store_ops w;
     w_auto_ids := w_auto_ids w;
     w_generate_calls := w_generate_calls w;
     w_time_reads := w_time_reads w; w_now_reads := S (w_now_reads w);
     w_trace := w_trace w |}.

Definition count_auto_id (w : World) : World :=
  {| w_docs := w_docs w; w_store_ops := w_store_ops w;
     w_auto_ids := S (w_auto_ids w);
     w_generate_calls := w_generate_calls w;
     w_time_reads := w_time_reads w; w_now_reads := w_now_reads w;
     w_trace := w_trace w |}.

(** The world after a store call: the documents are [docs]. *)
Definition count_store_op (docs : gmap (str * str) dict) (w : World) : World :=
  {| w_docs := docs; w_store_ops := S (w_store_ops w);
     w_auto_ids := w_auto_ids w;
     w_generate_calls := w_generate_calls w;
     w_time_reads := w_time_reads w; w_now_reads := w_now_reads w;
     w_trace := w_trace w |}.

(** ** The external collaborators *)

Section External.
Context `{Env}.

(** [time.time()] *)
Definition time_now : M float :=
  w <- get_world ;;
  put_world (count_time_read w) ;;;
  ret (time_time (w_time_reads w)).

(** [datetime.now()] *)
Definition now : M Z :=
  w <- get_world ;;
  put_world (count_now_read w) ;;;
  ret (datetime_now (w_now_reads w)).

(** [time.sleep(seconds)] *)
Definition sleep (seconds : Z) : M unit :=
  w <- get_world ;; put_world (log_event (EvSleep seconds) w).

(** [self.model.generate_content(prompt, generation_config=...)] *)
Definition model_generate_content
    (prompt : str) (max_tokens : Z) (temperature : float) : M Response :=
  w <- get_world ;;
  put_world (log_event (EvGenerate prompt max_tokens temperature)
               (count_generate w)) ;;;
  lift_result (generate_content (w_generate_calls w) prompt max_tokens temperature).

(** What the [k]-th store access answers when [act] is what the store
    would do: the exception of the fault oracle, or the result of [act]. *)
Definition store_answer {A} (k : nat)
    (act : result (A * gmap (str * str) dict)) : result (A * gmap (str * str) dict) :=
  match store_fault k with
  | Some e => Raise e
  | None => act
  end.

(** One access to the document store: the access counter advances, the
    fault oracle decides whether the call raises, and the call is recorded
    with its outcome.  On success the documents become those of the
    answer. *)
Definition store_access {A} (call : store_call) (view : A -> option dict)
    (act : World -> result (A * gmap (str * str) dict)) : M A :=
  w <- get_world ;;
  match store_answer (w_store_ops w) (act w) with
  | Ok (a, docs') =>
      put_world (log_event (EvStore call (Ok (view a))) (count_store_op docs' w)) ;;;
      ret a
  | Raise e =>
      put_world (log_event (EvStore call (Raise e)) (count_store_op (w_docs w) w)) ;;;
      raise e
  end.

(** The server replaces every top-level SERVER_TIMESTAMP by its time. *)
Definition resolve_timestamps (t : Z) (data : dict) : dict :=
  map (fun kv => match snd kv with
                 | VServerTimestamp => (fst kv, VDatetime t)
                 | _ => kv
                 end) data.

(** [db.collection(c).document(d).get()]: [None] when [.exists] is false,
    else [.to_dict()]. *)
Definition doc_get (collection doc_id : str) : M (option dict) :=
  store_access (StoreGet collection doc_id) (fun found => found)
    (fun w => Ok (w_docs w !! (collection, doc_id), w_docs w)).

(** [db.collection(c).document(d).set(data)]: the document is replaced. *)
Definition doc_set (collection doc_id : str) (data : dict) : M unit :=
  store_access (StoreSet collection doc_id data) (fun _ => None)
    (fun w => Ok (tt, <[(collection, doc_id) :=
                          resolve_timestamps (server_time (w_store_ops w)) data]>
                        (w_docs w))).

(** [db.collection(c).document(d).update(data)]: the fields are merged
    into the document, which has to exist. *)
Definition doc_update (collection doc_id : str) (data : dict) : M unit :=
  store_access (StoreUpdate collection doc_id data) (fun _ => None)
    (fun w =>
       match w_docs w !! (collection, doc_id) with
       | None => Raise (Exception (lit "NotFound") (lit "No document to update"))
       | Some old =>
           Ok (tt, <[(collection, doc_id) :=
                       dict_update old
                         (resolve_timestamps (server_time (w_store_ops w)) data)]>
                     (w_docs w))
       end).

(** [db.collection(c).document()]: a reference with a fresh identifier;
    no access to the store. *)
Definition new_document_id : M str :=
  w <- get_world ;;
  put_world (count_auto_id w) ;;;
  ret (auto_id (w_auto_ids w)).

End External.

(** ** [vertex_claude_v2.py]: the model gateway *)

Definition truthy_str (o : option str) : bool :=
  match o with
  | Some (_ :: _) => true
  | _ => false
  end.

Definition truthy_dict (o : option dict) : bool :=
  match o with
  | Some (_ :: _) => true
  | _ => false
  end.

(** [range(n)] *)
Definition range (n : Z) : list Z := map Z.of_nat (seq 0 (Z.to_nat n)).

(** [len(s)] as an operand of the true division [/]: exact below 2^53,
    and no Python string is longer than 2^63 - 1. *)
Definition float_of_len (s : str) : float :=
  PrimFloat.of_uint63 (Uint63.of_Z (Z.of_nat (length s))).

Module vertex_claude_v2.

Definition PRICING_input : float := 0.003%float.
Definition PRICING_output : float := 0.015%float.

Definition set_last_response_time (t : float) (self : VertexClaudeV2) :=
  {| vc_project_id := vc_project_id self; vc_location := vc_location self;
     vc_model_name := vc_model_name self; vc_model := vc_model self;
     vc_last_request_cost := vc_last_request_cost self;
     vc_total_requests := vc_total_requests self;
     vc_total_cost := vc_total_cost self;
     vc_last_response_time := t |}.

Definition set_last_request_cost (c : float) (self : VertexClaudeV2) :=
  {| vc_project_id := vc_project_id self; vc_location := vc_location self;
     vc_model_name := vc_model_name self; vc_model := vc_model self;
     vc_last_request_cost := c;
     vc_total_requests := vc_total_requests self;
     vc_total_cost := vc_total_cost self;
     vc_last_response_time := vc_last_response_time self |}.

Definition set_total_cost (c : float) (self : VertexClaudeV2) :=
  {| vc_project_id := vc_project_id self; vc_location := vc_location self;
     vc_model_name := vc_model_name self; vc_model := vc_model self;
     vc_last_request_cost := vc_last_request_cost self;
     vc_total_requests := vc_total_requests self;
     vc_total_cost := c;
     vc_last_response_time := vc_last_response_time self |}.

Definition set_total_requests (n : Z) (self : VertexClaudeV2) :=
  {| vc_project_id := vc_project_id self; vc_location := vc_location self;
     vc_model_name := vc_model_name self; vc_model := vc_model self;
     vc_last_request_cost := vc_last_request_cost self;
     vc_total_requests := n;
     vc_total_cost := vc_total_cost self;
     vc_last_response_time := vc_last_response_time self |}.

Section Methods.
Context `{Env}.

(** [VertexClaudeV2.__init__] *)
Definition __init__ : VertexClaudeV2 :=
  let project_id := getenv (lit "GCP_PROJECT_ID") in
  let model_name :=
    default (lit "claude-3-5-sonnet@20240620") (getenv (lit "CLAUDE_MODEL")) in
  {| vc_project_id := project_id;
     vc_location := default (lit "us-central1") (getenv (lit "GCP_REGION"));
     vc_model_name := model_name;
     vc_model :=
       if truthy_str project_id then
         match vertexai_init with
         | None => Some model_name
         | Some _ => None
         end
       else None;
     vc_last_request_cost := 0%float;
     vc_total_requests := 0;
     vc_total_cost := 0%float;
     vc_last_response_time := 0%float |}.

Definition _get_troubleshooting_steps : str :=
  join_lines [ [];
         lit "1. Verify GCP_PROJECT_ID environment variable is set correctly";
         lit "2. Ensure Claude is enabled in Vertex AI Model Garden";
         lit "3. Check service account has Vertex AI User role";
         lit "4. Verify the model name is correct for your region";
         lit "5. Check GCP quotas and billing";
         lit "6. Review Cloud Logging for detailed error messages";
         []].

(** The cross mark U+274C that opens every error message. *)
Definition cross_mark : str := [10060%N].

Definition format_error_of (self : VertexClaudeV2)
    (title details : str) (troubleshooting : option str) : str :=
  let error_msg :=
    cross_mark ++ lit " **" ++ title ++ lit "**" ++ nl ++ nl ++
    lit "**Details:** " ++ details ++ nl in
  let error_msg :=
    if truthy_str troubleshooting then
      error_msg ++ nl ++ lit "**Troubleshooting:**" ++ nl ++
      default [] troubleshooting ++ nl
    else error_msg in
  error_msg ++ nl ++
  lit "**Configuration:**" ++ nl ++
  lit "- Project ID: " ++
    (if truthy_str (vc_project_id self)
     then default [] (vc_project_id self) else lit "NOT SET") ++ nl ++
  lit "- Region: " ++ vc_location self ++ nl ++
  lit "- Model: " ++ vc_model_name self ++ nl ++
  join_lines [ [];
         lit "**Need Help?**";
         lit "Check the deployment documentation or run the diagnostic script.";
         []].

Definition _format_error
    (title details : str) (troubleshooting : option str) : M str :=
  self <- get_vc ;;
  ret (format_error_of self title details troubleshooting).

Definition base_prompt : str :=
  join_lines [ lit "You are Claude, technical co-founder in a 90-day bootstrap mission.";
         [];
         lit "MISSION CONTEXT:";
         lit "- Partnership: James (vision/strategy) + Claude (technical/execution)" ]
  ++ nl ++ lit "- Timeline: Oct 17, 2025 " ++ [8594%N] ++ lit " Jan 15, 2026 (90 days)"
  ++ nl ++
  join_lines [ lit "- Goal: $15,000 monthly recurring revenue";
         lit "- Primary Revenue Stream: HAVEN Platform (community/service hub)";
         lit "- Infrastructure: GCP (Cloud Run, Firestore, Vertex AI)";
         lit "- Philosophy: Ship fast, iterate constantly, delegate to AI agents";
         [];
         lit "CAPABILITIES:";
         lit "- Full-stack development (Python, JavaScript, React, FastAPI)";
         lit "- GCP infrastructure and deployment";
         lit "- Database design and optimization";
         lit "- API development and integration";
         lit "- UI/UX design with modern frameworks";
         lit "- DevOps and CI/CD pipelines" ].

Definition communication_style : str :=
  join_lines [ [];
         lit "COMMUNICATION STYLE:";
         lit "- Be direct, technical, and action-oriented";
         lit "- Provide working code examples";
         lit "- Include deployment and testing steps";
         lit "- Focus on pragmatic solutions";
         lit "- No unnecessary explanations";
         [];
         lit "When asked to build something:";
         lit "1. Confirm requirements";
         lit "2. Design architecture";
         lit "3. Generate production-ready code";
         lit "4. Provide deployment instructions";
         lit "5. Suggest testing approaches";
         []].

(** [key not in ['created_at', 'last_updated']] *)
Definition shown_in_prompt (key : str) : bool :=
  negb (str_eqb key (lit "created_at") || str_eqb key (lit "last_updated")).

(** The loop over [context.items()] of [_build_system_prompt]. *)
Fixpoint context_lines (items : dict) : str :=
  match items with
  | [] => []
  | (key, value) :: rest =>
      (if shown_in_prompt key
       then lit "- " ++ key ++ lit ": " ++ format_value value ++ nl
       else [])
      ++ context_lines rest
  end.

Definition _build_system_prompt (context : option dict) : str :=
  let base_prompt :=
    if truthy_dict context then
      base_prompt ++ nl ++ nl ++ lit "CURRENT PROJECT CONTEXT:" ++ nl ++
      context_lines (default [] context)
    else base_prompt in
  base_prompt ++ communication_style.

(** One turn of the loop over [history_to_include]: the text added for
    [msg], or the exception of [msg['role']], [.upper()] or
    [msg['content']]. *)
Definition history_entry (msg : dict) : result str :=
  match dict_get msg (lit "role") with
  | None => Raise (Exception (lit "KeyError") (lit "'role'"))
  | Some (VStr r) =>
      let role := str_upper r in
      match dict_get msg (lit "content") with
      | None => Raise (Exception (lit "KeyError") (lit "'content'"))
      | Some content =>
          Ok (role ++ lit ": " ++ format_value content ++ nl ++ nl)
      end
  | Some v =>
      Raise (Exception (lit "AttributeError")
               (lit "'" ++ type_name v ++ lit "' object has no attribute 'upper'"))
  end.

Fixpoint history_lines (msgs : list dict) : result str :=
  match msgs with
  | [] => Ok []
  | msg :: rest =>
      match history_entry msg with
      | Raise e => Raise e
      | Ok line =>
          match history_lines rest with
          | Raise e => Raise e
          | Ok lines => Ok (line ++ lines)
          end
      end
  end.

Definition _build_prompt (user_message : str) (context : option dict)
    (conversation_history : option (list dict)) : result str :=
  let system_prompt := _build_system_prompt context in
  let full_prompt := system_prompt ++ nl ++ nl in
  match
    match conversation_history with
    | Some (m :: ms) => history_lines (last_n 10 (m :: ms))
    | _ => Ok []
    end
  with
  | Raise e => Raise e
  | Ok history =>
      Ok (full_prompt ++ history ++
          lit "USER: " ++ user_message ++ nl ++ nl ++ lit "ASSISTANT:")
  end.

(** The estimate of [_calculate_cost]: a token is four characters. *)
Definition cost_of (prompt response : str) : float :=
  let input_tokens := (float_of_len prompt / 4)%float in
  let output_tokens := (float_of_len response / 4)%float in
  let input_cost := (input_tokens / 1000 * PRICING_input)%float in
  let output_cost := (output_tokens / 1000 * PRICING_output)%float in
  (input_cost + output_cost)%float.

Definition _calculate_cost (prompt response : str) : M unit :=
  self <- get_vc ;;
  put_vc (set_last_request_cost (cost_of prompt response) self) ;;;
  self <- get_vc ;;
  put_vc (set_total_cost (vc_total_cost self + vc_last_request_cost self)%float self).

(** The body of the [try] in the retry loop of [chat]. *)
Definition chat_attempt (full_prompt : str) (start_time : float)
    (max_tokens : Z) (temperature : float) : M str :=
  response <- model_generate_content full_prompt max_tokens temperature ;;
  t <- time_now ;;
  self <- get_vc ;;
  put_vc (set_last_response_time (t - start_time)%float self) ;;;
  response_txt <- lift_result (response_text response) ;;
  _calculate_cost full_prompt response_txt ;;;
  self <- get_vc ;;
  put_vc (set_total_requests (vc_total_requests self + 1) self) ;;;
  lift_result (response_text response).

(** [for attempt in range(retry_count): try: ... except Exception: ...];
    [None] from a turn means that the loop goes on. *)
Fixpoint chat_attempts (full_prompt : str) (start_time : float)
    (max_tokens : Z) (temperature : float) (retry_count : Z)
    (attempts : list Z) : M str :=
  match attempts with
  | [] => _format_error (lit "Maximum retries exceeded")
            (lit "Please try again later") None
  | attempt :: rest =>
      r <- try_except
             (txt <- chat_attempt full_prompt start_time max_tokens temperature ;;
              ret (Some txt))
             (fun e =>
                if (attempt <? retry_count - 1)%Z then
                  let wait_time := (2 ^ attempt * 1)%Z in
                  sleep wait_time ;;; ret None
                else
                  msg <- _format_error (lit "Vertex AI request failed")
                           (exn_text e) (Some _get_troubleshooting_steps) ;;
                  ret (Some msg)) ;;
      match r with
      | Some v => ret v
      | None =>
          chat_attempts full_prompt start_time max_tokens temperature
            retry_count rest
      end
  end.

Definition chat (user_message : str) (context : option dict)
    (conversation_history : option (list dict))
    (max_tokens : Z) (temperature : float) (retry_count : Z) : M str :=
  self <- get_vc ;;
  match vc_model self with
  | None =>
      _format_error (lit "Vertex AI not configured")
        (lit "Set GCP_PROJECT_ID environment variable and ensure Vertex AI is enabled")
        None
  | Some _ =>
      start_time <- time_now ;;
      match _build_prompt user_message context conversation_history with
      | Raise e => _format_error (lit "Failed to build prompt") (exn_text e) None
      | Ok full_prompt =>
          chat_attempts full_prompt start_time max_tokens temperature
            retry_count (range retry_count)
      end
  end.

Definition reset_stats : M unit :=
  self <- get_vc ;;
  put_vc {| vc_project_id := vc_project_id self;
            vc_location := vc_location self;
            vc_model_name := vc_model_name self;
            vc_model := vc_model self;
            vc_last_request_cost := 0%float;
            vc_total_requests := 0;
            vc_total_cost := 0%float;
            vc_last_response_time := vc_last_response_time self |}.

(** The timestamp text [datetime.now().isoformat()] and the temperature
    that reaches the model when [GenerationConfig] is given none belong to
    the libraries; the health checks take them as parameters. *)
Variable isoformat : Z -> str.
Variable unset_temperature : float.

Definition bool_of_option {A} (o : option A) : bool :=
  match o with Some _ => true | None => false end.

(** [VertexClaudeV2.health_check]; [response.text] gives the same result
    each time it is read, so the handler finds [healthy] still [False]. *)
Definition health_check : M dict :=
  self <- get_vc ;;
  t <- now ;;
  let status :=
    [ (lit "healthy", VBool false);
      (lit "project_configured", VBool (truthy_str (vc_project_id self)));
      (lit "model_initialized", VBool (bool_of_option (vc_model self)));
      (lit "timestamp", VStr (isoformat t)) ] in
  match vc_model self with
  | None => ret status
  | Some _ =>
      try_except
        (test_response <-
           model_generate_content (lit "Respond with just 'OK'") 10
             unset_temperature ;;
         txt <- lift_result (response_text test_response) ;;
         let status := dict_set status (lit "healthy") (VBool (contains (lit "OK") txt)) in
         txt' <- lift_result (response_text test_response) ;;
         ret (dict_set status (lit "test_response") (VStr txt')))
        (fun e => ret (dict_set status (lit "error") (VStr (exn_text e))))
  end.

End Methods.
End vertex_claude_v2.

(** ** [context_manager_v2.py]: the persistence gateway *)

Module context_manager_v2.

Definition set_cache (c : gmap str (dict * Z)) (self : ContextManagerV2) :=
  {| cm_project_id := cm_project_id self; cm_db := cm_db self;
     cm_cache := c; cm_cache_ttl := cm_cache_ttl self |}.

Definition set_db (d : option str) (self : ContextManagerV2) :=
  {| cm_project_id := cm_project_id self; cm_db := d;
     cm_cache := cm_cache self; cm_cache_ttl := cm_cache_ttl self |}.

Definition VStrs (l : list str) : pyval := VList (map VStr l).

Definition mission_data : dict :=
  [ (lit "start_date", VStr (lit "2025-10-17"));
    (lit "deadline", VStr (lit "2026-01-15"));
    (lit "goal_revenue", VInt 15000);
    (lit "currency", VStr (lit "USD"));
    (lit "primary_stream", VStr (lit "HAVEN Platform"));
    (lit "secondary_stream", VStr (lit "To Be Determined"));
    (lit "tertiary_stream", VStr (lit "To Be Determined"));
    (lit "founder", VStr (lit "James"));
    (lit "co_founder", VStr (lit "Claude AI"));
    (lit "philosophy",
       VStr (lit "Ship fast, iterate constantly, delegate to AI agents"));
    (lit "tech_stack",
       VStrs [lit "GCP"; lit "Python"; lit "FastAPI"; lit "React"; lit "Firestore"]);
    (lit "created_at", VServerTimestamp);
    (lit "updated_at", VServerTimestamp) ].

(** The table [projects] of [_initialize_projects], in its order. *)
Definition default_projects : list (str * dict) :=
  [ (lit "haven_platform",
      [ (lit "name", VStr (lit "HAVEN Platform"));
        (lit "status", VStr (lit "Live"));
        (lit "description",
           VStr (lit "Community/service hub - primary revenue stream"));
        (lit "tech_stack",
           VStrs [lit "FastAPI"; lit "PostgreSQL"; lit "Cloud Run"; lit "React"]);
        (lit "priority", VInt 1);
        (lit "revenue_target", VInt 10000);
        (lit "launch_date", VStr (lit "2025-11-01"));
        (lit "features",
           VStrs [lit "User authentication"; lit "Service marketplace";
                  lit "Community forums"; lit "Payment processing"]) ]);
    (lit "first_contact",
      [ (lit "name", VStr (lit "First Contact"));
        (lit "status", VStr (lit "Building"));
        (lit "description", VStr (lit "Civic innovation platform"));
        (lit "tech_stack", VStrs [lit "To Be Determined"]);
        (lit "priority", VInt 2);
        (lit "revenue_target", VInt 3000);
        (lit "launch_date", VStr (lit "2025-12-01"));
        (lit "features",
           VStrs [lit "Community engagement"; lit "Resource coordination"]) ]);
    (lit "company_site",
      [ (lit "name", VStr (lit "Company Site"));
        (lit "status", VStr (lit "Planning"));
        (lit "description",
           VStr (lit "Professional company website and portfolio"));
        (lit "tech_stack", VStrs [lit "Next.js"; lit "TailwindCSS"; lit "Vercel"]);
        (lit "priority", VInt 3);
        (lit "revenue_target", VInt 2000);
        (lit "launch_date", VStr (lit "2025-12-15"));
        (lit "features",
           VStrs [lit "Portfolio showcase"; lit "Contact forms"; lit "Blog/updates"]) ])
  ].

Definition _get_default_project_context (project_name : str) : dict :=
  [ (lit "name", VStr project_name);
    (lit "status", VStr (lit "Unknown"));
    (lit "description",
       VStr (lit "Context unavailable - Firestore not connected"));
    (lit "offline_mode", VBool true) ].

(** [timedelta(seconds=n)] in microseconds *)
Definition timedelta_seconds (n : Z) : Z := n * 1000000.

Definition conversation_data (project : str) (messages : list dict) : dict :=
  [ (lit "project", VStr project);
    (lit "messages", VList (map VDict messages));
    (lit "message_count", VInt (Z.of_nat (length messages)));
    (lit "last_updated", VServerTimestamp);
    (lit "version", VInt 2) ].

Definition history_data (project : str) (messages : list dict) : dict :=
  [ (lit "project", VStr project);
    (lit "messages", VList (map VDict messages));
    (lit "saved_at", VServerTimestamp);
    (lit "message_count", VInt (Z.of_nat (length messages))) ].

Section Methods.
Context `{Env}.

(** [project_name.lower().replace(' ', '_')] *)
Definition doc_id_of (project_name : str) : str :=
  replace_space (str_lower project_name).

Definition cache_key_of (project_name : str) : str :=
  lit "project_" ++ project_name.

(** One turn of the loop of [_initialize_projects]. *)
Definition initialize_project (project_id : str) (project_data : dict) : M unit :=
  try_except
    (doc <- doc_get (lit "projects") project_id ;;
     match doc with
     | Some _ => ret tt
     | None =>
         let project_data := dict_set project_data (lit "created_at") VServerTimestamp in
         let project_data := dict_set project_data (lit "updated_at") VServerTimestamp in
         doc_set (lit "projects") project_id project_data
     end)
    (fun _ => ret tt).

Fixpoint initialize_project_list (projects : list (str * dict)) : M unit :=
  match projects with
  | [] => ret tt
  | (project_id, project_data) :: rest =>
      initialize_project project_id project_data ;;;
      initialize_project_list rest
  end.

Definition _initialize_projects : M unit :=
  initialize_project_list default_projects.

Definition _initialize_mission_context : M unit :=
  self <- get_cm ;;
  match cm_db self with
  | None => ret tt
  | Some _ =>
      try_except
        (mission <- doc_get (lit "mission") (lit "bootstrap") ;;
         match mission with
         | Some _ => ret tt
         | None => doc_set (lit "mission") (lit "bootstrap") mission_data
         end ;;;
         _initialize_projects)
        (fun _ => ret tt)
  end.

(** [ContextManagerV2.__init__]; the new object takes its place in the
    session state before the store is seeded. *)
Definition __init__ : M unit :=
  let project_id := getenv (lit "GCP_PROJECT_ID") in
  let self := {| cm_project_id := project_id; cm_db := None;
                 cm_cache := ∅; cm_cache_ttl := 300 |} in
  put_cm self ;;;
  if truthy_str project_id then
    match firestore_client with
    | Some _ => put_cm (set_db None self)
    | None =>
        put_cm (set_db project_id self) ;;;
        try_except _initialize_mission_context
          (fun _ => self <- get_cm ;; put_cm (set_db None self))
    end
  else ret tt.

Definition get_project_context (project_name : str) : M dict :=
  self <- get_cm ;;
  let cache_key := cache_key_of project_name in
  hit <- match cm_cache self !! cache_key with
         | Some (cached_data, cached_time) =>
             t <- now ;;
             if (t - cached_time <? timedelta_seconds (cm_cache_ttl self))%Z
             then ret (Some cached_data)
             else ret None
         | None => ret None
         end ;;
  match hit with
  | Some cached_data => ret cached_data
  | None =>
      match cm_db self with
      | None => ret (_get_default_project_context project_name)
      | Some _ =>
          try_except
            (let doc_id := doc_id_of project_name in
             project_doc <- doc_get (lit "projects") doc_id ;;
             match project_doc with
             | Some context =>
                 t <- now ;;
                 self <- get_cm ;;
                 put_cm (set_cache (<[cache_key := (context, t)]> (cm_cache self)) self) ;;;
                 ret context
             | None => ret (_get_default_project_context project_name)
             end)
            (fun _ => ret (_get_default_project_context project_name))
      end
  end.

Definition _save_conversation_history (project : str) (messages : list dict) : M unit :=
  try_except
    (history_id <- new_document_id ;;
     doc_set (lit "conversation_history") history_id (history_data project messages))
    (fun _ => ret tt).

Definition save_conversation (project : str) (messages : list dict) : M bool :=
  self <- get_cm ;;
  match cm_db self with
  | None => ret false
  | Some _ =>
      try_except
        (let doc_id := doc_id_of project in
         doc_set (lit "conversations") doc_id (conversation_data project messages) ;;;
         _save_conversation_history project messages ;;;
         ret true)
        (fun _ => ret false)
  end.

Definition update_project_status (project status : str) (updates : option dict) : M bool :=
  self <- get_cm ;;
  match cm_db self with
  | None => ret false
  | Some _ =>
      try_except
        (let doc_id := doc_id_of project in
         let update_data :=
           [ (lit "status", VStr status); (lit "updated_at", VServerTimestamp) ] in
         let update_data :=
           if truthy_dict updates
           then dict_update update_data (default [] updates)
           else update_data in
         doc_update (lit "projects") doc_id update_data ;;;
         let cache_key := cache_key_of project in
         self <- get_cm ;;
         match cm_cache self !! cache_key with
         | Some _ => put_cm (set_cache (delete cache_key (cm_cache self)) self)
         | None => ret tt
         end ;;;
         ret true)
        (fun _ => ret false)
  end.

(** [ContextManagerV2.log_execution]; the log line that follows the
    write formats [cost] with [.4f] inside the [try], so a cost without
    such a format gives [False] although the document is written. *)
Definition log_execution (project action result_text : str) (cost : pyval)
    (metadata : option dict) : M bool :=
  self <- get_cm ;;
  match cm_db self with
  | None => ret false
  | Some _ =>
      try_except
        (execution_id <- new_document_id ;;
         let execution_data :=
           [ (lit "project", VStr project); (lit "action", VStr action);
             (lit "result", VStr result_text); (lit "cost", cost);
             (lit "timestamp", VServerTimestamp) ] in
         let execution_data :=
           if truthy_dict metadata
           then dict_set execution_data (lit "metadata") (VDict (default [] metadata))
           else execution_data in
         doc_set (lit "executions") execution_id execution_data ;;;
         lift_result (format_fixed_point cost) ;;;
         ret true)
        (fun _ => ret false)
  end.

Definition clear_cache : M unit :=
  self <- get_cm ;; put_cm (set_cache ∅ self).

(** [ContextManagerV2.get_last_conversation]; the result is the stored
    value of [messages], whatever it is, once [len] has accepted it for
    the log line. *)
Definition get_last_conversation (project : str) : M pyval :=
  self <- get_cm ;;
  match cm_db self with
  | None => ret (VList [])
  | Some _ =>
      try_except
        (let doc_id := doc_id_of project in
         conversation_doc <- doc_get (lit "conversations") doc_id ;;
         match conversation_doc with
         | Some data =>
             let messages := default (VList []) (dict_get data (lit "messages")) in
             lift_result (py_len messages) ;;;
             ret messages
         | None => ret (VList [])
         end)
        (fun _ => ret (VList []))
  end.

Variable isoformat : Z -> str.

(** [ContextManagerV2.health_check] *)
Definition health_check : M dict :=
  self <- get_cm ;;
  t <- now ;;
  let status :=
    [ (lit "healthy", VBool false);
      (lit "project_configured", VBool (truthy_str (cm_project_id self)));
      (lit "client_initialized",
         VBool match cm_db self with Some _ => true | None => false end);
      (lit "timestamp", VStr (isoformat t)) ] in
  match cm_db self with
  | None => ret status
  | Some _ =>
      try_except
        (test_doc <- doc_get (lit "mission") (lit "bootstrap") ;;
         let status := dict_set status (lit "healthy") (VBool true) in
         ret (dict_set status (lit "mission_exists")
                (VBool match test_doc with Some _ => true | None => false end)))
        (fun e => ret (dict_set status (lit "error") (VStr (exn_text e))))
  end.

End Methods.
End context_manager_v2.

(** ** [app_v2.py]: the session controller *)

Module app_v2.

Definition set_messages (m : list dict) (ss : SessionState) :=
  {| ss_context_manager := ss_context_manager ss;
     ss_vertex_claude := ss_vertex_claude ss;
     ss_messages := m;
     ss_current_project := ss_current_project ss;
     ss_total_cost := ss_total_cost ss;
     ss_request_count := ss_request_count ss |}.

Definition set_request_count (n : Z) (ss : SessionState) :=
  {| ss_context_manager := ss_context_manager ss;
     ss_vertex_claude := ss_vertex_claude ss;
     ss_messages := ss_messages ss;
     ss_current_project := ss_current_project ss;
     ss_total_cost := ss_total_cost ss;
     ss_request_count := n |}.

Definition set_total_cost (c : float) (ss : SessionState) :=
  {| ss_context_manager := ss_context_manager ss;
     ss_vertex_claude := ss_vertex_claude ss;
     ss_messages := ss_messages ss;
     ss_current_project := ss_current_project ss;
     ss_total_cost := c;
     ss_request_count := ss_request_count ss |}.

Section Controller.
Context `{Env}.

(** [st.session_state.messages.append(msg)] *)
Definition append_message (msg : dict) : M unit :=
  ss <- get_session ;; put_session (set_messages (ss_messages ss ++ [msg]) ss).

(** A session before the first run of the script: nothing is stored yet. *)
Definition blank_world : World :=
  {| w_docs := ∅; w_store_ops := 0; w_auto_ids := 0; w_generate_calls := 0;
     w_time_reads := 0; w_now_reads := 0; w_trace := [] |}.

(** The first run of [initialize_session_state]: every key is absent
    from the session state and gets its initial value. *)
Definition initialize_session_state : M unit :=
  context_manager_v2.__init__ ;;;
  put_vc vertex_claude_v2.__init__ ;;;
  ss <- get_session ;;
  put_session {| ss_context_manager := ss_context_manager ss;
                 ss_vertex_claude := ss_vertex_claude ss;
                 ss_messages := [];
                 ss_current_project := lit "HAVEN Platform";
                 ss_total_cost := 0%float;
                 ss_request_count := 0 |}.

(** The message shown when the chat turn itself raised. *)
Definition chat_error_message (e : exn) : str :=
  [10060%N] ++ lit " **Error communicating with Claude**" ++ nl ++ nl ++
  lit "**Error:** " ++ exn_text e ++ nl ++
  join_lines [ [];
      lit "**Troubleshooting:**";
      lit "1. Check that Vertex AI is properly configured";
      lit "2. Verify GCP_PROJECT_ID environment variable is set";
      lit "3. Ensure Claude is enabled in Vertex AI Model Garden";
      lit "4. Check service account permissions";
      [];
      lit "**Details:**";
      lit "```" ] ++ nl ++
  format_exc e ++ nl ++ lit "```" ++ nl.

Definition handle_user_input (user_input : str) : M unit :=
  append_message (message (lit "user") user_input) ;;;
  try_except
    (ss <- get_session ;;
     context <- context_manager_v2.get_project_context (ss_current_project ss) ;;
     ss <- get_session ;;
     response <- vertex_claude_v2.chat user_input (Some context)
                   (Some (ss_messages ss)) 4096 0.7%float 3 ;;
     ss <- get_session ;;
     put_session (set_request_count (ss_request_count ss + 1) ss) ;;;
     ss <- get_session ;;
     put_session (set_total_cost
       (ss_total_cost ss + vc_last_request_cost (ss_vertex_claude ss))%float ss) ;;;
     append_message (message (lit "assistant") response) ;;;
     try_except
       (ss <- get_session ;;
        context_manager_v2.save_conversation
          (ss_current_project ss) (ss_messages ss) ;;;
        ret tt)
       (fun _ => ret tt))
    (fun e => append_message (message (lit "assistant") (chat_error_message e))).

(** [check_connections], once both gateways are in the session state. *)
Definition check_connections : M dict :=
  ss <- get_session ;;
  ret [ (lit "vertex_ai",
           VBool match vc_model (ss_vertex_claude ss) with
                 | Some _ => true | None => false end);
        (lit "firestore",
           VBool match cm_db (ss_context_manager ss) with
                 | Some _ => true | None => false end);
        (lit "project_id",
           VStr (default (lit "Not Set") (getenv (lit "GCP_PROJECT_ID")))) ].

End Controller.
End app_v2.

(** ** A concrete environment for the examples *)

Module Example.

Definition ascii_upper (s : str) : str :=
  map (fun c => if (97 <=? c)%N && (c <=? 122)%N then (c - 32)%N else c) s.

Definition ascii_lower (s : str) : str :=
  map (fun c => if (65 <=? c)%N && (c <=? 90)%N then (c + 32)%N else c) s.

Definition show_value (v : pyval) : str :=
  match v with
  | VNone => lit "None"
  | VBool true => lit "True"
  | VBool false => lit "False"
  | VStr s => s
  | _ => lit "<value>"
  end.

Definition quota_error : exn :=
  Exception (lit "ResourceExhausted") (lit "429 Quota exceeded").

Definition store_error : exn :=
  Exception (lit "ServiceUnavailable") (lit "503 failed to connect").

(** An environment in which the project is set, [answer] decides every
    call of the model and [fault] every access to the store; clocks
    advance by [tick] seconds per reading. *)
Definition env_of (project : option str)
    (answer : nat -> result Response) (fault : nat -> option exn)
    (tick : Z) : Env :=
  {| str_upper := ascii_upper;
     str_lower := ascii_lower;
     str_of_value := show_value;
     type_name := fun _ => lit "object";
     format_exc := fun e => lit "Traceback (most recent call last)";
     getenv := fun k => if str_eqb k (lit "GCP_PROJECT_ID") then project else None;
     vertexai_init := None;
     generate_content := fun k _ _ _ => answer k;
     time_time := fun k => PrimFloat.of_uint63 (Uint63.of_Z (Z.of_nat k * tick)%Z);
     datetime_now := fun k => (Z.of_nat k * tick * 1000000)%Z;
     firestore_client := None;
     store_fault := fault;
     server_time := fun k => Z.of_nat k;
     auto_id := fun k => lit "auto" ++ [(48 + N.of_nat k)%N] |}.

Definition blank_state : State :=
  {| session :=
       {| ss_context_manager :=
            {| cm_project_id := None; cm_db := None; cm_cache := ∅;
               cm_cache_ttl := 300 |};
          ss_vertex_claude :=
            {| vc_project_id := None; vc_location := []; vc_model_name := [];
               vc_model := None; vc_last_request_cost := 0%float;
               vc_total_requests := 0; vc_total_cost := 0%float;
               vc_last_response_time := 0%float |};
          ss_messages := []; ss_current_project := [];
          ss_total_cost := 0%float; ss_request_count := 0 |};
     world := app_v2.blank_world |}.

(** The state after the first run of the script in environment [E]. *)
Definition started (E : Env) : State :=
  snd (@app_v2.initialize_session_state E blank_state).

(** *** Scenarios *)

Definition no_fault : nat -> option exn := fun _ => None.
Definition all_fault : nat -> option exn := fun _ => Some store_error.

(** The model always raises. *)
Definition env_model_down : Env :=
  env_of (Some (lit "valhalla")) (fun _ => Raise quota_error) no_fault 1.

(** The model always answers [reply]. *)
Definition env_model_up (reply : str) : Env :=
  env_of (Some (lit "valhalla"))
    (fun _ => Ok {| response_text := Ok reply |}) no_fault 1.

(** The first call of the model raises, the later ones answer [reply]. *)
Definition env_model_flaky (reply : str) : Env :=
  env_of (Some (lit "valhalla"))
    (fun k => match k with
              | 0 => Raise quota_error
              | S _ => Ok {| response_text := Ok reply |}
              end) no_fault 1.

(** GCP_PROJECT_ID is not set: neither gateway is configured. *)
Definition env_unconfigured : Env :=
  env_of None (fun _ => Raise quota_error) no_fault 1.

(** The store client exists, and every access to the store raises. *)
Definition env_store_down : Env :=
  env_of (Some (lit "valhalla")) (fun _ => Raise quota_error) all_fault 1.

Definition prompt_of (E : Env) (user_message : str) (context : option dict)
    (history : option (list dict)) : str :=
  match @vertex_claude_v2._build_prompt E user_message context history with
  | Ok p => p
  | Raise _ => []
  end.

(** A user message that makes the prompt 4000 characters long, and a
    reply of 2000 characters. *)
Definition long_message : str := repeat 120%N 2920.
Definition long_reply : str := repeat 121%N 2000.


(** The context that a started session reads for the first project. *)
Definition haven : str := lit "HAVEN Platform".


(** Eleven turns of a conversation, and the transcripts built from them. *)
Definition turns11 : list (str * str) :=
  [ (lit "user", lit "one"); (lit "assistant", lit "two");
    (lit "user", lit "three"); (lit "assistant", lit "four");
    (lit "user", lit "five"); (lit "assistant", lit "six");
    (lit "user", lit "seven"); (lit "assistant", lit "eight");
    (lit "user", lit "nine"); (lit "assistant", lit "ten");
    (lit "user", lit "eleven") ].

Definition transcript (turns : list (str * str)) : list dict :=
  map (fun rc => message (fst rc) (snd rc)) turns.

(** Stand-ins for [datetime.isoformat] and for the temperature of a
    [GenerationConfig] that is given none. *)
Definition isoformat (t : Z) : str := lit "2025-10-17T12:00:00".
Definition unset_temperature : float := 1%float.

Definition small_context : option dict :=
  Some [ (lit "name", VStr haven); (lit "created_at", VDatetime 0) ].

End Example.

(** * Properties *)

(** ** Notions used in the statements *)

Section Notions.
Context `{Env}.

(** What the [k]-th call of the model comes to for the retry loop: the
    text of the response, or the exception of the call or of reading
    [response.text]. *)
Definition attempt_outcome (k : nat) (prompt : str) (max_tokens : Z)
    (temperature : float) : result str :=
  match generate_content k prompt max_tokens temperature with
  | Raise e => Raise e
  | Ok response => response_text response
  end.

(** The state in which a failed attempt leaves the gateway: the call is
    recorded, and when it was [response.text] that raised, the response
    time has been taken already. *)
Definition after_failed_attempt (prompt : str) (start_time : float)
    (max_tokens : Z) (temperature : float) (s : State) : State :=
  let s1 :=
    with_world (log_event (EvGenerate prompt max_tokens temperature)
                  (count_generate (world s))) s in
  match generate_content (w_generate_calls (world s)) prompt max_tokens temperature with
  | Raise _ => s1
  | Ok _ =>
      with_vc (vertex_claude_v2.set_last_response_time
                 (time_time (w_time_reads (world s)) - start_time)%float
                 (ss_vertex_claude (session s)))
        (with_world (count_time_read (world s1)) s1)
  end.

(** The external calls of [remaining] failed attempts, the first of them
    with index [attempt]: a wait of [2 ^ attempt] seconds follows every
    call but the last. *)
Fixpoint backoff_trace (call : event) (attempt : Z) (remaining : nat) : list event :=
  match remaining with
  | 0 => []
  | S r =>
      match r with
      | 0 => [call]
      | S _ => call :: EvSleep (2 ^ attempt) :: backoff_trace call (attempt + 1) r
      end
  end.

(** What a call of [chat] may change: the gateway object, and in the
    world the calls of the model, the readings of [time.time()] and the
    trace, which only grows. *)
Definition chat_frame (s s' : State) : Prop :=
  ss_context_manager (session s') = ss_context_manager (session s) /\
  ss_messages (session s') = ss_messages (session s) /\
  ss_current_project (session s') = ss_current_project (session s) /\
  ss_total_cost (session s') = ss_total_cost (session s) /\
  ss_request_count (session s') = ss_request_count (session s) /\
  w_docs (world s') = w_docs (world s) /\
  w_store_ops (world s') = w_store_ops (world s) /\
  w_auto_ids (world s') = w_auto_ids (world s) /\
  w_now_reads (world s') = w_now_reads (world s) /\
  exists evs, w_trace (world s') = w_trace (world s) ++ evs.

(** What [get_project_context name] finds in the cache at the time of
    its reading of the clock: the cached context, if there is an entry
    younger than the time to live. *)
Definition cache_hit (name : str) (s : State) : option dict :=
  let self := ss_context_manager (session s) in
  match cm_cache self !! context_manager_v2.cache_key_of name with
  | Some (cached_data, cached_time) =>
      if (datetime_now (w_now_reads (world s)) - cached_time
            <? context_manager_v2.timedelta_seconds (cm_cache_ttl self))%Z
      then Some cached_data else None
  | None => None
  end.

(** The clock is read only when the cache has an entry for the name. *)
Definition after_cache_check (name : str) (s : State) : State :=
  match cm_cache (ss_context_manager (session s))
          !! context_manager_v2.cache_key_of name with
  | Some _ => with_world (count_now_read (world s)) s
  | None => s
  end.

(** The outcome of reading the project document in state [s]. *)
Definition store_read (name : str) (s : State) : result (option dict) :=
  match store_fault (w_store_ops (world s)) with
  | Some e => Raise e
  | None =>
      Ok (w_docs (world s) !! (lit "projects", context_manager_v2.doc_id_of name))
  end.

Definition project_read (name : str) (outcome : result (option dict)) : event :=
  EvStore (StoreGet (lit "projects") (context_manager_v2.doc_id_of name)) outcome.

(** [n] calls of [get_project_context name] in a row. *)
Fixpoint get_many (name : str) (n : nat) : M (list dict) :=
  match n with
  | 0 => ret []
  | S n' =>
      d <- context_manager_v2.get_project_context name ;;
      ds <- get_many name n' ;;
      ret (d :: ds)
  end.

(** What a method of the persistence gateway may change: its cache, and
    in the world the store, the readings of [datetime.now()] and the
    trace, which only grows. *)
Definition store_frame (s s' : State) : Prop :=
  ss_vertex_claude (session s') = ss_vertex_claude (session s) /\
  ss_messages (session s') = ss_messages (session s) /\
  ss_current_project (session s') = ss_current_project (session s) /\
  ss_total_cost (session s') = ss_total_cost (session s) /\
  ss_request_count (session s') = ss_request_count (session s) /\
  cm_db (ss_context_manager (session s')) = cm_db (ss_context_manager (session s)) /\
  cm_cache_ttl (ss_context_manager (session s')) =
    cm_cache_ttl (ss_context_manager (session s)) /\
  w_generate_calls (world s') = w_generate_calls (world s) /\
  w_time_reads (world s') = w_time_reads (world s) /\
  exists evs, w_trace (world s') = w_trace (world s) ++ evs.

(** The write of the conversation document, with its outcome. *)
Definition primary_write (project : str) (messages : list dict)
    (outcome : result (option dict)) : event :=
  EvStore (StoreSet (lit "conversations") (context_manager_v2.doc_id_of project)
             (context_manager_v2.conversation_data project messages)) outcome.

(** The backup write to the history collection, with its outcome. *)
Definition backup_write (history_id project : str) (messages : list dict)
    (outcome : result (option dict)) : event :=
  EvStore (StoreSet (lit "conversation_history") history_id
             (context_manager_v2.history_data project messages)) outcome.

Definition write_outcome (k : nat) : result (option dict) :=
  match store_fault k with
  | Some e => Raise e
  | None => Ok None
  end.

(** *** Sessions *)

(** What can happen in a session after its start: the methods of the two
    gateways, a chat turn, and the buttons that switch the project and
    clear the transcript. *)
Inductive op :=
| GetProjectContext (name : str)
| SaveConversation (project : str) (messages : list dict)
| UpdateProjectStatus (project status : str) (updates : option dict)
| LogExecution (project action result_text : str) (cost : pyval)
    (metadata : option dict)
| ClearCache
| Chat (user_message : str) (context : option dict)
    (history : option (list dict)) (max_tokens : Z) (temperature : float)
    (retry_count : Z)
| ResetStats
| HandleUserInput (user_input : str)
| SwitchProject (name : str)
| ClearMessages.

Definition run_op (o : op) : M unit :=
  match o with
  | GetProjectContext name =>
      context_manager_v2.get_project_context name ;;; ret tt
  | SaveConversation project messages =>
      context_manager_v2.save_conversation project messages ;;; ret tt
  | UpdateProjectStatus project status updates =>
      context_manager_v2.update_project_status project status updates ;;; ret tt
  | LogExecution project action result_text cost metadata =>
      context_manager_v2.log_execution project action result_text cost metadata ;;;
      ret tt
  | ClearCache => context_manager_v2.clear_cache
  | Chat user_message context history max_tokens temperature retry_count =>
      vertex_claude_v2.chat user_message context history max_tokens temperature
        retry_count ;;; ret tt
  | ResetStats => vertex_claude_v2.reset_stats
  | HandleUserInput user_input => app_v2.handle_user_input user_input
  | SwitchProject name =>
      ss <- get_session ;;
      put_session {| ss_context_manager := ss_context_manager ss;
                     ss_vertex_claude := ss_vertex_claude ss;
                     ss_messages := ss_messages ss;
                     ss_current_project := name;
                     ss_total_cost := ss_total_cost ss;
                     ss_request_count := ss_request_count ss |}
  | ClearMessages =>
      ss <- get_session ;; put_session (app_v2.set_messages [] ss)
  end.

Fixpoint run_ops (ops : list op) : M unit :=
  match ops with
  | [] => ret tt
  | o :: rest => run_op o ;;; run_ops rest
  end.

(** The state of a session that was started from [s0] and has gone
    through [ops]. *)
Definition session_after (s0 : State) (ops : list op) : State :=
  snd (run_ops ops (snd (app_v2.initialize_session_state s0))).

(** A step that keeps the store client and the time to live, only adds
    to the trace, and adds nothing to the cache. *)
Definition quiet_step (s s' : State) : Prop :=
  cm_db (ss_context_manager (session s')) = cm_db (ss_context_manager (session s)) /\
  cm_cache_ttl (ss_context_manager (session s')) =
    cm_cache_ttl (ss_context_manager (session s)) /\
  (exists evs, w_trace (world s') = w_trace (world s) ++ evs) /\
  (forall key entry,
     cm_cache (ss_context_manager (session s')) !! key = Some entry ->
     cm_cache (ss_context_manager (session s)) !! key = Some entry).

(** Every cached context was read from the project document of its name
    by a store read that succeeded and found the document. *)
Definition cache_from_store (s : State) : Prop :=
  forall key ctx t,
    cm_cache (ss_context_manager (session s)) !! key = Some (ctx, t) ->
    exists name,
      key = context_manager_v2.cache_key_of name /\
      In (project_read name (Ok (Some ctx))) (w_trace (world s)).

(** The store is unreachable: no project is configured, or the client
    cannot be created, or every access to the store raises. *)
Definition store_down : Prop :=
  truthy_str (getenv (lit "GCP_PROJECT_ID")) = false \/
  is_Some firestore_client \/
  (forall k, is_Some (store_fault k)).

(** The gateway has nothing cached and cannot read the store. *)
Definition offline (s : State) : Prop :=
  cm_cache (ss_context_manager (session s)) = ∅ /\
  (cm_db (ss_context_manager (session s)) = None \/
   forall k, is_Some (store_fault k)).

(** *** The prompt as the specification words it *)




(** *** More notions: retries *)

(** [j] failed attempts, the first with index [attempt], each followed
    by its wait. *)
Fixpoint failed_rounds (call : event) (attempt : Z) (j : nat) : list event :=
  match j with
  | 0 => []
  | S j' => call :: EvSleep (2 ^ attempt) :: failed_rounds call (attempt + 1) j'
  end.

(** The seconds slept in a trace. *)
Fixpoint slept (evs : list event) : Z :=
  match evs with
  | [] => 0
  | EvSleep seconds :: rest => seconds + slept rest
  | _ :: rest => slept rest
  end.

(** The text that [_build_prompt] adds for well-formed messages. *)
Definition rendered (turns : list (str * str)) : str :=
  flat_map (fun rc => str_upper (fst rc) ++ lit ": " ++ snd rc ++ nl ++ nl) turns.

(** *** More notions: the store *)

(** The outcome of reading a document in state [s]. *)
Definition doc_read (collection doc_id : str) (s : State) : result (option dict) :=
  match store_fault (w_store_ops (world s)) with
  | Some e => Raise e
  | None => Ok (w_docs (world s) !! (collection, doc_id))
  end.

(** The keys of the documents that the constructor of the persistence
    gateway seeds. *)
Definition seed_keys : list (str * str) :=
  (lit "mission", lit "bootstrap") ::
  map (fun p => (lit "projects", fst p)) context_manager_v2.default_projects.

(** The number of chat turns among the steps of a session. *)
Fixpoint count_turns (ops : list op) : Z :=
  match ops with
  | [] => 0
  | HandleUserInput _ :: rest => 1 + count_turns rest
  | _ :: rest => count_turns rest
  end.

(** What [check_connections] and the error texts read of the two
    gateways: the model, the store client and the configuration they
    were built with. *)
Definition same_connections (s s' : State) : Prop :=
  vc_model (ss_vertex_claude (session s')) = vc_model (ss_vertex_claude (session s)) /\
  vc_project_id (ss_vertex_claude (session s')) =
    vc_project_id (ss_vertex_claude (session s)) /\
  vc_location (ss_vertex_claude (session s')) =
    vc_location (ss_vertex_claude (session s)) /\
  vc_model_name (ss_vertex_claude (session s')) =
    vc_model_name (ss_vertex_claude (session s)) /\
  cm_db (ss_context_manager (session s')) = cm_db (ss_context_manager (session s)) /\
  cm_project_id (ss_context_manager (session s')) =
    cm_project_id (ss_context_manager (session s)).

(** Every document of [s] is still a document of [s']. *)
Definition docs_kept (s s' : State) : Prop :=
  forall key, is_Some (w_docs (world s) !! key) -> is_Some (w_docs (world s') !! key).

(** Neither gateway has a connection, and nothing is cached. *)
Definition idle (s : State) : Prop :=
  vc_model (ss_vertex_claude (session s)) = None /\
  cm_db (ss_context_manager (session s)) = None /\
  cm_cache (ss_context_manager (session s)) = ∅.

(** What every step of a session keeps, for a step that counts [k]
    requests: the connections, the documents, and for an idle session
    the whole world. *)
Definition session_step (k : Z) (s s' : State) : Prop :=
  same_connections s s' /\
  docs_kept s s' /\
  ss_request_count (session s') = (ss_request_count (session s) + k)%Z /\
  (idle s -> idle s' /\ world s' = world s).

(** *** Runs of the script *)

Variable isoformat : Z -> str.
Variable unset_temperature : float.










End Notions.

(** ** The model gateway *)

Section VertexFacts.
Context `{Env}.
Import vertex_claude_v2.

Ltac run_step :=
  cbv beta iota zeta delta
    [chat_attempt model_generate_content _calculate_cost _format_error
     time_now now sleep bind try_except ret raise lift_result
     get_world put_world get_vc put_vc get_cm put_cm
     get_session put_session].

Lemma chat_frame_refl (s : State) : chat_frame s s.
Proof.
  unfold chat_frame. repeat split; try reflexivity.
  exists []. symmetry. apply app_nil_r.
Qed.

Lemma chat_frame_trans (s1 s2 s3 : State) :
  chat_frame s1 s2 -> chat_frame s2 s3 -> chat_frame s1 s3.
Proof.
  unfold chat_frame.
  intros (A1 & A2 & A3 & A4 & A5 & A6 & A7 & A8 & A9 & evs1 & A10)
         (B1 & B2 & B3 & B4 & B5 & B6 & B7 & B8 & B9 & evs2 & B10).
  repeat split; try congruence.
  exists (evs1 ++ evs2). rewrite B10, A10. symmetry. apply app_assoc.
Qed.

(** A failed attempt that is not the last one sleeps and goes on; the
    last one ends the call with the error text. *)
Lemma chat_attempts_fail p st mt t n a rest s e :
  attempt_outcome (w_generate_calls (world s)) p mt t = Raise e ->
  chat_attempts p st mt t n (a :: rest) s =
    let s1 := after_failed_attempt p st mt t s in
    if (a <? n - 1)%Z
    then chat_attempts p st mt t n rest
           (with_world (log_event (EvSleep (2 ^ a * 1)) (world s1)) s1)
    else (Ok (format_error_of (ss_vertex_claude (session s1))
                (lit "Vertex AI request failed") (exn_text e)
                (Some _get_troubleshooting_steps)), s1).
Proof.
  unfold attempt_outcome, after_failed_attempt. intros Hout.
  cbn [chat_attempts]. run_step. cbn [world with_world].
  destruct (generate_content (w_generate_calls (world s)) p mt t) as [resp|e'];
    cbv beta iota.
  - rewrite Hout. destruct (a <? n - 1)%Z; reflexivity.
  - injection Hout as ->. destruct (a <? n - 1)%Z; reflexivity.
Qed.

(** An attempt that gets a text ends the call: response time, cost and
    request count are recorded. *)
Lemma chat_attempts_success p st mt t n a rest s txt :
  attempt_outcome (w_generate_calls (world s)) p mt t = Ok txt ->
  chat_attempts p st mt t n (a :: rest) s =
    (Ok txt,
     let vc := ss_vertex_claude (session s) in
     with_vc
       {| vc_project_id := vc_project_id vc;
          vc_location := vc_location vc;
          vc_model_name := vc_model_name vc;
          vc_model := vc_model vc;
          vc_last_request_cost := cost_of p txt;
          vc_total_requests := vc_total_requests vc + 1;
          vc_total_cost := (vc_total_cost vc + cost_of p txt)%float;
          vc_last_response_time :=
            (time_time (w_time_reads (world s)) - st)%float |}
       (with_world
          (count_time_read
             (log_event (EvGenerate p mt t) (count_generate (world s)))) s)).
Proof.
  unfold attempt_outcome. intros Hout.
  cbn [chat_attempts]. run_step. cbn [world with_world].
  destruct (generate_content (w_generate_calls (world s)) p mt t) as [resp|e'];
    [|discriminate].
  cbv beta iota. rewrite Hout. reflexivity.
Qed.

Lemma after_failed_attempt_frame p st mt t s :
  chat_frame s (after_failed_attempt p st mt t s).
Proof.
  unfold after_failed_attempt, chat_frame.
  destruct (generate_content _ _ _ _); cbn; repeat split; eauto.
Qed.

Lemma after_failed_attempt_calls p st mt t s :
  w_generate_calls (world (after_failed_attempt p st mt t s)) =
  S (w_generate_calls (world s)).
Proof.
  unfold after_failed_attempt. destruct (generate_content _ _ _ _); reflexivity.
Qed.

Lemma after_failed_attempt_costs p st mt t s :
  let vc := ss_vertex_claude (session s) in
  let vc' := ss_vertex_claude (session (after_failed_attempt p st mt t s)) in
  vc_last_request_cost vc' = vc_last_request_cost vc /\
  vc_total_cost vc' = vc_total_cost vc /\
  vc_total_requests vc' = vc_total_requests vc /\
  vc_model vc' = vc_model vc.
Proof.
  unfold after_failed_attempt. destruct (generate_content _ _ _ _); cbn; auto.
Qed.

(** The retry loop always returns a text, whatever the model does. *)
Lemma chat_attempts_total p st mt t n attempts :
  forall s, exists txt,
    fst (chat_attempts p st mt t n attempts s) = Ok txt /\
    chat_frame s (snd (chat_attempts p st mt t n attempts s)).
Proof.
  induction attempts as [|a rest IH]; intros s.
  - eexists. split; [reflexivity|]. apply chat_frame_refl.
  - destruct (attempt_outcome (w_generate_calls (world s)) p mt t) as [txt|e] eqn:Hout.
    + rewrite (chat_attempts_success _ _ _ _ _ _ _ _ _ Hout).
      exists txt. split; [reflexivity|].
      unfold chat_frame; cbn. repeat split; eauto.
    + rewrite (chat_attempts_fail _ _ _ _ _ _ _ _ _ Hout). cbn zeta.
      pose proof (after_failed_attempt_frame p st mt t s) as Hf.
      destruct (a <? n - 1)%Z.
      * match goal with |- context [chat_attempts _ _ _ _ _ rest ?s2] =>
          destruct (IH s2) as (txt & Hr & Hfr) end.
        exists txt. split; [exact Hr|].
        eapply chat_frame_trans; [exact Hf|].
        eapply chat_frame_trans; [|exact Hfr].
        unfold chat_frame; cbn. repeat split; eauto.
      * eexists. split; [reflexivity|exact Hf].
Qed.

(** [chat] never raises, and changes nothing but the gateway's own
    object and its part of the world. *)
Lemma chat_total user_message context history mt t n s :
  exists txt,
    fst (chat user_message context history mt t n s) = Ok txt /\
    chat_frame s (snd (chat user_message context history mt t n s)).
Proof.
  unfold chat. run_step.
  destruct (vc_model (ss_vertex_claude (session s))) as [m|].
  - destruct (_build_prompt user_message context history) as [prompt|e].
    + match goal with |- context [chat_attempts ?p ?st _ _ _ ?l ?s2] =>
        destruct (chat_attempts_total p st mt t n l s2) as (txt & Hr & Hfr) end.
      exists txt. split; [exact Hr|].
      eapply chat_frame_trans; [|exact Hfr].
      unfold chat_frame; cbn. repeat split; eauto.
      exists []. symmetry. apply app_nil_r.
    + eexists. split; [reflexivity|].
      unfold chat_frame; cbn. repeat split; eauto.
      exists []. symmetry. apply app_nil_r.
  - eexists. split; [reflexivity|]. apply chat_frame_refl.
Qed.

(** With a model and a prompt, [chat] is the retry loop started after one
    reading of the clock. *)
Lemma chat_configured user_message context history mt t n s m prompt :
  vc_model (ss_vertex_claude (session s)) = Some m ->
  _build_prompt user_message context history = Ok prompt ->
  chat user_message context history mt t n s =
  chat_attempts prompt (time_time (w_time_reads (world s))) mt t n (range n)
    (with_world (count_time_read (world s)) s).
Proof.
  intros Hm Hp. unfold chat. run_step. rewrite Hm, Hp. reflexivity.
Qed.

(** The first thing a configured [chat] does to the outside, when it has
    at least one attempt, is to send the prompt it has built to the
    model. *)
Lemma chat_sends_prompt user_message context history mt t n s m prompt :
  vc_model (ss_vertex_claude (session s)) = Some m ->
  _build_prompt user_message context history = Ok prompt ->
  (0 < n)%Z ->
  exists evs,
    w_trace (world (snd (chat user_message context history mt t n s))) =
    w_trace (world s) ++ EvGenerate prompt mt t :: evs.
Proof.
  intros Hm Hp Hn. rewrite (chat_configured _ _ _ _ _ _ _ _ _ Hm Hp).
  unfold range. destruct (Z.to_nat n) as [|k] eqn:Hk; [lia|].
  cbn [seq map].
  set (s1 := with_world (count_time_read (world s)) s).
  set (st := time_time (w_time_reads (world s))).
  destruct (attempt_outcome (w_generate_calls (world s1)) prompt mt t)
    as [txt|e] eqn:Hout.
  - rewrite (chat_attempts_success _ _ _ _ _ _ _ _ _ Hout). cbn. eauto.
  - rewrite (chat_attempts_fail _ _ _ _ _ _ _ _ _ Hout). cbn zeta.
    assert (Hgen : w_trace (world (after_failed_attempt prompt st mt t s1)) =
                   w_trace (world s) ++ [EvGenerate prompt mt t]).
    { unfold after_failed_attempt. destruct (generate_content _ _ _ _); reflexivity. }
    destruct (Z.of_nat 0 <? n - 1)%Z.
    + match goal with |- context [chat_attempts ?p ?st' _ _ _ ?l ?s2] =>
        destruct (chat_attempts_total p st' mt t n l s2)
          as (txt & _ & (_ & _ & _ & _ & _ & _ & _ & _ & _ & evs & Hev)) end.
      rewrite Hev. cbn [world with_world log_event w_trace]. rewrite Hgen.
      rewrite <- !app_assoc. cbn. eauto.
    + cbn [snd]. rewrite Hgen. eauto.
Qed.

End VertexFacts.

Section VertexTheorems.
Context `{Env}.
Import vertex_claude_v2.



(** A call of [chat] whose first [j] attempts fail and whose next attempt
    gets the text [txt] returns [txt] and records its cost. *)
Lemma chat_attempts_succeeds p st mt t n txt :
  forall j m i s,
    j < m -> (Z.of_nat i + Z.of_nat m = n)%Z ->
    (forall i', i' < j ->
       exists e, attempt_outcome (w_generate_calls (world s) + i') p mt t = Raise e) ->
    attempt_outcome (w_generate_calls (world s) + j) p mt t = Ok txt ->
    let r := chat_attempts p st mt t n (map Z.of_nat (seq i m)) s in
    let vc := ss_vertex_claude (session s) in
    let vc' := ss_vertex_claude (session (snd r)) in
    fst r = Ok txt /\
    vc_last_request_cost vc' = cost_of p txt /\
    vc_total_cost vc' = (vc_total_cost vc + cost_of p txt)%float /\
    vc_total_requests vc' = (vc_total_requests vc + 1)%Z.
Proof.
  induction j as [|j IH]; intros m i s Hjm Hn Hfail Hok.
  - destruct m as [|m]; [lia|]. cbn [seq map].
    rewrite Nat.add_0_r in Hok.
    rewrite (chat_attempts_success _ _ _ _ _ _ _ _ _ Hok). cbn. auto.
  - destruct m as [|m]; [lia|]. cbn [seq map].
    destruct (Hfail 0 ltac:(lia)) as (e & He). rewrite Nat.add_0_r in He.
    rewrite (chat_attempts_fail _ _ _ _ _ _ _ _ _ He). cbn zeta.
    replace (Z.of_nat i <? n - 1)%Z with true by (symmetry; apply Z.ltb_lt; lia).
    pose proof (after_failed_attempt_costs p st mt t s) as (C1 & C2 & C3 & _).
    pose proof (after_failed_attempt_calls p st mt t s) as Hcalls.
    match goal with |- context [chat_attempts _ _ _ _ _ _ ?s2] =>
      destruct (IH m (S i) s2) as (Hr & R1 & R2 & R3) end.
    + lia.
    + lia.
    + intros i' Hi'. cbn [world with_world log_event w_generate_calls].
      rewrite Hcalls. destruct (Hfail (S i') ltac:(lia)) as (e' & He').
      exists e'. rewrite <- He'. f_equal. lia.
    + cbn [world with_world log_event w_generate_calls]. rewrite Hcalls.
      rewrite <- Hok. f_equal. lia.
    + cbn [session with_world] in R2, R3.
      rewrite Hr, R1, R2, R3, C2, C3. auto.
Qed.

(** The estimate for a prompt of 4000 characters and a response of 2000
    characters, as binary64 arithmetic gives it. *)
Lemma cost_of_4000_2000 (prompt response : str) :
  length prompt = 4000 -> length response = 2000 ->
  cost_of prompt response = 0.010499999999999999%float.
Proof.
  intros Hp Hr. unfold cost_of, float_of_len. rewrite Hp, Hr.
  vm_compute. reflexivity.
Qed.

(** C7, as the code has it.  A [chat] call that succeeds, at its first
    attempt or after failed ones, records in [last_request_cost] the
    binary64 value of
    [(len(prompt)/4/1000)*0.003 + (len(response)/4/1000)*0.015] and adds it
    to [total_cost]; for a prompt of 4000 characters and a response of
    2000 characters that value is 0.010499999999999999, the double just
    below the one nearest to 0.0105. *)
Theorem chat_records_cost user_message context history mt t n s model prompt
    (j : nat) (txt : str) :
  vc_model (ss_vertex_claude (session s)) = Some model ->
  _build_prompt user_message context history = Ok prompt ->
  (Z.of_nat j < n)%Z ->
  (forall i, i < j ->
     exists e, attempt_outcome (w_generate_calls (world s) + i) prompt mt t = Raise e) ->
  attempt_outcome (w_generate_calls (world s) + j) prompt mt t = Ok txt ->
  let r := chat user_message context history mt t n s in
  let vc := ss_vertex_claude (session s) in
  let vc' := ss_vertex_claude (session (snd r)) in
  fst r = Ok txt /\
  vc_last_request_cost vc' =
    (float_of_len prompt / 4 / 1000 * 0.003 + float_of_len txt / 4 / 1000 * 0.015)%float /\
  vc_total_cost vc' = (vc_total_cost vc + vc_last_request_cost vc')%float /\
  (length prompt = 4000 -> length txt = 2000 ->
   vc_last_request_cost vc' = 0.010499999999999999%float).
Proof.
  intros Hm Hp Hj Hfail Hok r vc vc'. subst r vc vc'.
  rewrite (chat_configured _ _ _ _ _ _ _ _ _ Hm Hp).
  match goal with |- context [chat_attempts _ ?st _ _ _ _ ?s2] =>
    destruct (chat_attempts_succeeds prompt st mt t n txt j (Z.to_nat n) 0 s2)
      as (Hr & R1 & R2 & _) end; try assumption; try lia.
  unfold range. rewrite Hr, R1, R2. cbn [session with_world].
  repeat split. intros L1 L2. apply cost_of_4000_2000; assumption.
Qed.

(** C9, as the code has it.  [reset_stats] sets the request counter, the
    total cost and also the cost of the last request to zero; the last
    response time, the configuration, the rest of the session and the
    world stay as they were. *)
Theorem reset_stats_effect (s : State) :
  let vc := ss_vertex_claude (session s) in
  let r := reset_stats s in
  let vc' := ss_vertex_claude (session (snd r)) in
  fst r = Ok tt /\
  vc_total_requests vc' = 0%Z /\
  vc_total_cost vc' = 0%float /\
  vc_last_request_cost vc' = 0%float /\
  vc_last_response_time vc' = vc_last_response_time vc /\
  vc_project_id vc' = vc_project_id vc /\
  vc_location vc' = vc_location vc /\
  vc_model_name vc' = vc_model_name vc /\
  vc_model vc' = vc_model vc /\
  snd r = with_vc vc' s.
Proof. repeat split. Qed.

End VertexTheorems.

Ltac float_neq :=
  let H := fresh "H" in
  intro H; apply (f_equal Prim2SF) in H; vm_compute in H; discriminate H.


Lemma chat_records_cost_witness :
  let E := Example.env_model_up Example.long_reply in
  let s := Example.started E in
  vc_last_request_cost
    (ss_vertex_claude (session (snd (@vertex_claude_v2.chat E Example.long_message
                                       None None 4096 0.7%float 3 s)))) =
  0.010499999999999999%float.
Proof.
  intros E s.
  refine (proj2 (proj2 (proj2 (@chat_records_cost E Example.long_message None None
            4096 0.7%float 3 s (lit "claude-3-5-sonnet@20240620")
            (Example.prompt_of E Example.long_message None None)
            0 Example.long_reply _ _ _ _ _))) _ _).
  - vm_compute. reflexivity.
  - vm_compute. reflexivity.
  - lia.
  - intros i Hi. lia.
  - vm_compute. reflexivity.
  - vm_compute. reflexivity.
  - vm_compute. reflexivity.
Defined.

(** The claimed value 0.0105 is not what a successful call with a prompt
    of 4000 characters and a response of 2000 characters records. *)
Lemma chat_cost_not_0_0105 :
  let E := Example.env_model_up Example.long_reply in
  let r := @vertex_claude_v2.chat E Example.long_message None None
             4096 0.7%float 3 (Example.started E) in
  length (Example.prompt_of E Example.long_message None None) = 4000 /\
  fst r = Ok Example.long_reply /\
  length Example.long_reply = 2000 /\
  vc_last_request_cost (ss_vertex_claude (session (snd r))) <> 0.0105%float.
Proof.
  cbv zeta. repeat split; try (vm_compute; reflexivity).
  float_neq.
Qed.

(** After a successful call, [reset_stats] does not keep the cost of the
    last request. *)
Lemma reset_stats_clears_last_cost :
  ~ (forall s : State,
       vc_last_request_cost
         (ss_vertex_claude (session (snd (vertex_claude_v2.reset_stats s)))) =
       vc_last_request_cost (ss_vertex_claude (session s))).
Proof.
  intros Hkeep.
  pose (E := Example.env_model_up Example.long_reply).
  specialize (Hkeep
    (snd (@vertex_claude_v2.chat E Example.long_message None None
            4096 0.7%float 3 (Example.started E)))).
  revert Hkeep. float_neq.
Qed.

(** ** The persistence gateway *)

Tactic Notation "simpl_state" :=
  cbn [world session with_world with_session with_cm with_vc
       w_docs w_store_ops w_auto_ids w_generate_calls w_time_reads
       w_now_reads w_trace log_event count_generate count_time_read
       count_now_read count_auto_id count_store_op
       ss_context_manager ss_vertex_claude ss_messages ss_current_project
       ss_total_cost ss_request_count
       cm_project_id cm_db cm_cache cm_cache_ttl
       context_manager_v2.set_cache context_manager_v2.set_db fst snd].

Tactic Notation "simpl_state" "in" hyp(H) :=
  cbn [world session with_world with_session with_cm with_vc
       w_docs w_store_ops w_auto_ids w_generate_calls w_time_reads
       w_now_reads w_trace log_event count_generate count_time_read
       count_now_read count_auto_id count_store_op
       ss_context_manager ss_vertex_claude ss_messages ss_current_project
       ss_total_cost ss_request_count
       cm_project_id cm_db cm_cache cm_cache_ttl
       context_manager_v2.set_cache context_manager_v2.set_db fst snd] in H.

Section StoreFacts.
Context `{Env}.
Import context_manager_v2.

Ltac run_cm :=
  cbv beta iota zeta delta
    [get_project_context save_conversation _save_conversation_history
     update_project_status log_execution clear_cache
     doc_get doc_set doc_update store_access store_answer new_document_id
     now bind try_except ret raise lift_result
     get_world put_world get_cm put_cm get_session put_session].

Lemma store_frame_refl (s : State) : store_frame s s.
Proof.
  unfold store_frame. repeat split; try reflexivity.
  exists []. symmetry. apply app_nil_r.
Qed.

Lemma store_frame_trans (s1 s2 s3 : State) :
  store_frame s1 s2 -> store_frame s2 s3 -> store_frame s1 s3.
Proof.
  unfold store_frame.
  intros (A1 & A2 & A3 & A4 & A5 & A6 & A7 & A8 & A9 & evs1 & A10)
         (B1 & B2 & B3 & B4 & B5 & B6 & B7 & B8 & B9 & evs2 & B10).
  repeat split; try congruence.
  exists (evs1 ++ evs2). rewrite B10, A10. symmetry. apply app_assoc.
Qed.

Lemma after_cache_check_frame name s : store_frame s (after_cache_check name s).
Proof.
  unfold after_cache_check.
  destruct (cm_cache _ !! cache_key_of name); [|apply store_frame_refl].
  unfold store_frame; simpl_state. repeat split; try reflexivity.
  exists []. symmetry. apply app_nil_r.
Qed.

(** *** The cases of [get_project_context] *)

Lemma gpc_hit name s d :
  cache_hit name s = Some d ->
  get_project_context name s = (Ok d, after_cache_check name s).
Proof.
  unfold cache_hit, after_cache_check. run_cm.
  destruct (cm_cache _ !! cache_key_of name) as [[cd ct]|]; [|discriminate].
  cbv beta iota.
  destruct (_ <? _)%Z; [|discriminate]. intros [= ->]. reflexivity.
Qed.

Lemma gpc_no_db name s :
  cache_hit name s = None ->
  cm_db (ss_context_manager (session s)) = None ->
  get_project_context name s =
    (Ok (_get_default_project_context name), after_cache_check name s).
Proof.
  unfold cache_hit, after_cache_check. run_cm. intros Hhit Hdb.
  destruct (cm_cache _ !! cache_key_of name) as [[cd ct]|]; cbv beta iota.
  - destruct (_ <? _)%Z; [discriminate|]. rewrite Hdb. reflexivity.
  - rewrite Hdb. reflexivity.
Qed.

Lemma gpc_found name s db ctx :
  cache_hit name s = None ->
  cm_db (ss_context_manager (session s)) = Some db ->
  store_read name s = Ok (Some ctx) ->
  get_project_context name s =
    (Ok ctx,
     let s1 := after_cache_check name s in
     let w2 := log_event (project_read name (Ok (Some ctx)))
                 (count_store_op (w_docs (world s1)) (world s1)) in
     with_cm (set_cache (<[cache_key_of name := (ctx, datetime_now (w_now_reads w2))]>
                           (cm_cache (ss_context_manager (session s))))
                (ss_context_manager (session s)))
       (with_world (count_now_read w2) s1)).
Proof.
  unfold cache_hit, after_cache_check, store_read, project_read. run_cm.
  intros Hhit Hdb Hread.
  destruct (store_fault (w_store_ops (world s))) as [e|] eqn:Hf; [discriminate|].
  injection Hread as Hdoc.
  destruct (cm_cache _ !! cache_key_of name) as [[cd ct]|]; cbv beta iota.
  - destruct (_ <? _)%Z; [discriminate|]. rewrite Hdb. simpl_state.
    rewrite Hf, Hdoc. reflexivity.
  - rewrite Hdb. simpl_state. rewrite Hf, Hdoc. reflexivity.
Qed.

Lemma gpc_fallback name s db :
  cache_hit name s = None ->
  cm_db (ss_context_manager (session s)) = Some db ->
  (forall ctx, store_read name s <> Ok (Some ctx)) ->
  get_project_context name s =
    (Ok (_get_default_project_context name),
     let s1 := after_cache_check name s in
     with_world (log_event (project_read name (store_read name s))
                   (count_store_op (w_docs (world s1)) (world s1))) s1).
Proof.
  unfold cache_hit, after_cache_check, store_read, project_read. run_cm.
  intros Hhit Hdb Hread.
  destruct (cm_cache _ !! cache_key_of name) as [[cd ct]|]; cbv beta iota.
  - destruct (_ <? _)%Z; [discriminate|]. rewrite Hdb. simpl_state.
    destruct (store_fault (w_store_ops (world s))) as [e|]; [reflexivity|].
    destruct (w_docs (world s) !! (lit "projects", doc_id_of name)) as [ctx|];
      [exfalso; apply (Hread ctx); reflexivity | reflexivity].
  - rewrite Hdb. simpl_state.
    destruct (store_fault (w_store_ops (world s))) as [e|]; [reflexivity|].
    destruct (w_docs (world s) !! (lit "projects", doc_id_of name)) as [ctx|];
      [exfalso; apply (Hread ctx); reflexivity | reflexivity].
Qed.

(** [get_project_context] never raises and stays within its frame. *)
Lemma get_project_context_total name s :
  exists d,
    fst (get_project_context name s) = Ok d /\
    store_frame s (snd (get_project_context name s)).
Proof.
  pose proof (after_cache_check_frame name s) as Hf.
  destruct (cache_hit name s) as [d|] eqn:Hhit.
  - rewrite (gpc_hit _ _ _ Hhit). eauto.
  - destruct (cm_db (ss_context_manager (session s))) as [db|] eqn:Hdb.
    + destruct (store_read name s) as [[ctx|]|e] eqn:Hr.
      * rewrite (gpc_found _ _ _ _ Hhit Hdb Hr). eexists. split; [reflexivity|].
        eapply store_frame_trans; [exact Hf|].
        unfold store_frame; simpl_state.
        assert (Hdb' : cm_db (ss_context_manager (session (after_cache_check name s)))
                       = cm_db (ss_context_manager (session s))) by apply Hf.
        assert (Httl : cm_cache_ttl (ss_context_manager (session (after_cache_check name s)))
                       = cm_cache_ttl (ss_context_manager (session s))) by apply Hf.
        repeat split; eauto.
      * rewrite (gpc_fallback _ _ _ Hhit Hdb) by (rewrite Hr; discriminate).
        eexists. split; [reflexivity|].
        eapply store_frame_trans; [exact Hf|].
        unfold store_frame; simpl_state. repeat split; eauto.
      * rewrite (gpc_fallback _ _ _ Hhit Hdb) by (rewrite Hr; discriminate).
        eexists. split; [reflexivity|].
        eapply store_frame_trans; [exact Hf|].
        unfold store_frame; simpl_state. repeat split; eauto.
    + rewrite (gpc_no_db _ _ Hhit Hdb). eauto.
Qed.

(** *** [save_conversation] *)

Lemma save_conversation_run project messages s :
  save_conversation project messages s =
    match cm_db (ss_context_manager (session s)) with
    | None => (Ok false, s)
    | Some _ =>
        let w := world s in
        let k := w_store_ops w in
        match store_fault k with
        | Some e =>
            (Ok false,
             with_world (log_event (primary_write project messages (Raise e))
                           (count_store_op (w_docs w) w)) s)
        | None =>
            let w1 :=
              log_event (primary_write project messages (Ok None))
                (count_store_op
                   (<[(lit "conversations", doc_id_of project) :=
                        resolve_timestamps (server_time k)
                          (conversation_data project messages)]> (w_docs w)) w) in
            let w2 := count_auto_id w1 in
            let history_id := auto_id (w_auto_ids w) in
            (Ok true,
             with_world
               (log_event (backup_write history_id project messages (write_outcome (S k)))
                  (count_store_op
                     match store_fault (S k) with
                     | Some _ => w_docs w2
                     | None =>
                         <[(lit "conversation_history", history_id) :=
                             resolve_timestamps (server_time (S k))
                               (history_data project messages)]> (w_docs w2)
                     end w2)) s)
        end
    end.
Proof.
  unfold primary_write, backup_write, write_outcome. run_cm.
  destruct (cm_db (ss_context_manager (session s))); [|reflexivity].
  simpl_state.
  destruct (store_fault (w_store_ops (world s))); [reflexivity|].
  simpl_state.
  destruct (store_fault (S (w_store_ops (world s)))); reflexivity.
Qed.

Lemma save_conversation_total project messages s :
  exists b,
    fst (save_conversation project messages s) = Ok b /\
    store_frame s (snd (save_conversation project messages s)) /\
    cm_cache (ss_context_manager (session (snd (save_conversation project messages s))))
      = cm_cache (ss_context_manager (session s)).
Proof.
  rewrite save_conversation_run.
  destruct (cm_db (ss_context_manager (session s))).
  - cbv zeta. destruct (store_fault (w_store_ops (world s))).
    + eexists. split; [reflexivity|]. split; [|reflexivity].
      unfold store_frame; simpl_state. repeat split; eauto.
    + eexists. split; [reflexivity|]. split; [|reflexivity].
      unfold store_frame; simpl_state. repeat split.
      rewrite <- app_assoc. eauto.
  - eexists. split; [reflexivity|]. split; [apply store_frame_refl|reflexivity].
Qed.

Lemma collections_differ :
  lit "conversation_history" <> lit "conversations".
Proof. vm_compute. discriminate. Qed.

(** C4. [save_conversation] never raises.  It returns [True] exactly when
    there is a store client and the write of the conversation document
    succeeds; then the trace shows that write followed by the backup write
    with whatever outcome the backup had, so a failed backup does not
    change the result.  When it returns [False], no successful write of the
    conversation document has taken place. *)
Theorem save_conversation_result project messages s :
  let r := save_conversation project messages s in
  let k := w_store_ops (world s) in
  exists b,
    fst r = Ok b /\
    (b = true <->
     is_Some (cm_db (ss_context_manager (session s))) /\ store_fault k = None) /\
    (b = true ->
     w_trace (world (snd r)) =
       w_trace (world s) ++
       [primary_write project messages (Ok None);
        backup_write (auto_id (w_auto_ids (world s))) project messages
          (write_outcome (S k))]) /\
    (b = false ->
     forall evs,
       w_trace (world (snd r)) <>
       w_trace (world s) ++ primary_write project messages (Ok None) :: evs).
Proof.
  cbv zeta. rewrite save_conversation_run.
  destruct (cm_db (ss_context_manager (session s))) as [db|].
  - cbv zeta. destruct (store_fault (w_store_ops (world s))) as [e|].
    + exists false. split; [reflexivity|]. split; [|split].
      * split; [discriminate|]. intros [_ ?]; discriminate.
      * discriminate.
      * intros _ evs. simpl_state. intros Heq.
        apply app_inv_head in Heq. discriminate Heq.
    + exists true. split; [reflexivity|]. split; [|split].
      * split; [intros _; split; [eexists|]; reflexivity | reflexivity].
      * intros _. simpl_state. rewrite <- app_assoc. reflexivity.
      * discriminate.
  - exists false. split; [reflexivity|]. split; [|split].
    + split; [discriminate|]. intros [[? ?] _]; discriminate.
    + discriminate.
    + intros _ evs Heq. apply (f_equal (@length event)) in Heq.
      rewrite length_app in Heq. cbn in Heq. lia.
Qed.

(** C8. A save replaces the conversation document of the project: after a
    save of [m1] (successful or not) and a successful save of [m2], the
    document holds the project, the messages of [m2] and nothing of [m1],
    their count, the server time of the second write, and version 2. *)
Theorem save_conversation_overwrites project m1 m2 s :
  let s1 := snd (save_conversation project m1 s) in
  let r2 := save_conversation project m2 s1 in
  fst r2 = Ok true ->
  w_docs (world (snd r2)) !! (lit "conversations", doc_id_of project) =
    Some [ (lit "project", VStr project);
           (lit "messages", VList (map VDict m2));
           (lit "message_count", VInt (Z.of_nat (length m2)));
           (lit "last_updated", VDatetime (server_time (w_store_ops (world s1))));
           (lit "version", VInt 2) ].
Proof.
  cbv zeta. set (s1 := snd (save_conversation project m1 s)).
  rewrite (save_conversation_run project m2 s1).
  destruct (cm_db (ss_context_manager (session s1))); [|discriminate].
  cbv zeta. destruct (store_fault (w_store_ops (world s1))); [discriminate|].
  intros _. simpl_state.
  destruct (store_fault (S (w_store_ops (world s1)))).
  - rewrite lookup_insert_eq. reflexivity.
  - rewrite lookup_insert_ne
      by (intros [= Hc _]; exact (collections_differ Hc)).
    rewrite lookup_insert_eq. reflexivity.
Qed.

(** *** The cache and its time to live *)

Lemma iter_now_read_fields n w :
  let w' := Nat.iter n count_now_read w in
  w_now_reads w' = w_now_reads w + n /\
  w_trace w' = w_trace w /\
  w_store_ops w' = w_store_ops w /\
  w_docs w' = w_docs w.
Proof.
  induction n as [|n IH]; cbv zeta in *.
  - cbn. rewrite Nat.add_0_r. auto.
  - change (Nat.iter (S n) count_now_read w)
      with (count_now_read (Nat.iter n count_now_read w)).
    simpl_state. destruct IH as (-> & -> & -> & ->).
    rewrite Nat.add_succ_r. auto.
Qed.

(** As long as the entry is younger than the time to live, every call
    answers from the cache and only reads the clock. *)
Lemma get_many_hits name ctx t :
  forall n s,
    cm_cache (ss_context_manager (session s)) !! cache_key_of name = Some (ctx, t) ->
    (forall i, i < n ->
       (datetime_now (w_now_reads (world s) + i) - t
          < timedelta_seconds (cm_cache_ttl (ss_context_manager (session s))))%Z) ->
    get_many name n s =
      (Ok (repeat ctx n), with_world (Nat.iter n count_now_read (world s)) s).
Proof.
  induction n as [|n IH]; intros s Hentry Hfresh.
  - destruct s as [ss w]. reflexivity.
  - cbn [get_many]. unfold bind at 1.
    assert (Hhit : cache_hit name s = Some ctx).
    { unfold cache_hit. rewrite Hentry.
      specialize (Hfresh 0 ltac:(lia)). rewrite Nat.add_0_r in Hfresh.
      apply Z.ltb_lt in Hfresh. rewrite Hfresh. reflexivity. }
    rewrite (gpc_hit _ _ _ Hhit). unfold after_cache_check. rewrite Hentry.
    unfold bind at 1. rewrite IH.
    + cbn [ret repeat]. rewrite Nat.iter_succ_r. reflexivity.
    + exact Hentry.
    + intros i Hi. simpl_state. specialize (Hfresh (S i) ltac:(lia)).
      rewrite Nat.add_succ_r in Hfresh. exact Hfresh.
Qed.

(** A fetch from the store followed by any number of calls for the name
    with nothing in between: the calls whose readings of the clock are
    earlier than [t + 300 s] return the fetched context and leave the
    store and the trace untouched, and a following call whose reading is
    [t + 300 s] or later reads the project document again. *)
Lemma consecutive_lookups_hit name s0 db ctx :
  cm_cache_ttl (ss_context_manager (session s0)) = 300%Z ->
  cache_hit name s0 = None ->
  cm_db (ss_context_manager (session s0)) = Some db ->
  store_read name s0 = Ok (Some ctx) ->
  let r0 := get_project_context name s0 in
  let s := snd r0 in
  let t := datetime_now (Nat.pred (w_now_reads (world s))) in
  fst r0 = Ok ctx /\
  cm_cache (ss_context_manager (session s)) !! cache_key_of name = Some (ctx, t) /\
  forall n,
    (forall i, i < n ->
       (datetime_now (w_now_reads (world s) + i) < t + 300000000)%Z) ->
    let r := get_many name n s in
    fst r = Ok (repeat ctx n) /\
    w_trace (world (snd r)) = w_trace (world s) /\
    w_store_ops (world (snd r)) = w_store_ops (world s) /\
    w_docs (world (snd r)) = w_docs (world s) /\
    ((t + 300000000 <= datetime_now (w_now_reads (world s) + n))%Z ->
     w_trace (world (snd (get_project_context name (snd r)))) =
       w_trace (world s) ++ [project_read name (store_read name (snd r))]).
Proof.
  intros Httl Hmiss Hdb Hread. cbv zeta.
  rewrite (gpc_found _ _ _ _ Hmiss Hdb Hread). cbv zeta. simpl_state.
  set (s1 := after_cache_check name s0).
  set (t := datetime_now (w_now_reads (world s1))).
  split; [reflexivity|]. split; [apply lookup_insert_eq|].
  intros n Hfresh.
  match goal with |- context [get_many name n ?s2] => set (s := s2) end.
  assert (Hentry : cm_cache (ss_context_manager (session s)) !! cache_key_of name
                   = Some (ctx, t)) by apply lookup_insert_eq.
  assert (Httl' : cm_cache_ttl (ss_context_manager (session s)) = 300%Z) by exact Httl.
  rewrite (get_many_hits name ctx t n s Hentry).
  2:{ intros i Hi. rewrite Httl'. specialize (Hfresh i Hi).
      unfold timedelta_seconds. subst s t. simpl_state. simpl_state in Hfresh.
      cbn [Nat.pred] in Hfresh. lia. }
  pose proof (iter_now_read_fields n (world s)) as (Hnow & Htr & Hops & Hdocs).
  simpl_state. rewrite Htr, Hops, Hdocs.
  split; [reflexivity|]. split; [reflexivity|]. split; [reflexivity|].
  split; [reflexivity|].
  intros Hstale.
  set (s' := with_world (Nat.iter n count_now_read (world s)) s).
  assert (Hmiss' : cache_hit name s' = None).
  { unfold cache_hit. subst s'. simpl_state. change (cm_cache _) with
      (cm_cache (ss_context_manager (session s))). rewrite Hentry, Hnow.
    change (cm_cache_ttl _) with (cm_cache_ttl (ss_context_manager (session s))).
    rewrite Httl'. unfold timedelta_seconds.
    replace (_ <? _)%Z with false; [reflexivity|].
    symmetry. apply Z.ltb_ge. subst s. simpl_state. simpl_state in Hstale.
    cbn [Nat.pred] in Hstale. fold t in Hstale. lia. }
  assert (Hdb' : cm_db (ss_context_manager (session s')) = Some db) by exact Hdb.
  assert (Hcheck : w_trace (world (after_cache_check name s')) = w_trace (world s)).
  { unfold after_cache_check.
    destruct (cm_cache _ !! cache_key_of name); subst s'; simpl_state; exact Htr. }
  destruct (store_read name s') as [[ctx'|]|e] eqn:Hr.
  - rewrite (gpc_found _ _ _ _ Hmiss' Hdb' Hr). cbv zeta. simpl_state.
    rewrite Hcheck. reflexivity.
  - rewrite (gpc_fallback _ _ _ Hmiss' Hdb') by (rewrite Hr; discriminate).
    cbv zeta. simpl_state. rewrite Hcheck, Hr. reflexivity.
  - rewrite (gpc_fallback _ _ _ Hmiss' Hdb') by (rewrite Hr; discriminate).
    cbv zeta. simpl_state. rewrite Hcheck, Hr. reflexivity.
Qed.

End StoreFacts.

(** ** Sessions *)

Section SessionFacts.
Context `{Env}.
Import context_manager_v2.

Ltac run_cm :=
  cbv beta iota zeta delta
    [get_project_context save_conversation _save_conversation_history
     update_project_status log_execution clear_cache
     doc_get doc_set doc_update store_access store_answer new_document_id
     now bind try_except ret raise lift_result
     get_world put_world get_cm put_cm get_session put_session].

Lemma grows_refl (l : list event) : exists evs, l = l ++ evs.
Proof. exists []. symmetry. apply app_nil_r. Qed.

Lemma grows_one (l : list event) e : exists evs, l ++ [e] = l ++ evs.
Proof. eauto. Qed.

Lemma quiet_step_refl s : quiet_step s s.
Proof. unfold quiet_step. auto using grows_refl. Qed.

Lemma chat_frame_quiet s s' : chat_frame s s' -> quiet_step s s'.
Proof.
  intros (Hcm & _ & _ & _ & _ & _ & _ & _ & _ & Hev).
  unfold quiet_step. rewrite Hcm. auto.
Qed.

(** A step that changes only the transcript, the project selector or
    the counters of the session is quiet. *)
Lemma session_only_quiet s s' :
  ss_context_manager (session s') = ss_context_manager (session s) ->
  world s' = world s ->
  quiet_step s s'.
Proof.
  intros Hcm Hw. unfold quiet_step. rewrite Hcm, Hw. auto using grows_refl.
Qed.

Lemma save_conversation_quiet project messages s :
  quiet_step s (snd (save_conversation project messages s)).
Proof.
  destruct (save_conversation_total project messages s) as (b & _ & Hf & Hc).
  destruct Hf as (_ & _ & _ & _ & _ & Hdb & Httl & _ & _ & Hev).
  unfold quiet_step. rewrite Hc. auto.
Qed.

Lemma update_project_status_quiet project status updates s :
  exists b,
    fst (update_project_status project status updates s) = Ok b /\
    quiet_step s (snd (update_project_status project status updates s)).
Proof.
  run_cm. unfold quiet_step.
  destruct (cm_db (ss_context_manager (session s))) eqn:Hdb.
  2:{ eexists. split; [reflexivity|]. simpl_state.
      rewrite Hdb. auto using grows_refl. }
  simpl_state.
  destruct (store_fault (w_store_ops (world s))).
  { eexists. split; [reflexivity|]. simpl_state.
    rewrite Hdb. auto using grows_one. }
  destruct (w_docs (world s) !! (lit "projects", doc_id_of project)).
  2:{ eexists. split; [reflexivity|]. simpl_state.
      rewrite Hdb. auto using grows_one. }
  simpl_state.
  destruct (cm_cache (ss_context_manager (session s)) !! cache_key_of project)
    eqn:Hk.
  - eexists. split; [reflexivity|]. simpl_state. rewrite Hdb.
    repeat split; auto using grows_one.
    intros key entry Hl. apply lookup_delete_Some in Hl. tauto.
  - eexists. split; [reflexivity|]. simpl_state.
    rewrite Hdb. auto using grows_one.
Qed.

Lemma log_execution_quiet project action result_text cost metadata s :
  exists b,
    fst (log_execution project action result_text cost metadata s) = Ok b /\
    quiet_step s (snd (log_execution project action result_text cost metadata s)).
Proof.
  run_cm. unfold quiet_step.
  destruct (cm_db (ss_context_manager (session s))) eqn:Hdb.
  2:{ eexists. split; [reflexivity|]. simpl_state.
      rewrite Hdb. auto using grows_refl. }
  simpl_state.
  destruct (store_fault (w_store_ops (world s)));
    [|destruct (format_fixed_point cost)];
    eexists; (split; [reflexivity|]); simpl_state; rewrite Hdb;
    auto using grows_one.
Qed.

Lemma clear_cache_quiet s : quiet_step s (snd (clear_cache s)).
Proof.
  run_cm. unfold quiet_step. simpl_state.
  repeat split; auto using grows_refl.
  intros key entry Hl. rewrite lookup_empty in Hl. discriminate.
Qed.

(** A chat turn is its three calls in a row; none of them raises, so the
    handlers of the turn are never entered. *)
Lemma handle_user_input_run user_input s :
  let s1 :=
    with_session
      (app_v2.set_messages
         (ss_messages (session s) ++ [message (lit "user") user_input])
         (session s)) s in
  let r2 := get_project_context (ss_current_project (session s1)) s1 in
  forall context, fst r2 = Ok context ->
  let s2 := snd r2 in
  let r3 :=
    vertex_claude_v2.chat user_input (Some context)
      (Some (ss_messages (session s2))) 4096 0.7%float 3 s2 in
  forall response, fst r3 = Ok response ->
  let s3 := snd r3 in
  let s4 :=
    with_session
      (app_v2.set_messages
         (ss_messages (session s3) ++ [message (lit "assistant") response])
         (app_v2.set_total_cost
            (ss_total_cost (session s3) +
             vc_last_request_cost (ss_vertex_claude (session s3)))%float
            (app_v2.set_request_count (ss_request_count (session s3) + 1)
               (session s3)))) s3 in
  let r5 :=
    save_conversation (ss_current_project (session s4))
      (ss_messages (session s4)) s4 in
  app_v2.handle_user_input user_input s = (Ok tt, snd r5).
Proof.
  intros s1 r2 context H2 s2 r3 response H3 s3 s4 r5.
  destruct (save_conversation_total (ss_current_project (session s4))
              (ss_messages (session s4)) s4) as (b & H5 & _).
  fold r5 in H5.
  unfold app_v2.handle_user_input, app_v2.append_message.
  cbv beta iota zeta delta
    [bind try_except ret raise get_session put_session].
  fold s1. rewrite (surjective_pairing (get_project_context _ s1)).
  fold r2. rewrite H2. fold s2. cbv beta iota.
  rewrite (surjective_pairing (vertex_claude_v2.chat _ _ _ _ _ _ s2)).
  fold r3. rewrite H3. fold s3. cbv beta iota.
  cbn [session with_session ss_request_count ss_total_cost ss_vertex_claude
       ss_messages ss_current_project app_v2.set_request_count
       app_v2.set_total_cost app_v2.set_messages].
  match goal with |- context [save_conversation ?p ?m ?s'] =>
    change (save_conversation p m s') with r5 end.
  rewrite (surjective_pairing r5), H5. reflexivity.
Qed.

Lemma snd_then_ret {A} (m : M A) s :
  snd (bind m (fun _ => ret tt) s) = snd (m s).
Proof. unfold bind, ret. destruct (m s) as [[a|e] s']; reflexivity. Qed.

(** *** Properties kept by every step of a session *)

Section Preservation.
Variable P : State -> Prop.
Hypothesis P_quiet : forall s s', quiet_step s s' -> P s -> P s'.
Hypothesis P_read :
  forall name s, P s -> P (snd (get_project_context name s)).

Lemma handle_user_input_preserves user_input s :
  P s -> P (snd (app_v2.handle_user_input user_input s)).
Proof.
  intros HP.
  pose proof (handle_user_input_run user_input s) as Hrun. cbv zeta in Hrun.
  match type of Hrun with
  | forall c, fst (get_project_context ?n ?s1) = _ -> _ =>
      destruct (get_project_context_total n s1) as (context & H2 & _);
      specialize (Hrun context H2);
      assert (P2 : P (snd (get_project_context n s1)))
        by (apply P_read; refine (P_quiet s s1 _ HP);
            apply session_only_quiet; reflexivity)
  end.
  match type of Hrun with
  | forall r, fst (vertex_claude_v2.chat ?u ?c ?h ?mt ?t ?n ?s2) = _ -> _ =>
      destruct (chat_total u c h mt t n s2) as (response & H3 & F3);
      specialize (Hrun response H3);
      assert (P3 : P (snd (vertex_claude_v2.chat u c h mt t n s2)))
        by (refine (P_quiet _ _ _ P2); apply chat_frame_quiet; exact F3)
  end.
  rewrite Hrun. cbn [snd].
  refine (P_quiet _ _ (save_conversation_quiet _ _ _) _).
  refine (P_quiet _ _ _ P3). apply session_only_quiet; reflexivity.
Qed.

Lemma run_op_preserves o s : P s -> P (snd (run_op o s)).
Proof.
  intros HP. destruct o; cbn [run_op]; rewrite ?snd_then_ret.
  - apply P_read, HP.
  - exact (P_quiet _ _ (save_conversation_quiet _ _ _) HP).
  - destruct (update_project_status_quiet project status updates s) as (b & _ & Hq).
    exact (P_quiet _ _ Hq HP).
  - destruct (log_execution_quiet project action result_text cost metadata s)
      as (b & _ & Hq).
    exact (P_quiet _ _ Hq HP).
  - exact (P_quiet _ _ (clear_cache_quiet _) HP).
  - destruct (chat_total user_message context history max_tokens temperature
                retry_count s) as (txt & _ & Hf).
    exact (P_quiet _ _ (chat_frame_quiet _ _ Hf) HP).
  - refine (P_quiet s _ _ HP). apply session_only_quiet; reflexivity.
  - apply handle_user_input_preserves, HP.
  - refine (P_quiet s _ _ HP). apply session_only_quiet; reflexivity.
  - refine (P_quiet s _ _ HP). apply session_only_quiet; reflexivity.
Qed.

Lemma run_ops_preserves ops : forall s, P s -> P (snd (run_ops ops s)).
Proof.
  induction ops as [|o rest IH]; intros s HP; [exact HP|].
  cbn [run_ops]. unfold bind.
  pose proof (run_op_preserves o s HP) as HP'.
  destruct (run_op o s) as [[[]|e] s']; cbn [snd] in *; auto.
Qed.

End Preservation.

(** *** The start of a session *)

Lemma store_access_session {A} (call : store_call) (view : A -> option dict)
    (act : World -> result (A * gmap (str * str) dict)) (s : State) :
  session (snd (store_access call view act s)) = session s.
Proof.
  unfold store_access. cbv beta iota zeta delta [bind ret raise get_world put_world].
  destruct (store_answer _ _) as [[a d]|e]; reflexivity.
Qed.

Lemma initialize_project_session project_id project_data s :
  exists s',
    initialize_project project_id project_data s = (Ok tt, s') /\
    session s' = session s.
Proof.
  unfold initialize_project. run_cm.
  destruct (store_fault (w_store_ops (world s))).
  { eexists. split; reflexivity. }
  destruct (w_docs (world s) !! (lit "projects", project_id)).
  { eexists. split; reflexivity. }
  simpl_state.
  destruct (store_fault (S (w_store_ops (world s)))); eexists; split; reflexivity.
Qed.

Lemma initialize_project_list_session projects :
  forall s, exists s',
    initialize_project_list projects s = (Ok tt, s') /\ session s' = session s.
Proof.
  induction projects as [|[project_id project_data] rest IH]; intros s.
  - eexists. split; reflexivity.
  - cbn [initialize_project_list]. unfold bind.
    destruct (initialize_project_session project_id project_data s) as (s1 & -> & H1).
    destruct (IH s1) as (s2 & -> & H2). eexists. split; [reflexivity|congruence].
Qed.

Lemma initialize_mission_context_session s :
  exists s',
    _initialize_mission_context s = (Ok tt, s') /\ session s' = session s.
Proof.
  unfold _initialize_mission_context, _initialize_projects.
  unfold bind at 1, get_cm.
  destruct (cm_db (ss_context_manager (session s))).
  2:{ eexists. split; reflexivity. }
  unfold try_except, bind at 1.
  destruct (doc_get (lit "mission") (lit "bootstrap") s) as [[mission|e] s1] eqn:Hget.
  - assert (H1 : session s1 = session s).
    { change s1 with (snd (Ok mission, s1)). rewrite <- Hget. apply store_access_session. }
    unfold bind at 1.
    destruct mission as [m|].
    + unfold ret at 1.
      destruct (initialize_project_list_session default_projects s1) as (s2 & -> & H2).
      eexists. split; [reflexivity|congruence].
    + destruct (doc_set (lit "mission") (lit "bootstrap") mission_data s1)
        as [[[]|e] s1'] eqn:Hset.
      * assert (H1' : session s1' = session s1).
        { change s1' with (snd (Ok tt, s1')). rewrite <- Hset. apply store_access_session. }
        destruct (initialize_project_list_session default_projects s1') as (s2 & -> & H2).
        eexists. split; [reflexivity|congruence].
      * assert (H1' : session s1' = session s1).
        { change s1' with (snd (@Raise unit e, s1')). rewrite <- Hset.
          apply store_access_session. }
        eexists. split; [reflexivity|]. cbn [ret snd]. congruence.
  - assert (H1 : session s1 = session s).
    { change s1 with (snd (@Raise (option dict) e, s1)). rewrite <- Hget.
      apply store_access_session. }
    eexists. split; [reflexivity|exact H1].
Qed.

(** The constructor of the persistence gateway does not raise: the
    cache is empty, the time to live is 300 seconds, and there is a store
    client exactly when a project is configured and the client could be
    created. *)
Lemma context_manager_init_run s0 :
  exists s',
    __init__ s0 = (Ok tt, s') /\
    ss_context_manager (session s') =
      {| cm_project_id := getenv (lit "GCP_PROJECT_ID");
         cm_db :=
           if truthy_str (getenv (lit "GCP_PROJECT_ID")) then
             match firestore_client with
             | Some _ => None
             | None => getenv (lit "GCP_PROJECT_ID")
             end
           else None;
         cm_cache := ∅;
         cm_cache_ttl := 300 |}.
Proof.
  unfold __init__. unfold bind at 1, put_cm at 1.
  destruct (truthy_str (getenv (lit "GCP_PROJECT_ID"))).
  - destruct firestore_client.
    + eexists. split; reflexivity.
    + unfold bind at 1, put_cm at 1, try_except.
      match goal with |- context [_initialize_mission_context ?s1] =>
        destruct (initialize_mission_context_session s1) as (s2 & -> & H2) end.
      eexists. split; [reflexivity|]. rewrite H2. reflexivity.
  - eexists. split; reflexivity.
Qed.

Lemma initialize_session_state_cm s0 :
  let cm := ss_context_manager (session (snd (app_v2.initialize_session_state s0))) in
  cm_cache cm = ∅ /\
  cm_cache_ttl cm = 300%Z /\
  cm_db cm =
    if truthy_str (getenv (lit "GCP_PROJECT_ID")) then
      match firestore_client with
      | Some _ => None
      | None => getenv (lit "GCP_PROJECT_ID")
      end
    else None.
Proof.
  destruct (context_manager_init_run s0) as (s1 & Hrun & Hcm).
  assert (Heq : ss_context_manager
                  (session (snd (app_v2.initialize_session_state s0))) =
                ss_context_manager (session s1)).
  { unfold app_v2.initialize_session_state. unfold bind at 1. rewrite Hrun.
    reflexivity. }
  cbv zeta. rewrite Heq, Hcm. repeat split.
Qed.

End SessionFacts.

Section SessionTheorems.
Context `{Env}.
Import context_manager_v2.

Lemma offline_quiet s s' : quiet_step s s' -> offline s -> offline s'.
Proof.
  intros (Hdb & _ & _ & Hshrink) (Hempty & Hdown). split.
  - apply map_empty. intros key.
    destruct (cm_cache (ss_context_manager (session s')) !! key) eqn:Hk; [|reflexivity].
    apply Hshrink in Hk. rewrite Hempty, lookup_empty in Hk. discriminate.
  - rewrite Hdb. exact Hdown.
Qed.

Lemma offline_cache_miss name s : offline s -> cache_hit name s = None.
Proof. intros (Hempty & _). unfold cache_hit. rewrite Hempty, lookup_empty. reflexivity. Qed.

Lemma offline_no_read name s :
  offline s ->
  cm_db (ss_context_manager (session s)) = None \/
  forall ctx, store_read name s <> Ok (Some ctx).
Proof.
  intros (_ & [Hdb|Hfault]); [left; exact Hdb|right].
  intros ctx. unfold store_read.
  destruct (Hfault (w_store_ops (world s))) as (e & ->). discriminate.
Qed.

(** A lookup that does not find a fresh entry and cannot read the
    project document returns the default context and leaves the cache as
    it was. *)
Lemma get_project_context_falls_back name s :
  cache_hit name s = None ->
  (cm_db (ss_context_manager (session s)) = None \/
   forall ctx, store_read name s <> Ok (Some ctx)) ->
  fst (get_project_context name s) = Ok (_get_default_project_context name) /\
  ss_context_manager (session (snd (get_project_context name s))) =
    ss_context_manager (session s).
Proof.
  intros Hmiss Hno.
  assert (Hcheck : ss_context_manager (session (after_cache_check name s)) =
                   ss_context_manager (session s)).
  { unfold after_cache_check. destruct (cm_cache _ !! _); reflexivity. }
  destruct (cm_db (ss_context_manager (session s))) as [db|] eqn:Hdb.
  - destruct Hno as [?|Hno]; [discriminate|].
    rewrite (gpc_fallback _ _ _ Hmiss Hdb Hno). split; [reflexivity|exact Hcheck].
  - rewrite (gpc_no_db _ _ Hmiss Hdb). split; [reflexivity|exact Hcheck].
Qed.

Lemma offline_read name s :
  offline s -> offline (snd (get_project_context name s)).
Proof.
  intros Hoff.
  destruct (get_project_context_falls_back name s
              (offline_cache_miss name s Hoff) (offline_no_read name s Hoff))
    as (_ & Hcm).
  unfold offline. rewrite Hcm. exact Hoff.
Qed.

Lemma offline_after_start s0 :
  store_down -> offline (snd (app_v2.initialize_session_state s0)).
Proof.
  intros Hdown.
  destruct (initialize_session_state_cm s0) as (Hcache & _ & Hdb).
  split; [exact Hcache|]. rewrite Hdb.
  destruct Hdown as [Hp|[[e Hc]|Hf]].
  - rewrite Hp. auto.
  - rewrite Hc. destruct (truthy_str _); auto.
  - auto.
Qed.

(** C5. When the store is unreachable (no project configured, no client,
    or every access raising), then at every moment of the session
    [get_project_context X] raises nothing and returns the default
    context: name [X], status "Unknown", a description saying that the
    context is unavailable, and the flag [offline_mode] set to [True]. *)
Theorem get_project_context_offline (s0 : State) (ops : list op) (X : str) :
  store_down ->
  fst (get_project_context X (session_after s0 ops)) =
    Ok [ (lit "name", VStr X);
         (lit "status", VStr (lit "Unknown"));
         (lit "description",
            VStr (lit "Context unavailable - Firestore not connected"));
         (lit "offline_mode", VBool true) ].
Proof.
  intros Hdown.
  assert (Hoff : offline (session_after s0 ops)).
  { unfold session_after.
    apply (run_ops_preserves offline offline_quiet offline_read).
    apply offline_after_start, Hdown. }
  apply (get_project_context_falls_back X _
           (offline_cache_miss X _ Hoff) (offline_no_read X _ Hoff)).
Qed.

Lemma after_cache_check_same name s :
  ss_context_manager (session (after_cache_check name s)) =
    ss_context_manager (session s) /\
  w_trace (world (after_cache_check name s)) = w_trace (world s).
Proof. unfold after_cache_check. destruct (cm_cache _ !! _); auto. Qed.

(** A lookup that finds no fresh entry and has a store client reads the
    project document. *)
Lemma get_project_context_reads_store name s db :
  cache_hit name s = None ->
  cm_db (ss_context_manager (session s)) = Some db ->
  w_trace (world (snd (get_project_context name s))) =
    w_trace (world s) ++ [project_read name (store_read name s)].
Proof.
  intros Hmiss Hdb.
  destruct (after_cache_check_same name s) as (_ & Htr).
  destruct (store_read name s) as [[ctx|]|e] eqn:Hr.
  - rewrite (gpc_found _ _ _ _ Hmiss Hdb Hr). cbv zeta. simpl_state.
    rewrite Htr. reflexivity.
  - rewrite (gpc_fallback _ _ _ Hmiss Hdb) by (rewrite Hr; discriminate).
    cbv zeta. simpl_state. rewrite Htr, Hr. reflexivity.
  - rewrite (gpc_fallback _ _ _ Hmiss Hdb) by (rewrite Hr; discriminate).
    cbv zeta. simpl_state. rewrite Htr, Hr. reflexivity.
Qed.

Lemma cache_from_store_quiet s s' :
  quiet_step s s' -> cache_from_store s -> cache_from_store s'.
Proof.
  intros (_ & _ & (evs & Hev) & Hshrink) Hinv key ctx t Hk.
  destruct (Hinv key ctx t (Hshrink _ _ Hk)) as (name & Hkey & Hin).
  exists name. split; [exact Hkey|]. rewrite Hev. apply in_or_app. auto.
Qed.

Lemma cache_from_store_read name s :
  cache_from_store s -> cache_from_store (snd (get_project_context name s)).
Proof.
  intros Hinv.
  destruct (after_cache_check_same name s) as (Hcm & Htr).
  assert (Hcheck : cache_from_store (after_cache_check name s)).
  { intros key ctx t Hk. rewrite Hcm in Hk. rewrite Htr. eauto. }
  destruct (cache_hit name s) as [d|] eqn:Hhit.
  { rewrite (gpc_hit _ _ _ Hhit). exact Hcheck. }
  destruct (cm_db (ss_context_manager (session s))) as [db|] eqn:Hdb.
  2:{ rewrite (gpc_no_db _ _ Hhit Hdb). exact Hcheck. }
  destruct (store_read name s) as [[ctx|]|e] eqn:Hr.
  - rewrite (gpc_found _ _ _ _ Hhit Hdb Hr). cbv zeta.
    intros key ctx' t Hk. simpl_state in Hk. simpl_state.
    destruct (decide (cache_key_of name = key)) as [<-|Hne].
    + rewrite lookup_insert_eq in Hk. injection Hk as <- _.
      exists name. split; [reflexivity|]. apply in_or_app. right. left. reflexivity.
    + rewrite lookup_insert_ne in Hk by exact Hne.
      destruct (Hinv key ctx' t Hk) as (name' & Hkey & Hin).
      exists name'. split; [exact Hkey|]. rewrite Htr. apply in_or_app. auto.
  - rewrite (gpc_fallback _ _ _ Hhit Hdb) by (rewrite Hr; discriminate).
    cbv zeta. intros key ctx' t Hk. simpl_state in Hk. simpl_state.
    destruct (Hcheck key ctx' t Hk) as (name' & Hkey & Hin).
    exists name'. split; [exact Hkey|]. apply in_or_app. auto.
  - rewrite (gpc_fallback _ _ _ Hhit Hdb) by (rewrite Hr; discriminate).
    cbv zeta. intros key ctx' t Hk. simpl_state in Hk. simpl_state.
    destruct (Hcheck key ctx' t Hk) as (name' & Hkey & Hin).
    exists name'. split; [exact Hkey|]. apply in_or_app. auto.
Qed.

(** C10. At every moment of a session each cached context was read from
    the project document of its name by a successful store read.  A
    lookup that falls back to the default context (no fresh entry, and no
    client or no document read) leaves the cache as it was, so the
    default is not cached; with a store client, the next lookup of the
    name reads the project document again unless it finds a fresh entry,
    which it cannot when the cache had no entry for the name. *)
Theorem cache_only_from_store (s0 : State) (ops : list op) :
  let s := session_after s0 ops in
  cache_from_store s /\
  forall name,
    cache_hit name s = None ->
    (cm_db (ss_context_manager (session s)) = None \/
     forall ctx, store_read name s <> Ok (Some ctx)) ->
    let r := get_project_context name s in
    fst r = Ok (_get_default_project_context name) /\
    cm_cache (ss_context_manager (session (snd r))) =
      cm_cache (ss_context_manager (session s)) /\
    (cm_cache (ss_context_manager (session s)) !! cache_key_of name = None ->
     cache_hit name (snd r) = None) /\
    (forall db,
       cm_db (ss_context_manager (session s)) = Some db ->
       cache_hit name (snd r) = None ->
       w_trace (world (snd (get_project_context name (snd r)))) =
         w_trace (world (snd r)) ++ [project_read name (store_read name (snd r))]).
Proof.
  cbv zeta. split.
  - unfold session_after.
    apply (run_ops_preserves cache_from_store cache_from_store_quiet
             cache_from_store_read).
    intros key ctx t Hk.
    destruct (initialize_session_state_cm s0) as (Hcache & _).
    rewrite Hcache, lookup_empty in Hk. discriminate.
  - intros name Hmiss Hno.
    destruct (get_project_context_falls_back name _ Hmiss Hno) as (Hr & Hcm).
    split; [exact Hr|]. split; [rewrite Hcm; reflexivity|]. split.
    + intros Hnone. unfold cache_hit. rewrite Hcm, Hnone. reflexivity.
    + intros db Hdb Hmiss'.
      apply (get_project_context_reads_store name _ db Hmiss').
      rewrite Hcm. exact Hdb.
Qed.

Lemma chat_not_configured user_message context history mt t n s :
  vc_model (ss_vertex_claude (session s)) = None ->
  vertex_claude_v2.chat user_message context history mt t n s =
    (Ok (vertex_claude_v2.format_error_of (ss_vertex_claude (session s))
           (lit "Vertex AI not configured")
           (lit "Set GCP_PROJECT_ID environment variable and ensure Vertex AI is enabled")
           None), s).
Proof.
  intros Hm. unfold vertex_claude_v2.chat, vertex_claude_v2._format_error.
  cbv beta iota zeta delta [bind ret get_vc]. rewrite Hm. reflexivity.
Qed.

(** C2, as the code has it.  A chat turn never raises; it increments
    [request_count] by 1 and adds the gateway's [last_request_cost] to
    [total_cost] whenever [chat] returns, whether or not the endpoint was
    contacted.  When the gateway is not configured the model is not
    called and the gateway is left as it was, yet the request is counted
    and the [last_request_cost] that the gateway already holds is added. *)
Theorem chat_turn_counters user_input s :
  let r := app_v2.handle_user_input user_input s in
  let vc := ss_vertex_claude (session s) in
  let vc' := ss_vertex_claude (session (snd r)) in
  fst r = Ok tt /\
  ss_request_count (session (snd r)) = (ss_request_count (session s) + 1)%Z /\
  ss_total_cost (session (snd r)) =
    (ss_total_cost (session s) + vc_last_request_cost vc')%float /\
  (vc_model vc = None ->
   vc' = vc /\
   w_generate_calls (world (snd r)) = w_generate_calls (world s) /\
   ss_total_cost (session (snd r)) =
     (ss_total_cost (session s) + vc_last_request_cost vc)%float).
Proof.
  cbv zeta.
  pose proof (handle_user_input_run user_input s) as Hrun. cbv zeta in Hrun.
  match type of Hrun with
  | forall c, fst (get_project_context ?n ?s1) = _ -> _ =>
      destruct (get_project_context_total n s1) as (context & H2 & F2);
      specialize (Hrun context H2); set (s2 := snd (get_project_context n s1)) in *
  end.
  match type of Hrun with
  | forall r, fst (vertex_claude_v2.chat ?u ?c ?h ?mt ?t ?n s2) = _ -> _ =>
      destruct (chat_total u c h mt t n s2) as (response & H3 & F3);
      specialize (Hrun response H3);
      pose proof (chat_not_configured u c h mt t n s2) as Hnc;
      set (s3 := snd (vertex_claude_v2.chat u c h mt t n s2)) in *
  end.
  rewrite Hrun. cbn [fst snd].
  match goal with |- context [save_conversation ?p ?m ?s4] =>
    destruct (save_conversation_total p m s4) as (b & _ & F5 & _);
    set (s5 := snd (save_conversation p m s4)) in *
  end.
  destruct F2 as (V2 & _ & _ & C2 & N2 & _ & _ & G2 & _).
  destruct F3 as (_ & _ & _ & C3 & N3 & _).
  destruct F5 as (V5 & _ & _ & C5 & N5 & _ & _ & G5 & _).
  simpl_state in V2. simpl_state in C2. simpl_state in N2. simpl_state in G2.
  simpl_state in V5. simpl_state in C5. simpl_state in N5. simpl_state in G5.
  cbn [app_v2.set_messages app_v2.set_total_cost app_v2.set_request_count
       ss_request_count ss_total_cost ss_vertex_claude] in *.
  split; [reflexivity|].
  split; [rewrite N5, N3, N2; reflexivity|].
  split; [rewrite C5, V5, C3, C2; reflexivity|].
  intros Hmodel. rewrite <- V2 in Hmodel. specialize (Hnc Hmodel).
  assert (Hs3 : s3 = s2) by (subst s3; rewrite Hnc; reflexivity).
  rewrite V5, G5, C5, Hs3, V2, G2, C2. repeat split.
Qed.

End SessionTheorems.

(** ** The prompt *)

Section PromptTheorems.
Context `{Env}.
Import vertex_claude_v2.




End PromptTheorems.

(** ** Instances of the theorems *)

Lemma save_conversation_result_witness :
  let E := Example.env_model_down in
  exists b,
    fst (@context_manager_v2.save_conversation E Example.haven
           (Example.transcript Example.turns11) (Example.started E)) = Ok b.
Proof.
  intros E.
  destruct (@save_conversation_result E Example.haven
              (Example.transcript Example.turns11) (Example.started E))
    as (b & Hb & _).
  exists b. exact Hb.
Defined.

Lemma save_conversation_overwrites_witness :
  let E := Example.env_model_down in
  let five := Example.transcript (take 5 Example.turns11) in
  let two := Example.transcript (take 2 Example.turns11) in
  let s1 := snd (@context_manager_v2.save_conversation E Example.haven five
                   (Example.started E)) in
  w_docs (world (snd (@context_manager_v2.save_conversation E Example.haven two s1)))
    !! (lit "conversations", lit "haven_platform") =
  Some [ (lit "project", VStr Example.haven);
         (lit "messages",
            VList [ VDict (message (lit "user") (lit "one"));
                    VDict (message (lit "assistant") (lit "two")) ]);
         (lit "message_count", VInt 2);
         (lit "last_updated", VDatetime 10);
         (lit "version", VInt 2) ].
Proof.
  intros E five two s1.
  refine (@save_conversation_overwrites E Example.haven five two
            (Example.started E) _).
  vm_compute. reflexivity.
Defined.

Lemma get_project_context_offline_witness :
  let E := Example.env_store_down in
  fst (@context_manager_v2.get_project_context E (lit "X")
         (@session_after E Example.blank_state
            [HandleUserInput (lit "hello"); GetProjectContext Example.haven])) =
  Ok [ (lit "name", VStr (lit "X"));
       (lit "status", VStr (lit "Unknown"));
       (lit "description",
          VStr (lit "Context unavailable - Firestore not connected"));
       (lit "offline_mode", VBool true) ].
Proof.
  intros E.
  refine (@get_project_context_offline E Example.blank_state _ (lit "X") _).
  right. right. intros k. exists Example.store_error. reflexivity.
Defined.

Lemma cache_only_from_store_witness :
  let E := Example.env_model_down in
  @cache_from_store E
    (@session_after E Example.blank_state [GetProjectContext Example.haven]).
Proof.
  intros E.
  exact (proj1 (@cache_only_from_store E Example.blank_state
                  [GetProjectContext Example.haven])).
Defined.

Lemma chat_turn_counters_witness :
  let E := Example.env_unconfigured in
  ss_request_count
    (session (snd (@app_v2.handle_user_input E (lit "hello") (Example.started E)))) = 1%Z.
Proof.
  intros E.
  exact (proj1 (proj2 (@chat_turn_counters E (lit "hello") (Example.started E)))).
Defined.

Lemma reset_stats_effect_witness :
  let E := Example.env_model_up Example.long_reply in
  let s := snd (@vertex_claude_v2.chat E Example.long_message None None
                  4096 0.7%float 3 (Example.started E)) in
  vc_last_request_cost
    (ss_vertex_claude (session (snd (vertex_claude_v2.reset_stats s)))) = 0%float.
Proof.
  intros E s.
  exact (proj1 (proj2 (proj2 (proj2 (reset_stats_effect s))))).
Defined.


(** ** Where the specification differs from the code *)

(** On a gateway that is not configured the turn counts a request all
    the same. *)
Lemma unconfigured_turn_is_counted :
  ~ (forall (E : Env) (s : State) (user_input : str),
       vc_model (ss_vertex_claude (session s)) = None ->
       ss_request_count (session (snd (@app_v2.handle_user_input E user_input s))) =
       ss_request_count (session s)).
Proof.
  intros Hclaim.
  specialize (Hclaim Example.env_unconfigured
                (Example.started Example.env_unconfigured) (lit "hello") eq_refl).
  vm_compute in Hclaim. discriminate Hclaim.
Qed.


(** * Further properties of the code *)

(** ** The retry loop *)

Section RetryFacts.
Context `{Env}.
Import vertex_claude_v2.

Lemma slept_app (a b : list event) : slept (a ++ b) = (slept a + slept b)%Z.
Proof.
  induction a as [|e a IH]; [reflexivity|].
  destruct e; cbn [slept app]; rewrite IH; lia.
Qed.

Lemma slept_failed_rounds call (Hcall : forall sec, call <> EvSleep sec) j :
  forall i, (0 <= i)%Z ->
    slept (failed_rounds call i j) = (2 ^ (i + Z.of_nat j) - 2 ^ i)%Z.
Proof.
  induction j as [|j IH]; intros i Hi.
  - cbn. rewrite Z.add_0_r. lia.
  - cbn [failed_rounds slept].
    rewrite (IH (i + 1)%Z) by lia.
    replace (i + 1 + Z.of_nat j)%Z with (i + Z.of_nat (S j))%Z by lia.
    rewrite (Z.pow_add_r 2 i 1) by lia.
    destruct call as [p mt t|sec|c o]; [|exfalso; exact (Hcall sec eq_refl)|]; lia.
Qed.

Lemma backoff_trace_rounds call m :
  forall i, backoff_trace call i (S m) = failed_rounds call i m ++ [call].
Proof.
  induction m as [|m IH]; intros i; [reflexivity|].
  change (backoff_trace call i (S (S m)))
    with (call :: EvSleep (2 ^ i) :: backoff_trace call (i + 1) (S m)).
  rewrite IH. reflexivity.
Qed.

Lemma after_failed_attempt_trace p st mt t s :
  w_trace (world (after_failed_attempt p st mt t s)) =
  w_trace (world s) ++ [EvGenerate p mt t].
Proof.
  unfold after_failed_attempt. destruct (generate_content _ _ _ _); reflexivity.
Qed.

(** Attempts that all fail, whether the call raises or the response has
    no text: the schedule of calls and waits, and the figures that stay. *)
Lemma attempts_all_fail p st mt t n :
  (forall k, exists e, attempt_outcome k p mt t = Raise e) ->
  forall m i s, (Z.of_nat i + Z.of_nat (S m) = n)%Z ->
    let r := chat_attempts p st mt t n (map Z.of_nat (seq i (S m))) s in
    let vc := ss_vertex_claude (session s) in
    let vc' := ss_vertex_claude (session (snd r)) in
    (exists e,
       attempt_outcome (w_generate_calls (world s) + m) p mt t = Raise e /\
       fst r = Ok (format_error_of vc' (lit "Vertex AI request failed")
                     (exn_text e) (Some _get_troubleshooting_steps))) /\
    vc_last_request_cost vc' = vc_last_request_cost vc /\
    vc_total_cost vc' = vc_total_cost vc /\
    vc_total_requests vc' = vc_total_requests vc /\
    w_generate_calls (world (snd r)) = w_generate_calls (world s) + S m /\
    w_trace (world (snd r)) =
      w_trace (world s) ++ backoff_trace (EvGenerate p mt t) (Z.of_nat i) (S m).
Proof.
  intros Hfail. induction m as [|m IH]; intros i s Hn.
  - cbn [seq map]. destruct (Hfail (w_generate_calls (world s))) as (e & He).
    rewrite (chat_attempts_fail _ _ _ _ _ _ _ _ _ He). cbn zeta.
    replace (Z.of_nat i <? n - 1)%Z with false by (symmetry; apply Z.ltb_ge; lia).
    cbn [fst snd].
    pose proof (after_failed_attempt_costs p st mt t s) as (C1 & C2 & C3 & _).
    rewrite after_failed_attempt_calls, after_failed_attempt_trace.
    split; [exists e; rewrite Nat.add_0_r; auto|].
    repeat split; auto. lia.
  - change (seq i (S (S m))) with (i :: seq (S i) (S m)). cbn [map].
    destruct (Hfail (w_generate_calls (world s))) as (e & He).
    rewrite (chat_attempts_fail _ _ _ _ _ _ _ _ _ He). cbn zeta.
    replace (Z.of_nat i <? n - 1)%Z with true by (symmetry; apply Z.ltb_lt; lia).
    pose proof (after_failed_attempt_costs p st mt t s) as (C1 & C2 & C3 & _).
    match goal with |- context [chat_attempts _ _ _ _ _ _ ?s2] =>
      destruct (IH (S i) s2 ltac:(lia)) as ((e' & He' & Hr) & R1 & R2 & R3 & Hc & Ht)
    end.
    cbn [world session with_world log_event w_generate_calls w_trace] in *.
    rewrite after_failed_attempt_calls in He', Hc.
    rewrite after_failed_attempt_trace in Ht.
    split.
    + exists e'. split; [|exact Hr].
      rewrite <- He'. f_equal. lia.
    + rewrite R1, R2, R3, Hc, Ht. repeat split; auto; try lia.
      rewrite <- !app_assoc. cbn. rewrite Z.mul_1_r.
      replace (Z.of_nat i + 1)%Z with (Z.pos (Pos.of_succ_nat i)) by lia.
      reflexivity.
Qed.

(** A call that succeeds at attempt [j]: the schedule before it. *)
Lemma attempts_succeed_trace p st mt t n txt :
  forall j m i s,
    j < m -> (Z.of_nat i + Z.of_nat m = n)%Z ->
    (forall i', i' < j ->
       exists e, attempt_outcome (w_generate_calls (world s) + i') p mt t = Raise e) ->
    attempt_outcome (w_generate_calls (world s) + j) p mt t = Ok txt ->
    let r := chat_attempts p st mt t n (map Z.of_nat (seq i m)) s in
    w_generate_calls (world (snd r)) = w_generate_calls (world s) + S j /\
    w_trace (world (snd r)) =
      w_trace (world s) ++
      failed_rounds (EvGenerate p mt t) (Z.of_nat i) j ++ [EvGenerate p mt t].
Proof.
  induction j as [|j IH]; intros m i s Hjm Hn Hfail Hok.
  - destruct m as [|m]; [lia|]. cbn [seq map].
    rewrite Nat.add_0_r in Hok.
    rewrite (chat_attempts_success _ _ _ _ _ _ _ _ _ Hok). cbn. split; [lia|reflexivity].
  - destruct m as [|m]; [lia|]. cbn [seq map].
    destruct (Hfail 0 ltac:(lia)) as (e & He). rewrite Nat.add_0_r in He.
    rewrite (chat_attempts_fail _ _ _ _ _ _ _ _ _ He). cbn zeta.
    replace (Z.of_nat i <? n - 1)%Z with true by (symmetry; apply Z.ltb_lt; lia).
    pose proof (after_failed_attempt_calls p st mt t s) as Hcalls.
    match goal with |- context [chat_attempts _ _ _ _ _ _ ?s2] =>
      destruct (IH m (S i) s2) as (Hc & Ht) end.
    + lia.
    + lia.
    + intros i' Hi'. cbn [world with_world log_event w_generate_calls].
      rewrite Hcalls. destruct (Hfail (S i') ltac:(lia)) as (e' & He').
      exists e'. rewrite <- He'. f_equal. lia.
    + cbn [world with_world log_event w_generate_calls]. rewrite Hcalls.
      rewrite <- Hok. f_equal. lia.
    + cbn [world with_world log_event w_generate_calls w_trace] in Hc, Ht.
      rewrite Hcalls in Hc. rewrite after_failed_attempt_trace in Ht.
      rewrite Hc, Ht. split; [lia|].
      rewrite <- !app_assoc. cbn. rewrite Z.mul_1_r.
      replace (Z.of_nat i + 1)%Z with (Z.pos (Pos.of_succ_nat i)) by lia.
      reflexivity.
Qed.

(** X1. With a retry count of zero or less a configured [chat] makes no
    attempt: the model is not called, nothing is slept, the gateway
    object is unchanged, and the text returned is the error
    "Maximum retries exceeded". *)
Theorem chat_without_attempts user_message context history mt t n s model prompt :
  vc_model (ss_vertex_claude (session s)) = Some model ->
  _build_prompt user_message context history = Ok prompt ->
  (n <= 0)%Z ->
  let r := chat user_message context history mt t n s in
  fst r = Ok (format_error_of (ss_vertex_claude (session s))
                (lit "Maximum retries exceeded") (lit "Please try again later")
                None) /\
  session (snd r) = session s /\
  w_trace (world (snd r)) = w_trace (world s) /\
  w_generate_calls (world (snd r)) = w_generate_calls (world s).
Proof.
  intros Hm Hp Hn. cbv zeta.
  rewrite (chat_configured _ _ _ _ _ _ _ _ _ Hm Hp).
  unfold range. replace (Z.to_nat n) with 0 by lia. cbn. auto.
Qed.

(** X2. A [chat] call all of whose attempts fail (the call raises, or the
    response has no text) costs nothing: [last_request_cost],
    [total_cost] and [total_requests] keep their values.  It makes
    [retry_count] calls, and the time it sleeps in between adds up to
    [2 ^ (retry_count - 1) - 1] seconds. *)
Theorem chat_failure_is_free user_message context history mt t n s model prompt :
  vc_model (ss_vertex_claude (session s)) = Some model ->
  _build_prompt user_message context history = Ok prompt ->
  (0 < n)%Z ->
  (forall k, exists e, attempt_outcome k prompt mt t = Raise e) ->
  let r := chat user_message context history mt t n s in
  let vc := ss_vertex_claude (session s) in
  let vc' := ss_vertex_claude (session (snd r)) in
  (exists txt, fst r = Ok txt) /\
  vc_last_request_cost vc' = vc_last_request_cost vc /\
  vc_total_cost vc' = vc_total_cost vc /\
  vc_total_requests vc' = vc_total_requests vc /\
  (Z.of_nat (w_generate_calls (world (snd r))) =
     Z.of_nat (w_generate_calls (world s)) + n)%Z /\
  exists evs,
    w_trace (world (snd r)) = w_trace (world s) ++ evs /\
    slept evs = (2 ^ (n - 1) - 1)%Z.
Proof.
  intros Hm Hp Hn Hfail. cbv zeta.
  rewrite (chat_configured _ _ _ _ _ _ _ _ _ Hm Hp).
  unfold range. destruct (Z.to_nat n) as [|m] eqn:Hk; [lia|].
  match goal with |- context [chat_attempts _ ?st _ _ _ _ ?s2] =>
    destruct (attempts_all_fail prompt st mt t n Hfail m 0 s2 ltac:(lia))
      as ((e & _ & Hr) & R1 & R2 & R3 & Hc & Ht) end.
  cbn [world session with_world count_time_read w_generate_calls w_trace] in *.
  split; [eauto|]. rewrite R1, R2, R3, Hc, Ht. repeat split; [clear - Hk Hn; lia|].
  eexists. split; [reflexivity|].
  change (Z.of_nat 0) with 0%Z.
  rewrite backoff_trace_rounds, slept_app, slept_failed_rounds by (discriminate || lia).
  cbn [slept]. rewrite Z.add_0_l, Z.pow_0_r.
  replace (Z.of_nat m) with (n - 1)%Z by (clear - Hk Hn; lia).
  clear. lia.
Qed.

(** X3. A [chat] call that succeeds at its [j]-th retry has called the
    model [j + 1] times, has waited [2 ^ i] seconds after the failed
    attempt [i] (in all [2 ^ j - 1] seconds) and nothing after the
    successful one, and counts as one request however many attempts it
    took. *)
Theorem chat_success_after_retries user_message context history mt t n s model
    prompt (j : nat) (txt : str) :
  vc_model (ss_vertex_claude (session s)) = Some model ->
  _build_prompt user_message context history = Ok prompt ->
  (Z.of_nat j < n)%Z ->
  (forall i, i < j ->
     exists e, attempt_outcome (w_generate_calls (world s) + i) prompt mt t = Raise e) ->
  attempt_outcome (w_generate_calls (world s) + j) prompt mt t = Ok txt ->
  let r := chat user_message context history mt t n s in
  let call := EvGenerate prompt mt t in
  fst r = Ok txt /\
  vc_total_requests (ss_vertex_claude (session (snd r))) =
    (vc_total_requests (ss_vertex_claude (session s)) + 1)%Z /\
  w_generate_calls (world (snd r)) = w_generate_calls (world s) + S j /\
  w_trace (world (snd r)) = w_trace (world s) ++ failed_rounds call 0 j ++ [call] /\
  slept (failed_rounds call 0 j ++ [call]) = (2 ^ Z.of_nat j - 1)%Z.
Proof.
  intros Hm Hp Hj Hfail Hok. cbv zeta.
  rewrite (chat_configured _ _ _ _ _ _ _ _ _ Hm Hp).
  match goal with |- context [chat_attempts _ ?st _ _ _ _ ?s2] =>
    destruct (chat_attempts_succeeds prompt st mt t n txt j (Z.to_nat n) 0 s2)
      as (Hr & _ & _ & R3); try assumption; try lia;
    destruct (attempts_succeed_trace prompt st mt t n txt j (Z.to_nat n) 0 s2)
      as (Hc & Ht); try assumption; try lia
  end.
  unfold range. rewrite Hr, R3, Hc, Ht.
  cbn [world session with_world count_time_read w_generate_calls w_trace].
  repeat split.
  change (Z.of_nat 0) with 0%Z.
  rewrite slept_app, slept_failed_rounds by (discriminate || lia).
  cbn [slept]. rewrite Z.add_0_l, Z.pow_0_r. clear. lia.
Qed.

End RetryFacts.

(** ** The prompt and its history window *)

Section PromptFacts.
Context `{Env}.
Import vertex_claude_v2.

Lemma last_n_app_ge {A} (old h : list A) :
  10 <= length h -> last_n 10 (old ++ h) = last_n 10 h.
Proof.
  intros Hlen. unfold last_n. rewrite length_app, skipn_app.
  rewrite skipn_all2 by lia. cbn [app]. f_equal. lia.
Qed.

Lemma last_n_app_short {A} (a b : list A) :
  length b <= 10 ->
  last_n 10 (a ++ b) = drop (length (a ++ b) - 10) a ++ b.
Proof.
  intros Hlen. unfold last_n. rewrite skipn_app.
  replace (length (a ++ b) - 10 - length a) with 0
    by (rewrite length_app; lia).
  reflexivity.
Qed.

Lemma rendered_app (a b : list (str * str)) :
  rendered (a ++ b) = rendered a ++ rendered b.
Proof. unfold rendered. apply flat_map_app. Qed.

Lemma history_lines_app_messages (turns : list (str * str)) (rest : list dict) :
  history_lines (map (fun rc => message (fst rc) (snd rc)) turns ++ rest) =
  match history_lines rest with
  | Ok lines => Ok (rendered turns ++ lines)
  | Raise e => Raise e
  end.
Proof.
  induction turns as [|[role content] turns IH].
  - cbn. destruct (history_lines rest); reflexivity.
  - cbn [map app history_lines fst snd]. rewrite IH.
    unfold history_entry, message. cbn [dict_get].
    replace (str_eqb (lit "role") (lit "role")) with true by reflexivity.
    replace (str_eqb (lit "role") (lit "content")) with false by reflexivity.
    replace (str_eqb (lit "content") (lit "content")) with true by reflexivity.
    destruct (history_lines rest); [|reflexivity].
    unfold rendered. cbn [flat_map fst snd format_value].
    rewrite <- !app_assoc. reflexivity.
Qed.

(** The prompt for a transcript of well-formed messages of any length. *)
Lemma build_prompt_transcript user_message context (turns : list (str * str)) :
  _build_prompt user_message context
    (Some (map (fun rc => message (fst rc) (snd rc)) turns)) =
  Ok (_build_system_prompt context ++ nl ++ nl ++
      rendered (drop (length turns - 10) turns) ++
      lit "USER: " ++ user_message ++ nl ++ nl ++ lit "ASSISTANT:").
Proof.
  unfold _build_prompt.
  destruct turns as [|turn turns]; [cbn [map]; rewrite <- !app_assoc; reflexivity|].
  cbn [map].
  change (message (fst turn) (snd turn) ::
          map (fun rc => message (fst rc) (snd rc)) turns)
    with (map (fun rc => message (fst rc) (snd rc)) (turn :: turns)).
  unfold last_n. rewrite length_map, skipn_map.
  rewrite <- (app_nil_r (map _ (drop _ (turn :: turns)))), history_lines_app_messages.
  cbn [history_lines]. rewrite app_nil_r, <- !app_assoc. reflexivity.
Qed.

(** X4. Only the last ten messages of the history reach the prompt:
    whatever stands before them, also messages without a role or a
    content, changes neither the prompt nor whether it can be built. *)
Theorem build_prompt_ignores_older_messages user_message context
    (old recent : list dict) :
  10 <= length recent ->
  _build_prompt user_message context (Some (old ++ recent)) =
  _build_prompt user_message context (Some recent).
Proof.
  intros Hlen. unfold _build_prompt.
  assert (Hr : recent <> []) by (destruct recent; [cbn in Hlen; lia|discriminate]).
  assert (Ho : old ++ recent <> []) by (destruct old; [exact Hr|discriminate]).
  destruct (old ++ recent) as [|m ms] eqn:Hall; [contradiction|].
  destruct recent as [|m' ms'] eqn:Hrec; [contradiction|].
  rewrite <- Hall, <- Hrec in *. rewrite (last_n_app_ge old recent Hlen).
  reflexivity.
Qed.

(** X5. A history of at most ten well-formed messages is rendered whole,
    in its order, between the system prompt and the new user message; an
    empty history and no history give the same prompt. *)
Theorem build_prompt_short_history user_message context (turns : list (str * str)) :
  length turns <= 10 ->
  _build_prompt user_message context
    (Some (map (fun rc => message (fst rc) (snd rc)) turns)) =
    Ok (_build_system_prompt context ++ nl ++ nl ++
        flat_map (fun rc => str_upper (fst rc) ++ lit ": " ++ snd rc ++ nl ++ nl)
          turns ++
        lit "USER: " ++ user_message ++ nl ++ nl ++ lit "ASSISTANT:") /\
  _build_prompt user_message context (Some []) =
    _build_prompt user_message context None.
Proof.
  intros Hlen. split; [|reflexivity].
  rewrite build_prompt_transcript.
  replace (length turns - 10) with 0 by lia. reflexivity.
Qed.

(** X6. The first message among the last ten that cannot be rendered
    decides the error.  When the messages before it in that window are
    well-formed and it has no [role], or has a text as [role] and no
    [content], a configured [chat] returns the error
    "Failed to build prompt" with the detail ['role'], respectively
    ['content']: the model is not called and the gateway object is
    unchanged. *)
Theorem chat_malformed_message user_message context (history : list dict)
    (good : list (str * str)) (bad : dict) (rest : list dict) (detail : str)
    mt t n s model :
  vc_model (ss_vertex_claude (session s)) = Some model ->
  last_n 10 history = map (fun rc => message (fst rc) (snd rc)) good ++ bad :: rest ->
  (dict_get bad (lit "role") = None /\ detail = lit "'role'") \/
  (exists role, dict_get bad (lit "role") = Some (VStr role) /\
                dict_get bad (lit "content") = None /\ detail = lit "'content'") ->
  let r := chat user_message context (Some history) mt t n s in
  fst r = Ok (format_error_of (ss_vertex_claude (session s))
                (lit "Failed to build prompt") detail None) /\
  session (snd r) = session s /\
  w_trace (world (snd r)) = w_trace (world s) /\
  w_generate_calls (world (snd r)) = w_generate_calls (world s).
Proof.
  intros Hm Hwin Hbad r.
  assert (Hp : _build_prompt user_message context (Some history) =
               Raise (Exception (lit "KeyError") detail)).
  { unfold _build_prompt.
    destruct history as [|m ms].
    { destruct (map (fun rc : str * str => message (fst rc) (snd rc)) good);
        discriminate Hwin. }
    rewrite Hwin, history_lines_app_messages.
    cbn [history_lines]. unfold history_entry at 1.
    destruct Hbad as [(Hrole & ->)|(role & Hrole & Hcontent & ->)].
    - rewrite Hrole. reflexivity.
    - rewrite Hrole, Hcontent. reflexivity. }
  subst r. unfold chat.
  cbv beta iota zeta delta [bind ret get_vc time_now get_world put_world _format_error].
  rewrite Hm, Hp. cbn. auto.
Qed.

Lemma context_lines_app (a b : dict) :
  context_lines (a ++ b) = context_lines a ++ context_lines b.
Proof.
  induction a as [|[k v] a IH]; [reflexivity|].
  cbn [app context_lines]. rewrite IH, app_assoc. reflexivity.
Qed.

(** X7. The values of the fields [created_at] and [last_updated] of the
    context never reach the prompt: two contexts that differ only in the
    value of such a field give the same system prompt. *)
Theorem system_prompt_hides_timestamps (before after : dict) (key : str)
    (v v' : pyval) :
  key = lit "created_at" \/ key = lit "last_updated" ->
  _build_system_prompt (Some (before ++ (key, v) :: after)) =
  _build_system_prompt (Some (before ++ (key, v') :: after)).
Proof.
  intros Hkey. unfold _build_system_prompt.
  assert (Ht : forall x, truthy_dict (Some (before ++ (key, x) :: after)) = true).
  { intros x. destruct before; reflexivity. }
  rewrite !Ht. unfold default. cbn [from_option id]. rewrite !context_lines_app.
  cbn [context_lines].
  replace (shown_in_prompt key) with false; [reflexivity|].
  destruct Hkey as [-> | ->]; reflexivity.
Qed.

End PromptFacts.

(** ** Dictionaries and substrings *)

Lemma str_eqb_eq (a b : str) : str_eqb a b = true <-> a = b.
Proof. unfold str_eqb. apply bool_decide_eq_true. Qed.

Lemma str_eqb_refl (a : str) : str_eqb a a = true.
Proof. apply str_eqb_eq. reflexivity. Qed.

Lemma str_eqb_neq (a b : str) : a <> b -> str_eqb a b = false.
Proof. intros Hne. unfold str_eqb. apply bool_decide_eq_false. exact Hne. Qed.

Lemma dict_get_set_eq (d : dict) k v : dict_get (dict_set d k v) k = Some v.
Proof.
  induction d as [|[k' v'] d IH]; cbn [dict_set dict_get].
  - rewrite str_eqb_refl. reflexivity.
  - destruct (str_eqb k' k) eqn:Hk; cbn [dict_get]; rewrite Hk; auto.
Qed.

Lemma dict_get_set_ne (d : dict) k k' v :
  k <> k' -> dict_get (dict_set d k v) k' = dict_get d k'.
Proof.
  intros Hne. induction d as [|[k0 v0] d IH]; cbn [dict_set dict_get].
  - rewrite str_eqb_neq by exact Hne. reflexivity.
  - destruct (str_eqb k0 k) eqn:Hk; cbn [dict_get].
    + apply str_eqb_eq in Hk. subst k0. rewrite str_eqb_neq by exact Hne.
      reflexivity.
    + rewrite IH. reflexivity.
Qed.

Lemma dict_get_update_miss (u d : dict) k :
  dict_get u k = None -> dict_get (dict_update d u) k = dict_get d k.
Proof.
  unfold dict_update. revert d.
  induction u as [|[k0 v0] u IH]; intros d Hu; [reflexivity|].
  cbn [fold_left fst snd]. cbn [dict_get] in Hu.
  destruct (str_eqb k0 k) eqn:Hk; [discriminate|].
  rewrite IH by exact Hu. apply dict_get_set_ne.
  intros ->. rewrite str_eqb_refl in Hk. discriminate.
Qed.

Lemma starts_with_spec (needle hay : str) :
  starts_with needle hay = true <-> exists post, hay = needle ++ post.
Proof.
  revert hay. induction needle as [|a needle IH]; intros hay.
  - cbn. split; eauto.
  - destruct hay as [|b hay]; cbn [starts_with].
    + split; [discriminate|]. intros (post & Hp). discriminate.
    + rewrite andb_true_iff, N.eqb_eq, IH. split.
      * intros (-> & post & ->). eauto.
      * intros (post & Hp). injection Hp as -> ->. eauto.
Qed.

(** [needle in hay] holds exactly when [needle] occurs in [hay]. *)
Lemma contains_spec (needle hay : str) :
  contains needle hay = true <-> exists pre post, hay = pre ++ needle ++ post.
Proof.
  induction hay as [|b hay IH].
  - cbn [contains]. rewrite orb_false_r, starts_with_spec. split.
    + intros (post & Hp). exists [], post. exact Hp.
    + intros (pre & post & Hp). destruct pre; [eauto|discriminate].
  - cbn [contains]. rewrite orb_true_iff, starts_with_spec, IH. split.
    + intros [(post & Hp)|(pre & post & Hp)].
      * exists [], post. exact Hp.
      * exists (b :: pre), post. rewrite Hp. reflexivity.
    + intros (pre & post & Hp). destruct pre as [|c pre].
      * left. eauto.
      * right. injection Hp as -> ->. eauto.
Qed.

(** ** Conversations, project status and the cache *)

Section StoreExtras.
Context `{Env}.
Import context_manager_v2.

Ltac run_cm :=
  cbv beta iota zeta delta
    [get_project_context save_conversation _save_conversation_history
     update_project_status log_execution clear_cache get_last_conversation
     doc_get doc_set doc_update store_access store_answer new_document_id
     now bind try_except ret raise lift_result
     get_world put_world get_cm put_cm get_session put_session].

Lemma get_last_conversation_run project s :
  get_last_conversation project s =
    match cm_db (ss_context_manager (session s)) with
    | None => (Ok (VList []), s)
    | Some _ =>
        let outcome := doc_read (lit "conversations") (doc_id_of project) s in
        (Ok match outcome with
            | Ok (Some data) =>
                let messages := default (VList []) (dict_get data (lit "messages")) in
                match py_len messages with
                | Ok _ => messages
                | Raise _ => VList []
                end
            | _ => VList []
            end,
         with_world
           (log_event
              (EvStore (StoreGet (lit "conversations") (doc_id_of project)) outcome)
              (count_store_op (w_docs (world s)) (world s))) s)
    end.
Proof.
  unfold doc_read. run_cm.
  destruct (cm_db (ss_context_manager (session s))); [|reflexivity].
  simpl_state.
  destruct (store_fault (w_store_ops (world s))); [reflexivity|].
  destruct (w_docs (world s) !! (lit "conversations", doc_id_of project));
    [|reflexivity].
  cbv zeta. destruct (py_len _); reflexivity.
Qed.

(** X8. What [save_conversation] has written, [get_last_conversation]
    reads back: after a save that returned [True], a load under any name
    with the same document key returns exactly the saved messages, in
    their order, provided the read itself does not fail. *)
Theorem save_then_load project project' (messages : list dict) s :
  let r1 := save_conversation project messages s in
  fst r1 = Ok true ->
  doc_id_of project' = doc_id_of project ->
  store_fault (w_store_ops (world (snd r1))) = None ->
  fst (get_last_conversation project' (snd r1)) = Ok (VList (map VDict messages)).
Proof.
  cbv zeta. rewrite save_conversation_run.
  destruct (cm_db (ss_context_manager (session s))) as [db|] eqn:Hdb; [|discriminate].
  cbv zeta. destruct (store_fault (w_store_ops (world s))); [discriminate|].
  intros _ Hid Hok. rewrite get_last_conversation_run. cbn [snd] in *.
  simpl_state in Hok. simpl_state. rewrite Hdb. cbv zeta. unfold doc_read.
  simpl_state. rewrite Hok, Hid.
  assert (Hdoc :
    (match store_fault (S (w_store_ops (world s))) with
     | Some _ =>
         <[(lit "conversations", doc_id_of project) :=
             resolve_timestamps (server_time (w_store_ops (world s)))
               (conversation_data project messages)]> (w_docs (world s))
     | None =>
         <[(lit "conversation_history", auto_id (w_auto_ids (world s))) :=
             resolve_timestamps (server_time (S (w_store_ops (world s))))
               (history_data project messages)]>
           (<[(lit "conversations", doc_id_of project) :=
                resolve_timestamps (server_time (w_store_ops (world s)))
                  (conversation_data project messages)]> (w_docs (world s)))
     end) !! (lit "conversations", doc_id_of project) =
    Some (resolve_timestamps (server_time (w_store_ops (world s)))
            (conversation_data project messages))).
  { destruct (store_fault (S (w_store_ops (world s)))).
    - apply lookup_insert_eq.
    - rewrite lookup_insert_ne
        by (intros [= Hc _]; exact (collections_differ Hc)).
      apply lookup_insert_eq. }
  rewrite Hdoc. reflexivity.
Qed.

(** X9. [get_last_conversation] never raises and only reads: the session
    and the documents stay as they were.  It returns the empty list when
    there is no store client, when the read raises, when there is no
    conversation document, and when the document has no [messages]. *)
Theorem get_last_conversation_safe project s :
  let r := get_last_conversation project s in
  let outcome := doc_read (lit "conversations") (doc_id_of project) s in
  (exists v, fst r = Ok v) /\
  session (snd r) = session s /\
  w_docs (world (snd r)) = w_docs (world s) /\
  (cm_db (ss_context_manager (session s)) = None -> fst r = Ok (VList [])) /\
  ((exists e, outcome = Raise e) -> fst r = Ok (VList [])) /\
  (outcome = Ok None -> fst r = Ok (VList [])) /\
  (forall data,
     outcome = Ok (Some data) -> dict_get data (lit "messages") = None ->
     fst r = Ok (VList [])).
Proof.
  cbv zeta. rewrite get_last_conversation_run.
  destruct (cm_db (ss_context_manager (session s))) as [db|].
  - cbv zeta. cbn [fst snd]. simpl_state.
    split; [eauto|]. split; [reflexivity|]. split; [reflexivity|].
    split; [discriminate|]. split; [|split].
    + intros (e & ->). reflexivity.
    + intros ->. reflexivity.
    + intros data -> Hm. rewrite Hm. reflexivity.
  - cbn [fst snd]. repeat split; eauto.
Qed.

(** *** [update_project_status] *)

Lemma update_project_status_run project status updates s :
  update_project_status project status updates s =
    match cm_db (ss_context_manager (session s)) with
    | None => (Ok false, s)
    | Some _ =>
        let w := world s in
        let k := w_store_ops w in
        let update_data :=
          let d := [ (lit "status", VStr status);
                     (lit "updated_at", VServerTimestamp) ] in
          if truthy_dict updates then dict_update d (default [] updates) else d in
        let call := StoreUpdate (lit "projects") (doc_id_of project) update_data in
        match store_fault k with
        | Some e =>
            (Ok false,
             with_world (log_event (EvStore call (Raise e))
                           (count_store_op (w_docs w) w)) s)
        | None =>
            match w_docs w !! (lit "projects", doc_id_of project) with
            | None =>
                (Ok false,
                 with_world
                   (log_event
                      (EvStore call
                         (Raise (Exception (lit "NotFound")
                                   (lit "No document to update"))))
                      (count_store_op (w_docs w) w)) s)
            | Some old =>
                (Ok true,
                 with_cm
                   (set_cache (delete (cache_key_of project)
                                 (cm_cache (ss_context_manager (session s))))
                      (ss_context_manager (session s)))
                   (with_world
                      (log_event (EvStore call (Ok None))
                         (count_store_op
                            (<[(lit "projects", doc_id_of project) :=
                                 dict_update old
                                   (resolve_timestamps (server_time k) update_data)]>
                               (w_docs w)) w)) s))
            end
        end
    end.
Proof.
  run_cm.
  destruct (cm_db (ss_context_manager (session s))); [|reflexivity].
  simpl_state.
  destruct (store_fault (w_store_ops (world s))); [reflexivity|].
  destruct (w_docs (world s) !! (lit "projects", doc_id_of project)); [|reflexivity].
  simpl_state.
  destruct (cm_cache (ss_context_manager (session s)) !! cache_key_of project) eqn:Hk.
  - reflexivity.
  - rewrite (delete_id _ _ Hk). destruct s as [[cm vc ms cp tc rc] w].
    destruct cm. reflexivity.
Qed.

Lemma cache_key_of_inj (a b : str) : cache_key_of a = cache_key_of b -> a = b.
Proof. unfold cache_key_of. apply app_inv_head. Qed.

(** X10. After [update_project_status] has returned [True] (without
    extra fields), the next [get_project_context] of the project does
    not answer from the cache: it reads the store and, when that read
    succeeds, returns the project with the new status, the server time
    of the update in [updated_at], and every other field as it was. *)
Theorem update_then_get project status s :
  let r1 := update_project_status project status None s in
  let s1 := snd r1 in
  fst r1 = Ok true ->
  store_fault (w_store_ops (world s1)) = None ->
  let r2 := get_project_context project s1 in
  exists ctx old,
    w_docs (world s) !! (lit "projects", doc_id_of project) = Some old /\
    fst r2 = Ok ctx /\
    dict_get ctx (lit "status") = Some (VStr status) /\
    dict_get ctx (lit "updated_at") =
      Some (VDatetime (server_time (w_store_ops (world s)))) /\
    (forall key, key <> lit "status" -> key <> lit "updated_at" ->
       dict_get ctx key = dict_get old key) /\
    w_trace (world (snd r2)) =
      w_trace (world s1) ++ [project_read project (Ok (Some ctx))].
Proof.
  cbv zeta. rewrite update_project_status_run.
  destruct (cm_db (ss_context_manager (session s))) as [db|] eqn:Hdb; [|discriminate].
  cbv zeta. destruct (store_fault (w_store_ops (world s))); [discriminate|].
  destruct (w_docs (world s) !! (lit "projects", doc_id_of project)) as [old|];
    [|discriminate].
  intros _. cbn [snd truthy_dict]. cbv iota.
  set (ctx := dict_update old
                (resolve_timestamps (server_time (w_store_ops (world s)))
                   [(lit "status", VStr status); (lit "updated_at", VServerTimestamp)])).
  match goal with |- store_fault (w_store_ops (world ?st)) = None -> _ =>
    set (s1 := st) end.
  intros Hok.
  assert (Hmiss : cache_hit project s1 = None).
  { unfold cache_hit. subst s1. simpl_state. rewrite lookup_delete_eq. reflexivity. }
  assert (Hdb1 : cm_db (ss_context_manager (session s1)) = Some db) by exact Hdb.
  assert (Hread : store_read project s1 = Ok (Some ctx)).
  { unfold store_read. rewrite Hok. subst s1. simpl_state.
    rewrite lookup_insert_eq. reflexivity. }
  exists ctx, old. split; [reflexivity|].
  rewrite (gpc_found _ _ _ _ Hmiss Hdb1 Hread). cbv zeta. cbn [fst snd].
  split; [reflexivity|].
  assert (Hcheck : w_trace (world (after_cache_check project s1)) = w_trace (world s1)).
  { unfold after_cache_check. destruct (cm_cache _ !! _); reflexivity. }
  subst ctx. unfold dict_update. cbn [resolve_timestamps map fold_left fst snd].
  split; [|split; [|split]].
  - rewrite dict_get_set_ne by (vm_compute; discriminate).
    apply dict_get_set_eq.
  - apply dict_get_set_eq.
  - intros key Hs Hu.
    rewrite !dict_get_set_ne by (intros Heq; symmetry in Heq; contradiction).
    reflexivity.
  - simpl_state. rewrite Hcheck. reflexivity.
Qed.

(** X11. [update_project_status] never creates a project: when the
    document does not exist (or the store raises) it returns [False], the
    documents are what they were, and no cache entry is dropped. *)
Theorem update_missing_project project status updates s :
  (forall old, doc_read (lit "projects") (doc_id_of project) s <> Ok (Some old)) ->
  let r := update_project_status project status updates s in
  fst r = Ok false /\
  w_docs (world (snd r)) = w_docs (world s) /\
  ss_context_manager (session (snd r)) = ss_context_manager (session s).
Proof.
  intros Hno. cbv zeta. rewrite update_project_status_run.
  destruct (cm_db (ss_context_manager (session s))); [|auto].
  cbv zeta. unfold doc_read in Hno.
  destruct (store_fault (w_store_ops (world s))); [auto|].
  destruct (w_docs (world s) !! (lit "projects", doc_id_of project)) as [old|];
    [|auto].
  exfalso. apply (Hno old). reflexivity.
Qed.

(** X12. A successful [update_project_status] drops the cache entry that
    is keyed by the project name as it was given, and no other: the
    entry of any other name stays, also when that name has the same
    document key, so a context cached under another spelling of the
    project is still served from the cache. *)
Theorem update_drops_one_cache_entry project status updates (other : str) s :
  let r := update_project_status project status updates s in
  fst r = Ok true ->
  cm_cache (ss_context_manager (session (snd r))) !! cache_key_of project = None /\
  (other <> project ->
   cm_cache (ss_context_manager (session (snd r))) !! cache_key_of other =
     cm_cache (ss_context_manager (session s)) !! cache_key_of other /\
   forall d,
     cache_hit other (snd r) = Some d ->
     fst (get_project_context other (snd r)) = Ok d /\
     w_trace (world (snd (get_project_context other (snd r)))) =
       w_trace (world (snd r))).
Proof.
  cbv zeta. rewrite update_project_status_run.
  destruct (cm_db (ss_context_manager (session s))) as [db|]; [|discriminate].
  cbv zeta. destruct (store_fault (w_store_ops (world s))) as [e|]; [discriminate|].
  destruct (w_docs (world s) !! (lit "projects", doc_id_of project)) as [old|];
    [|discriminate].
  intros _. cbn [snd]. simpl_state. split; [apply lookup_delete_eq|].
  intros Hne. split.
  - apply lookup_delete_ne. intros Heq. apply Hne. symmetry.
    exact (cache_key_of_inj _ _ Heq).
  - intros d Hhit. rewrite (gpc_hit _ _ _ Hhit). cbn [fst snd].
    split; [reflexivity|]. unfold after_cache_check.
    destruct (cm_cache _ !! _); reflexivity.
Qed.

(** X13. After [clear_cache] nothing is answered from the cache: with a
    store client, the next [get_project_context] of any name reads the
    project document. *)
Theorem clear_cache_forces_read name db s :
  cm_db (ss_context_manager (session s)) = Some db ->
  let s1 := snd (clear_cache s) in
  cm_cache (ss_context_manager (session s1)) = ∅ /\
  w_trace (world (snd (get_project_context name s1))) =
    w_trace (world s) ++ [project_read name (store_read name s)].
Proof.
  intros Hdb. cbv zeta.
  cbv beta iota zeta delta [clear_cache bind get_cm put_cm]. cbn [snd].
  split; [reflexivity|].
  match goal with |- context [get_project_context name ?st] => set (s1 := st) end.
  assert (Hmiss : cache_hit name s1 = None).
  { unfold cache_hit. subst s1. simpl_state. rewrite lookup_empty. reflexivity. }
  assert (Hdb1 : cm_db (ss_context_manager (session s1)) = Some db) by exact Hdb.
  rewrite (get_project_context_reads_store name s1 db Hmiss Hdb1). reflexivity.
Qed.

(** *** The seeding of the store *)

Lemma initialize_project_seed project_id project_data s :
  exists s',
    initialize_project project_id project_data s = (Ok tt, s') /\
    session s' = session s /\
    (forall key d,
       w_docs (world s) !! key = Some d -> w_docs (world s') !! key = Some d) /\
    (forall key, key <> (lit "projects", project_id) ->
       w_docs (world s') !! key = w_docs (world s) !! key) /\
    ((forall k, store_fault k = None) ->
     is_Some (w_docs (world s') !! (lit "projects", project_id))).
Proof.
  unfold initialize_project. run_cm.
  destruct (store_fault (w_store_ops (world s))) as [e|] eqn:Hf.
  { eexists. split; [reflexivity|]. simpl_state.
    repeat split; auto. intros Hno. rewrite Hno in Hf. discriminate. }
  destruct (w_docs (world s) !! (lit "projects", project_id)) as [old|] eqn:Hdoc.
  { eexists. split; [reflexivity|]. simpl_state.
    repeat split; auto. all: intros _; rewrite Hdoc; eauto. }
  simpl_state.
  destruct (store_fault (S (w_store_ops (world s)))) as [e|] eqn:Hf2.
  { eexists. split; [reflexivity|]. simpl_state.
    repeat split; auto. intros Hno. rewrite Hno in Hf2. discriminate. }
  eexists. split; [reflexivity|]. simpl_state.
  split; [reflexivity|]. split; [|split].
  - intros key d Hk. rewrite lookup_insert_ne; [exact Hk|].
    intros <-. rewrite Hdoc in Hk. discriminate.
  - intros key Hne. apply lookup_insert_ne. congruence.
  - intros _. rewrite lookup_insert_eq. eauto.
Qed.

Lemma initialize_project_list_seed projects :
  forall s, exists s',
    initialize_project_list projects s = (Ok tt, s') /\
    session s' = session s /\
    (forall key d,
       w_docs (world s) !! key = Some d -> w_docs (world s') !! key = Some d) /\
    (forall key, ~ In key (map (fun p => (lit "projects", fst p)) projects) ->
       w_docs (world s') !! key = w_docs (world s) !! key) /\
    ((forall k, store_fault k = None) ->
     forall key, In key (map (fun p => (lit "projects", fst p)) projects) ->
       is_Some (w_docs (world s') !! key)).
Proof.
  induction projects as [|[project_id project_data] rest IH]; intros s.
  - eexists. split; [reflexivity|]. cbn. repeat split; auto. intros _ key [].
  - cbn [initialize_project_list]. unfold bind.
    destruct (initialize_project_seed project_id project_data s)
      as (s1 & -> & H1 & K1 & O1 & E1).
    destruct (IH s1) as (s2 & -> & H2 & K2 & O2 & E2).
    eexists. split; [reflexivity|]. split; [congruence|]. split; [|split].
    + auto.
    + intros key Hnot. cbn [map In fst] in Hnot.
      rewrite O2 by tauto. apply O1. intros ->. tauto.
    + intros Hno key [<-|Hin].
      * destruct (E1 Hno) as (d & Hd). exists d. apply K2. exact Hd.
      * apply E2; assumption.
Qed.

Lemma initialize_mission_context_seed s db :
  cm_db (ss_context_manager (session s)) = Some db ->
  exists s',
    _initialize_mission_context s = (Ok tt, s') /\
    session s' = session s /\
    (forall key d,
       w_docs (world s) !! key = Some d -> w_docs (world s') !! key = Some d) /\
    (forall key, ~ In key seed_keys ->
       w_docs (world s') !! key = w_docs (world s) !! key) /\
    ((forall k, store_fault k = None) ->
     forall key, In key seed_keys -> is_Some (w_docs (world s') !! key)) /\
    (forall e, store_fault (w_store_ops (world s)) = Some e ->
       w_docs (world s') = w_docs (world s) /\
       w_trace (world s') =
         w_trace (world s) ++
         [EvStore (StoreGet (lit "mission") (lit "bootstrap")) (Raise e)]).
Proof.
  intros Hdb. unfold _initialize_mission_context, _initialize_projects.
  unfold bind at 1, get_cm. rewrite Hdb.
  unfold try_except, bind at 1.
  unfold doc_get, doc_set, store_access, store_answer.
  cbv beta iota zeta delta [bind ret raise get_world put_world].
  destruct (store_fault (w_store_ops (world s))) as [e|] eqn:Hf.
  { eexists. split; [reflexivity|]. simpl_state.
    repeat split; auto; try congruence.
    all: intros Hno; rewrite Hno in Hf; discriminate. }
  destruct (w_docs (world s) !! (lit "mission", lit "bootstrap")) as [old|] eqn:Hdoc.
  { match goal with |- context [initialize_project_list default_projects ?s1] =>
      destruct (initialize_project_list_seed default_projects s1)
        as (s2 & -> & H2 & K2 & O2 & E2) end.
    simpl_state in K2. simpl_state in O2. simpl_state in E2.
    eexists. split; [reflexivity|]. split; [exact H2|]. split; [exact K2|].
    split; [|split].
    - intros key Hnot. apply O2. intros Hin. apply Hnot. right. exact Hin.
    - intros Hno key [<-|Hin].
      + exists old. apply K2. exact Hdoc.
      + apply E2; assumption.
    - intros e' [=]. }
  simpl_state.
  destruct (store_fault (S (w_store_ops (world s)))) as [e|] eqn:Hf2.
  { eexists. split; [reflexivity|]. simpl_state.
    repeat split; auto; try discriminate.
    all: intros Hno; rewrite Hno in Hf2; discriminate. }
  match goal with |- context [initialize_project_list default_projects ?s1] =>
    destruct (initialize_project_list_seed default_projects s1)
      as (s2 & -> & H2 & K2 & O2 & E2) end.
  simpl_state in K2. simpl_state in O2. simpl_state in E2.
  eexists. split; [reflexivity|]. split; [exact H2|]. split; [|split; [|split]].
  - intros key d Hk. apply K2. rewrite lookup_insert_ne; [exact Hk|].
    intros <-. rewrite Hdoc in Hk. discriminate.
  - intros key Hnot. rewrite O2 by (intros Hin; apply Hnot; right; exact Hin).
    apply lookup_insert_ne. intros <-. apply Hnot. left. reflexivity.
  - intros Hno key [<-|Hin].
    + eexists. apply K2. apply lookup_insert_eq.
    + apply E2; assumption.
  - intros e' [=].
Qed.

Lemma init_seed s0 :
  exists s',
    __init__ s0 = (Ok tt, s') /\
    (forall key d,
       w_docs (world s0) !! key = Some d -> w_docs (world s') !! key = Some d) /\
    (forall key, ~ In key seed_keys ->
       w_docs (world s') !! key = w_docs (world s0) !! key) /\
    (forall pid,
       getenv (lit "GCP_PROJECT_ID") = Some pid ->
       truthy_str (Some pid) = true ->
       firestore_client = None ->
       ((forall k, store_fault k = None) ->
        forall key, In key seed_keys -> is_Some (w_docs (world s') !! key)) /\
       (forall e, store_fault (w_store_ops (world s0)) = Some e ->
          w_docs (world s') = w_docs (world s0) /\
          w_trace (world s') =
            w_trace (world s0) ++
            [EvStore (StoreGet (lit "mission") (lit "bootstrap")) (Raise e)] /\
          cm_db (ss_context_manager (session s')) = Some pid)).
Proof.
  unfold __init__. cbv beta iota zeta delta [bind put_cm try_except ret].
  destruct (getenv (lit "GCP_PROJECT_ID")) as [pid|] eqn:Hpid.
  2:{ cbn [truthy_str]. eexists. split; [reflexivity|]. simpl_state.
      repeat split; auto; discriminate. }
  destruct (truthy_str (Some pid)) eqn:Hp.
  2:{ eexists. split; [reflexivity|]. simpl_state.
      repeat split; auto; congruence. }
  destruct firestore_client as [e|] eqn:Hc.
  { eexists. split; [reflexivity|]. simpl_state.
    repeat split; auto; discriminate. }
  match goal with |- context [_initialize_mission_context ?s1] =>
    destruct (initialize_mission_context_seed s1 pid eq_refl)
      as (s2 & -> & Hs & K & O & E & F) end.
  simpl_state in K. simpl_state in O. simpl_state in F. simpl_state in Hs.
  eexists. split; [reflexivity|]. split; [exact K|]. split; [exact O|].
  intros pid' [= <-] _ _. split; [exact E|].
  intros e He. destruct (F e He) as (Hd & Ht). rewrite Hs. simpl_state.
  repeat split; assumption.
Qed.

(** X14. The constructor of the persistence gateway never raises and
    never overwrites: every document that is in the store stays as it
    is.  It writes only the documents it seeds (the mission and the three
    default projects), so on a store that holds them all it changes no
    document. *)
Theorem bootstrap_never_overwrites s0 :
  let r := __init__ s0 in
  fst r = Ok tt /\
  (forall key d,
     w_docs (world s0) !! key = Some d -> w_docs (world (snd r)) !! key = Some d) /\
  (forall key, ~ In key seed_keys ->
     w_docs (world (snd r)) !! key = w_docs (world s0) !! key) /\
  ((forall key, In key seed_keys -> is_Some (w_docs (world s0) !! key)) ->
   w_docs (world (snd r)) = w_docs (world s0)).
Proof.
  cbv zeta. destruct (init_seed s0) as (s' & -> & K & O & _). cbn [fst snd].
  split; [reflexivity|]. split; [exact K|]. split; [exact O|].
  intros Hall. apply map_eq. intros key.
  destruct (In_dec (fun a b : str * str => decide (a = b)) key seed_keys)
    as [Hin|Hnot].
  - destruct (Hall key Hin) as (d & Hd). rewrite Hd. apply K. exact Hd.
  - apply O. exact Hnot.
Qed.

(** X15. With a project configured, a client, and a store that does not
    fail, the constructor leaves the mission document and the documents
    of the three default projects in the store. *)
Theorem bootstrap_seeds_store s0 pid :
  getenv (lit "GCP_PROJECT_ID") = Some pid ->
  truthy_str (Some pid) = true ->
  firestore_client = None ->
  (forall k, store_fault k = None) ->
  forall key, In key seed_keys ->
    is_Some (w_docs (world (snd (__init__ s0))) !! key).
Proof.
  intros Hpid Hp Hc Hno key Hin.
  destruct (init_seed s0) as (s' & -> & _ & _ & C). cbn [snd].
  destruct (C pid Hpid Hp Hc) as (E & _). apply E; assumption.
Qed.

(** X16. When the first access of the constructor, the read of the
    mission document, raises, nothing is seeded: the projects are not
    tried, the documents are what they were, and the gateway keeps its
    store client all the same. *)
Theorem bootstrap_stops_at_failed_read s0 pid e :
  getenv (lit "GCP_PROJECT_ID") = Some pid ->
  truthy_str (Some pid) = true ->
  firestore_client = None ->
  store_fault (w_store_ops (world s0)) = Some e ->
  let s := snd (__init__ s0) in
  w_docs (world s) = w_docs (world s0) /\
  w_trace (world s) =
    w_trace (world s0) ++
    [EvStore (StoreGet (lit "mission") (lit "bootstrap")) (Raise e)] /\
  cm_db (ss_context_manager (session s)) = Some pid.
Proof.
  intros Hpid Hp Hc Hf. cbv zeta.
  destruct (init_seed s0) as (s' & -> & _ & _ & C). cbn [snd].
  destruct (C pid Hpid Hp Hc) as (_ & F). exact (F e Hf).
Qed.

End StoreExtras.

(** ** The health checks *)

Section HealthFacts.
Context `{Env}.
Variable isoformat : Z -> str.
Variable unset_temperature : float.

Lemma healthy_key_differs (k : str) (d : dict) (v : pyval) :
  k <> lit "healthy" ->
  dict_get (dict_set d k v) (lit "healthy") = dict_get d (lit "healthy").
Proof. apply dict_get_set_ne. Qed.

(** X17. The health check of the model gateway never raises and leaves
    the gateway and the session as they are: the test request is not
    counted as a request and costs nothing in the figures.  With a model
    it makes exactly one call, for at most 10 tokens, and no retry; the
    report says [healthy] exactly when that call returned a text with
    [OK] somewhere in it. *)
Theorem model_health_check (s : State) :
  let call := EvGenerate (lit "Respond with just 'OK'") 10 unset_temperature in
  let r := vertex_claude_v2.health_check isoformat unset_temperature s in
  exists status,
    fst r = Ok status /\
    session (snd r) = session s /\
    w_docs (world (snd r)) = w_docs (world s) /\
    w_trace (world (snd r)) =
      w_trace (world s) ++
      match vc_model (ss_vertex_claude (session s)) with
      | Some _ => [call]
      | None => []
      end /\
    (dict_get status (lit "healthy") = Some (VBool true) <->
     is_Some (vc_model (ss_vertex_claude (session s))) /\
     exists pre post,
       attempt_outcome (w_generate_calls (world s))
         (lit "Respond with just 'OK'") 10 unset_temperature
       = Ok (pre ++ lit "OK" ++ post)).
Proof.
  cbv zeta. unfold vertex_claude_v2.health_check, attempt_outcome.
  cbv beta iota zeta delta
    [bind ret raise try_except lift_result get_vc now model_generate_content
     get_world put_world].
  destruct (vc_model (ss_vertex_claude (session s))) as [m|].
  2:{ eexists. split; [reflexivity|]. simpl_state.
      rewrite app_nil_r. do 3 (split; [reflexivity|]). split.
      - discriminate.
      - intros ([m Hm] & _). discriminate. }
  simpl_state.
  destruct (generate_content (w_generate_calls (world s))
              (lit "Respond with just 'OK'") 10 unset_temperature)
    as [response|e].
  2:{ eexists. split; [reflexivity|]. simpl_state.
      do 3 (split; [reflexivity|]). split.
      - rewrite healthy_key_differs by (vm_compute; discriminate).
        cbn [dict_get]. rewrite str_eqb_refl. discriminate.
      - intros (_ & pre & post & Hx). discriminate. }
  cbv beta iota. destruct (response_text response) as [txt|e].
  2:{ eexists. split; [reflexivity|]. simpl_state.
      do 3 (split; [reflexivity|]). split.
      - rewrite healthy_key_differs by (vm_compute; discriminate).
        cbn [dict_get]. rewrite str_eqb_refl. discriminate.
      - intros (_ & pre & post & Hx). discriminate. }
  eexists. split; [reflexivity|]. simpl_state.
  split; [reflexivity|]. split; [reflexivity|]. split; [reflexivity|].
  rewrite healthy_key_differs by (vm_compute; discriminate).
  rewrite dict_get_set_eq. split.
  - intros [= Hc]. apply contains_spec in Hc as (pre & post & ->).
    split; eauto.
  - intros (_ & pre & post & [= ->]).
    replace (contains _ _) with true; [reflexivity|].
    symmetry. apply contains_spec. eauto.
Qed.

(** X18. The health check of the persistence gateway never raises and
    changes neither the session nor a document.  It reports [healthy]
    exactly when there is a store client and its one read did not raise,
    whether or not the mission document exists; whether it exists is
    reported apart, under [mission_exists]. *)
Theorem store_health_check (s : State) :
  let r := context_manager_v2.health_check isoformat s in
  exists status,
    fst r = Ok status /\
    session (snd r) = session s /\
    w_docs (world (snd r)) = w_docs (world s) /\
    (dict_get status (lit "healthy") = Some (VBool true) <->
     is_Some (cm_db (ss_context_manager (session s))) /\
     store_fault (w_store_ops (world s)) = None) /\
    (dict_get status (lit "healthy") = Some (VBool true) ->
     dict_get status (lit "mission_exists") =
       Some (VBool match w_docs (world s) !! (lit "mission", lit "bootstrap") with
                   | Some _ => true
                   | None => false
                   end)).
Proof.
  cbv zeta. unfold context_manager_v2.health_check.
  cbv beta iota zeta delta
    [bind ret raise try_except lift_result get_cm now doc_get store_access
     store_answer get_world put_world].
  destruct (cm_db (ss_context_manager (session s))) as [db|].
  2:{ eexists. split; [reflexivity|]. simpl_state.
      do 2 (split; [reflexivity|]). split; [split|]; try discriminate.
      intros ([db Hdb] & _). discriminate. }
  simpl_state.
  destruct (store_fault (w_store_ops (world s))) as [e|].
  { eexists. split; [reflexivity|]. simpl_state.
    rewrite healthy_key_differs by (vm_compute; discriminate).
    cbn [dict_get]. rewrite str_eqb_refl.
    do 2 (split; [reflexivity|]). split; [split|]; try discriminate.
    intros (_ & Hx). discriminate. }
  eexists. split; [reflexivity|]. simpl_state.
  split; [reflexivity|]. split; [reflexivity|].
  rewrite healthy_key_differs by (vm_compute; discriminate).
  rewrite !dict_get_set_eq. split.
  - split; [intros _; eauto | reflexivity].
  - intros _.
    destruct (w_docs (world s) !! (lit "mission", lit "bootstrap")); reflexivity.
Qed.

End HealthFacts.

(** ** Whole sessions *)

Section SessionExtras.
Context `{Env}.
Import context_manager_v2.

Ltac run_cm :=
  cbv beta iota zeta delta
    [get_project_context save_conversation _save_conversation_history
     update_project_status log_execution clear_cache
     doc_get doc_set doc_update store_access store_answer new_document_id
     now bind try_except ret raise lift_result
     get_world put_world get_cm put_cm get_session put_session].

Lemma insert_keeps (m : gmap (str * str) dict) k v key :
  is_Some (m !! key) -> is_Some (<[k := v]> m !! key).
Proof.
  intros Hk. apply lookup_insert_is_Some.
  destruct (decide (k = key)); auto.
Qed.

Ltac step_done :=
  unfold session_step, same_connections, docs_kept, idle; simpl_state;
  repeat match goal with
         | |- _ /\ _ => split
         | |- _ -> _ => intro
         | |- forall _, _ => intro
         | H : _ /\ _ |- _ => destruct H
         end;
  simpl_state;
  cbn [vc_model vc_project_id vc_location vc_model_name
       app_v2.set_messages app_v2.set_request_count app_v2.set_total_cost
       ss_context_manager ss_vertex_claude ss_request_count];
  try reflexivity; try assumption; try lia; try congruence;
  try (repeat apply insert_keeps; assumption);
  try (exfalso;
       match goal with
       | Hc : cm_cache _ = ∅, Hk : cm_cache _ !! _ = Some _ |- _ =>
           rewrite Hc, lookup_empty in Hk; discriminate
       end).

Ltac session_fields :=
  simpl_state;
  cbn [app_v2.set_messages app_v2.set_request_count app_v2.set_total_cost
       ss_context_manager ss_vertex_claude ss_request_count].

Lemma same_connections_refl s : same_connections s s.
Proof. unfold same_connections. repeat split. Qed.

Lemma same_connections_trans s1 s2 s3 :
  same_connections s1 s2 -> same_connections s2 s3 -> same_connections s1 s3.
Proof.
  unfold same_connections.
  intros (A1 & A2 & A3 & A4 & A5 & A6) (B1 & B2 & B3 & B4 & B5 & B6).
  repeat split; congruence.
Qed.

Lemma session_step_refl s : session_step 0 s s.
Proof. step_done. Qed.

Lemma session_step_trans j k s1 s2 s3 :
  session_step j s1 s2 -> session_step k s2 s3 -> session_step (j + k) s1 s3.
Proof.
  intros (A1 & A2 & A3 & A4) (B1 & B2 & B3 & B4).
  split; [exact (same_connections_trans _ _ _ A1 B1)|].
  split; [intros key Hk; apply B2, A2, Hk|].
  split; [rewrite B3, A3; lia|].
  intros Hi. destruct (A4 Hi) as (Hi2 & Hw2). destruct (B4 Hi2) as (Hi3 & Hw3).
  split; [exact Hi3|congruence].
Qed.

(** A step of the controller that touches neither gateway nor the world. *)
Lemma session_only_step k s s' :
  ss_context_manager (session s') = ss_context_manager (session s) ->
  ss_vertex_claude (session s') = ss_vertex_claude (session s) ->
  world s' = world s ->
  ss_request_count (session s') = (ss_request_count (session s) + k)%Z ->
  session_step k s s'.
Proof.
  intros Hcm Hvc Hw Hn.
  unfold session_step, same_connections, docs_kept, idle.
  rewrite Hcm, Hvc, Hw.
  split; [repeat split|]. split; [auto|]. split; [exact Hn|].
  intros Hi. split; [exact Hi|reflexivity].
Qed.

Lemma get_project_context_step name s :
  session_step 0 s (snd (get_project_context name s)).
Proof.
  run_cm.
  destruct (cm_cache (ss_context_manager (session s)) !! cache_key_of name)
    as [[cd ct]|] eqn:Hk; cbv beta iota.
  - destruct (_ <? _)%Z; [step_done|].
    destruct (cm_db (ss_context_manager (session s))) as [db|] eqn:Hdb;
      [|step_done].
    simpl_state.
    destruct (store_fault (w_store_ops (world s))); [step_done|].
    destruct (w_docs (world s) !! (lit "projects", doc_id_of name)); step_done.
  - destruct (cm_db (ss_context_manager (session s))) as [db|] eqn:Hdb;
      [|step_done].
    simpl_state.
    destruct (store_fault (w_store_ops (world s))); [step_done|].
    destruct (w_docs (world s) !! (lit "projects", doc_id_of name)); step_done.
Qed.

Lemma save_conversation_step project messages s :
  session_step 0 s (snd (save_conversation project messages s)).
Proof.
  rewrite save_conversation_run.
  destruct (cm_db (ss_context_manager (session s))) as [db|] eqn:Hdb;
    [|step_done].
  cbv zeta.
  destruct (store_fault (w_store_ops (world s))); [step_done|].
  destruct (store_fault (S (w_store_ops (world s)))); step_done.
Qed.

Lemma update_project_status_step project status updates s :
  exists b,
    fst (update_project_status project status updates s) = Ok b /\
    session_step 0 s (snd (update_project_status project status updates s)).
Proof.
  rewrite update_project_status_run.
  destruct (cm_db (ss_context_manager (session s))) as [db|] eqn:Hdb;
    [|eexists; split; [reflexivity|step_done]].
  cbv zeta.
  destruct (store_fault (w_store_ops (world s)));
    [eexists; split; [reflexivity|step_done]|].
  destruct (w_docs (world s) !! (lit "projects", doc_id_of project));
    eexists; (split; [reflexivity|step_done]).
Qed.

Lemma log_execution_step project action result_text cost metadata s :
  exists b,
    fst (log_execution project action result_text cost metadata s) = Ok b /\
    session_step 0 s (snd (log_execution project action result_text cost metadata s)).
Proof.
  run_cm.
  destruct (cm_db (ss_context_manager (session s))) as [db|] eqn:Hdb;
    [|eexists; split; [reflexivity|step_done]].
  simpl_state.
  destruct (store_fault (w_store_ops (world s)));
    [|destruct (format_fixed_point cost)];
    eexists; (split; [reflexivity|step_done]).
Qed.

Lemma clear_cache_step s : session_step 0 s (snd (clear_cache s)).
Proof. run_cm. step_done. Qed.

Lemma after_failed_attempt_connections p st mt t s :
  same_connections s (after_failed_attempt p st mt t s).
Proof.
  unfold after_failed_attempt, same_connections.
  destruct (generate_content _ _ _ _); cbn; repeat split.
Qed.

Lemma chat_attempts_connections p st mt t n attempts :
  forall s, same_connections s (snd (vertex_claude_v2.chat_attempts p st mt t n attempts s)).
Proof.
  induction attempts as [|a rest IH]; intros s.
  - apply same_connections_refl.
  - destruct (attempt_outcome (w_generate_calls (world s)) p mt t) as [txt|e] eqn:Hout.
    + rewrite (chat_attempts_success _ _ _ _ _ _ _ _ _ Hout).
      unfold same_connections. cbn. repeat split.
    + rewrite (chat_attempts_fail _ _ _ _ _ _ _ _ _ Hout). cbn zeta.
      pose proof (after_failed_attempt_connections p st mt t s) as Hf.
      destruct (a <? n - 1)%Z; [|exact Hf].
      eapply same_connections_trans; [exact Hf|].
      eapply same_connections_trans; [|apply IH].
      unfold same_connections. cbn. repeat split.
Qed.

Lemma chat_step user_message context history mt t n s :
  session_step 0 s (snd (vertex_claude_v2.chat user_message context history mt t n s)).
Proof.
  destruct (chat_total user_message context history mt t n s)
    as (txt & _ & (Hcm & _ & _ & _ & Hn & Hdocs & _)).
  split; [|split; [|split]].
  - destruct (vc_model (ss_vertex_claude (session s))) as [m|] eqn:Hm.
    2:{ rewrite (chat_not_configured _ _ _ _ _ _ _ Hm). apply same_connections_refl. }
    destruct (vertex_claude_v2._build_prompt user_message context history)
      as [prompt|e] eqn:Hp.
    + rewrite (chat_configured _ _ _ _ _ _ _ _ _ Hm Hp).
      eapply same_connections_trans; [|apply chat_attempts_connections].
      unfold same_connections. cbn. repeat split.
    + unfold vertex_claude_v2.chat, vertex_claude_v2._format_error.
      cbv beta iota zeta delta [bind ret get_vc time_now get_world put_world].
      rewrite Hm, Hp. unfold same_connections. cbn. repeat split.
  - intros key. rewrite Hdocs. auto.
  - rewrite Hn. lia.
  - intros (Hm & Hdb & Hc). rewrite (chat_not_configured _ _ _ _ _ _ _ Hm).
    cbn [snd]. repeat split; assumption.
Qed.

Lemma reset_stats_step s : session_step 0 s (snd (vertex_claude_v2.reset_stats s)).
Proof.
  unfold vertex_claude_v2.reset_stats.
  cbv beta iota zeta delta [bind get_vc put_vc]. step_done.
Qed.

Lemma handle_user_input_step user_input s :
  fst (app_v2.handle_user_input user_input s) = Ok tt /\
  session_step 1 s (snd (app_v2.handle_user_input user_input s)).
Proof.
  pose proof (handle_user_input_run user_input s) as Hrun. cbv zeta in Hrun.
  match type of Hrun with
  | forall c, fst (get_project_context ?n ?s1) = _ -> _ =>
      destruct (get_project_context_total n s1) as (context & H2 & _);
      specialize (Hrun context H2);
      assert (S1 : session_step 0 s s1)
        by (apply session_only_step; session_fields; try reflexivity; lia);
      pose proof (get_project_context_step n s1) as S2
  end.
  match type of Hrun with
  | forall r, fst (vertex_claude_v2.chat ?u ?c ?h ?mt ?t ?n ?s2) = _ -> _ =>
      destruct (chat_total u c h mt t n s2) as (response & H3 & _);
      specialize (Hrun response H3);
      pose proof (chat_step u c h mt t n s2) as S3
  end.
  rewrite Hrun. cbn [fst snd]. split; [reflexivity|].
  change 1%Z with (0 + (0 + (0 + (1 + 0))))%Z.
  eapply session_step_trans; [exact S1|].
  eapply session_step_trans; [exact S2|].
  eapply session_step_trans; [exact S3|].
  eapply session_step_trans; [|apply save_conversation_step].
  apply session_only_step; session_fields; reflexivity.
Qed.

Lemma fst_then_ret {A} (m : M A) s a :
  fst (m s) = Ok a -> fst (bind m (fun _ => ret tt) s) = Ok tt.
Proof. unfold bind, ret. destruct (m s) as [[x|e] s']; [reflexivity|discriminate]. Qed.

Lemma run_op_step o s :
  fst (run_op o s) = Ok tt /\
  session_step (count_turns [o]) s (snd (run_op o s)).
Proof.
  destruct o; cbn [run_op count_turns]; rewrite ?snd_then_ret.
  - destruct (get_project_context_total name s) as (d & Hd & _).
    split; [exact (fst_then_ret _ _ _ Hd)|apply get_project_context_step].
  - destruct (save_conversation_total project messages s) as (b & Hb & _).
    split; [exact (fst_then_ret _ _ _ Hb)|apply save_conversation_step].
  - destruct (update_project_status_step project status updates s) as (b & Hb & Hs).
    split; [exact (fst_then_ret _ _ _ Hb)|exact Hs].
  - destruct (log_execution_step project action result_text cost metadata s)
      as (b & Hb & Hs).
    split; [exact (fst_then_ret _ _ _ Hb)|exact Hs].
  - split; [reflexivity|apply clear_cache_step].
  - destruct (chat_total user_message context history max_tokens temperature
                retry_count s) as (txt & Ht & _).
    split; [exact (fst_then_ret _ _ _ Ht)|apply chat_step].
  - split; [reflexivity|apply reset_stats_step].
  - exact (handle_user_input_step user_input s).
  - split; [reflexivity|].
    apply session_only_step; try reflexivity.
    cbv beta iota zeta delta [bind get_session put_session]. session_fields. lia.
  - split; [reflexivity|].
    apply session_only_step; try reflexivity.
    cbv beta iota zeta delta [bind get_session put_session]. session_fields. lia.
Qed.

Lemma run_ops_step ops :
  forall s,
    fst (run_ops ops s) = Ok tt /\
    session_step (count_turns ops) s (snd (run_ops ops s)).
Proof.
  induction ops as [|o rest IH]; intros s.
  - split; [reflexivity|apply session_step_refl].
  - destruct (run_op_step o s) as (Hok & Hs).
    cbn [run_ops]. unfold bind.
    destruct (run_op o s) as [[[]|e] s1]; [|discriminate]. cbn [fst snd] in *.
    destruct (IH s1) as (Hok' & Hs'). split; [exact Hok'|].
    replace (count_turns (o :: rest)) with (count_turns [o] + count_turns rest)%Z
      by (destruct o; cbn [count_turns]; lia).
    exact (session_step_trans _ _ _ _ _ Hs Hs').
Qed.

Lemma initialize_session_state_start s0 :
  let s := snd (app_v2.initialize_session_state s0) in
  ss_request_count (session s) = 0%Z /\
  docs_kept s0 s /\
  (truthy_str (getenv (lit "GCP_PROJECT_ID")) = false ->
   idle s /\ world s = world s0).
Proof.
  cbv zeta.
  destruct (init_seed s0) as (s1 & Hrun & K & _).
  pose proof (context_manager_init_run s0) as (s1' & Hrun' & Hcm).
  rewrite Hrun in Hrun'. injection Hrun' as <-.
  assert (Hstart :
    snd (app_v2.initialize_session_state s0) =
    with_session
      {| ss_context_manager := ss_context_manager (session s1);
         ss_vertex_claude := vertex_claude_v2.__init__;
         ss_messages := [];
         ss_current_project := lit "HAVEN Platform";
         ss_total_cost := 0%float;
         ss_request_count := 0 |} (with_vc vertex_claude_v2.__init__ s1)).
  { unfold app_v2.initialize_session_state.
    cbv beta iota zeta delta [bind put_vc get_session put_session ret].
    rewrite Hrun. reflexivity. }
  rewrite Hstart.
  simpl_state. split; [reflexivity|]. split.
  - intros key (d & Hd). exists d. apply K. exact Hd.
  - intros Hp. unfold idle. simpl_state.
    cbn [ss_context_manager ss_vertex_claude]. rewrite Hcm. cbn [cm_db cm_cache].
    unfold vertex_claude_v2.__init__. cbn [vc_model]. rewrite Hp.
    split; [auto|].
    revert Hrun. unfold __init__. rewrite Hp.
    cbv beta iota zeta delta [bind put_cm ret]. intros [= <-]. reflexivity.
Qed.

(** X19. The connection status that the controller computes when the
    session starts never goes stale: whatever the session does
    afterwards, [check_connections] gives the same report.  No step
    connects or disconnects a gateway. *)
Theorem connection_status_is_stable (s0 : State) (ops : list op) :
  fst (app_v2.check_connections (session_after s0 ops)) =
  fst (app_v2.check_connections (snd (app_v2.initialize_session_state s0))).
Proof.
  unfold session_after.
  destruct (run_ops_step ops (snd (app_v2.initialize_session_state s0)))
    as (_ & (Hm & _ & _ & _ & Hdb & _) & _).
  unfold app_v2.check_connections.
  cbv beta iota zeta delta [bind ret get_session]. cbn [fst].
  rewrite Hm, Hdb. reflexivity.
Qed.

(** X20. Nothing the application does deletes a document: a document
    that is in the store when the session starts is in the store after
    the start of the session and after every step of it. *)
Theorem session_never_deletes (s0 : State) (ops : list op) (key : str * str) :
  is_Some (w_docs (world s0) !! key) ->
  is_Some (w_docs (world (session_after s0 ops)) !! key).
Proof.
  intros Hk. unfold session_after.
  destruct (run_ops_step ops (snd (app_v2.initialize_session_state s0)))
    as (_ & _ & Hkept & _).
  destruct (initialize_session_state_start s0) as (_ & Hstart & _).
  apply Hkept, Hstart, Hk.
Qed.

(** X21. A session never raises, and its [request_count] is the number
    of chat turns taken, whether they reached the model or not; no other
    step of the session changes it. *)
Theorem request_count_counts_turns (s0 : State) (ops : list op) :
  fst (run_ops ops (snd (app_v2.initialize_session_state s0))) = Ok tt /\
  ss_request_count (session (session_after s0 ops)) = count_turns ops.
Proof.
  unfold session_after.
  destruct (run_ops_step ops (snd (app_v2.initialize_session_state s0)))
    as (Hok & _ & _ & Hn & _).
  destruct (initialize_session_state_start s0) as (H0 & _).
  split; [exact Hok|]. rewrite Hn, H0. lia.
Qed.

End SessionExtras.

(** ** Chat turns *)

Section TurnExtras.
Context `{Env}.
Import context_manager_v2.

Lemma saved_conversation_is_loaded project (messages : list dict) s db :
  cm_db (ss_context_manager (session s)) = Some db ->
  (forall k, store_fault k = None) ->
  fst (get_last_conversation project (snd (save_conversation project messages s)))
  = Ok (VList (map VDict messages)).
Proof.
  intros Hdb Hno. rewrite save_conversation_run, Hdb. cbv zeta.
  rewrite !Hno. rewrite get_last_conversation_run. cbn [snd]. simpl_state.
  rewrite Hdb. cbv zeta. unfold doc_read. simpl_state. rewrite Hno.
  rewrite lookup_insert_ne by (intros [= Hc _]; exact (collections_differ Hc)).
  rewrite lookup_insert_eq. reflexivity.
Qed.

(** X23. What a chat turn sends to the model: the turn appends the new
    message to the transcript before it calls [chat] with that
    transcript as history, so the prompt carries the message twice, as
    the last line of the history and again as the closing [USER:] line.
    Before them come the system prompt for the context of the current
    project and the nine messages that preceded the new one. *)
Theorem turn_prompt_repeats_message user_input (turns : list (str * str)) s m :
  vc_model (ss_vertex_claude (session s)) = Some m ->
  ss_messages (session s) = map (fun rc => message (fst rc) (snd rc)) turns ->
  let s1 :=
    with_session
      (app_v2.set_messages
         (ss_messages (session s) ++ [message (lit "user") user_input])
         (session s)) s in
  let r2 := get_project_context (ss_current_project (session s)) s1 in
  exists context evs,
    fst r2 = Ok context /\
    w_trace (world (snd (app_v2.handle_user_input user_input s))) =
      w_trace (world (snd r2)) ++
      EvGenerate
        (vertex_claude_v2._build_system_prompt (Some context) ++ nl ++ nl ++
         rendered (drop (length turns - 9) turns) ++
         str_upper (lit "user") ++ lit ": " ++ user_input ++ nl ++ nl ++
         lit "USER: " ++ user_input ++ nl ++ nl ++ lit "ASSISTANT:")
        4096 0.7%float :: evs.
Proof.
  intros Hm Hmsgs. cbv zeta.
  pose proof (handle_user_input_run user_input s) as Hrun. cbv zeta in Hrun.
  match type of Hrun with
  | forall c, fst (get_project_context ?n ?s1) = _ -> _ =>
      destruct (get_project_context_total n s1)
        as (context & H2 & (Hvc2 & Hms2 & _));
      specialize (Hrun context H2)
  end.
  simpl_state in Hvc2. simpl_state in Hms2. simpl_state in H2. simpl_state in Hrun.
  cbn [app_v2.set_messages ss_messages ss_vertex_claude ss_current_project]
    in Hvc2, Hms2, H2, Hrun.
  simpl_state. cbn [app_v2.set_messages ss_current_project].
  match type of Hrun with
  | forall r, fst (vertex_claude_v2.chat ?u ?c ?h ?mt ?t ?n ?s2) = _ -> _ =>
      destruct (chat_total u c h mt t n s2) as (response & H3 & _);
      specialize (Hrun response H3);
      assert (Hsent : exists evs,
        w_trace (world (snd (vertex_claude_v2.chat u c h mt t n s2))) =
        w_trace (world s2) ++
        EvGenerate
          (vertex_claude_v2._build_system_prompt (Some context) ++ nl ++ nl ++
           rendered (drop (length turns - 9) turns) ++
           str_upper (lit "user") ++ lit ": " ++ user_input ++ nl ++ nl ++
           lit "USER: " ++ user_input ++ nl ++ nl ++ lit "ASSISTANT:") mt t :: evs)
  end.
  { eapply chat_sends_prompt; [rewrite Hvc2; exact Hm| |lia].
    rewrite Hms2, Hmsgs.
    change [message (lit "user") user_input]
      with (map (fun rc : str * str => message (fst rc) (snd rc))
              [(lit "user", user_input)]).
    rewrite <- map_app.
    rewrite build_prompt_transcript. f_equal.
    rewrite length_app. cbn [length].
    replace (length turns + 1 - 10) with (length turns - 9) by lia.
    rewrite drop_app_le by lia. rewrite rendered_app.
    unfold rendered at 2. cbn [flat_map fst snd].
    rewrite app_nil_r, <- !app_assoc. reflexivity. }
  destruct Hsent as (evs & Hsent).
  rewrite Hrun. cbn [snd].
  match goal with |- context [save_conversation ?p ?ms ?s4] =>
    destruct (save_conversation_total p ms s4)
      as (b & _ & (_ & _ & _ & _ & _ & _ & _ & _ & _ & evs' & Hev) & _)
  end.
  rewrite Hev. simpl_state. rewrite Hsent. rewrite <- app_assoc.
  exists context, (evs ++ evs'). split; [exact H2|reflexivity].
Qed.

Lemma handle_user_input_shape user_input s :
  exists context response s2 s3,
    get_project_context (ss_current_project (session s))
      (with_session
         (app_v2.set_messages
            (ss_messages (session s) ++ [message (lit "user") user_input])
            (session s)) s) = (Ok context, s2) /\
    vertex_claude_v2.chat user_input (Some context)
      (Some (ss_messages (session s2))) 4096 0.7%float 3 s2 = (Ok response, s3) /\
    app_v2.handle_user_input user_input s =
      (Ok tt,
       snd (save_conversation (ss_current_project (session s3))
              (ss_messages (session s3) ++ [message (lit "assistant") response])
              (with_session
                 (app_v2.set_messages
                    (ss_messages (session s3) ++ [message (lit "assistant") response])
                    (app_v2.set_total_cost
                       (ss_total_cost (session s3) +
                        vc_last_request_cost (ss_vertex_claude (session s3)))%float
                       (app_v2.set_request_count
                          (ss_request_count (session s3) + 1) (session s3))))
                 s3))).
Proof.
  pose proof (handle_user_input_run user_input s) as Hrun. cbv zeta in Hrun.
  match type of Hrun with
  | forall c, fst (get_project_context ?n ?s1) = _ -> _ =>
      destruct (get_project_context_total n s1) as (context & H2 & _);
      specialize (Hrun context H2);
      change n with (ss_current_project (session s)) in *;
      destruct (get_project_context (ss_current_project (session s)) s1)
        as [r2 s2] eqn:E2
  end.
  cbn [fst snd] in *. subst r2.
  match type of Hrun with
  | forall r, fst (vertex_claude_v2.chat ?u ?c ?h ?mt ?t ?n ?s2') = _ -> _ =>
      destruct (chat_total u c h mt t n s2') as (response & H3 & _);
      specialize (Hrun response H3);
      destruct (vertex_claude_v2.chat u c h mt t n s2') as [r3 s3] eqn:E3
  end.
  cbn [fst snd] in *. subst r3.
  exists context, response, s2, s3.
  split; [reflexivity|]. split; [exact E3|].
  rewrite Hrun. reflexivity.
Qed.

(** X24. What the user sees is what a reload restores: with a store
    client and a store that does not fail, a chat turn leaves the
    transcript with the user's message and one answer added, and
    [get_last_conversation] for the current project then returns exactly
    that transcript. *)
Theorem turn_can_be_restored user_input s db :
  cm_db (ss_context_manager (session s)) = Some db ->
  (forall k, store_fault k = None) ->
  let s' := snd (app_v2.handle_user_input user_input s) in
  (exists response,
     ss_messages (session s') =
       ss_messages (session s) ++
       [message (lit "user") user_input; message (lit "assistant") response]) /\
  fst (get_last_conversation (ss_current_project (session s')) s')
  = Ok (VList (map VDict (ss_messages (session s')))).
Proof.
  intros Hdb Hno. cbv zeta.
  destruct (handle_user_input_shape user_input s)
    as (context & response & s2 & s3 & E2 & E3 & ->).
  cbn [snd].
  pose proof (get_project_context_total (ss_current_project (session s))
    (with_session
       (app_v2.set_messages
          (ss_messages (session s) ++ [message (lit "user") user_input])
          (session s)) s)) as (c2 & _ & (_ & Hms2 & _ & _ & _ & Hdb2 & _)).
  rewrite E2 in Hms2, Hdb2. cbn [snd] in Hms2, Hdb2.
  simpl_state in Hms2. simpl_state in Hdb2.
  cbn [app_v2.set_messages ss_messages ss_context_manager] in Hms2, Hdb2.
  pose proof (chat_total user_input (Some context) (Some (ss_messages (session s2)))
                4096 0.7%float 3 s2) as (c3 & _ & (Hcm3 & Hms3 & _)).
  rewrite E3 in Hcm3, Hms3. cbn [snd] in Hcm3, Hms3.
  match goal with |- context [save_conversation ?p ?ms ?s4] =>
    destruct (save_conversation_total p ms s4)
      as (b & _ & (_ & Hms5 & Hcp5 & _) & _);
    pose proof (saved_conversation_is_loaded p ms s4 db) as Hload;
    simpl_state in Hms5; simpl_state in Hcp5;
    cbn [app_v2.set_messages app_v2.set_total_cost app_v2.set_request_count
         ss_messages ss_current_project] in Hms5, Hcp5
  end.
  rewrite Hms5, Hcp5. split.
  - exists response. rewrite Hms3, Hms2, <- app_assoc. reflexivity.
  - apply Hload; [|exact Hno]. simpl_state.
    cbn [app_v2.set_messages app_v2.set_total_cost app_v2.set_request_count
         ss_context_manager].
    rewrite Hcm3, Hdb2. exact Hdb.
Qed.

End TurnExtras.

(** ** Runs of the script: the cache window and the silent application *)

Section ScriptRuns.
Context `{Env}.
Variable isoformat : Z -> str.
Variable unset_temperature : float.
Import context_manager_v2.





















End ScriptRuns.

(** ** Instances of the further properties *)

Lemma chat_without_attempts_witness :
  let E := Example.env_model_up (lit "ok") in
  let s := Example.started E in
  w_generate_calls
    (world (snd (@vertex_claude_v2.chat E (lit "status?") None None
                   4096 0.7%float 0 s))) =
  w_generate_calls (world s).
Proof.
  intros E s.
  refine (proj2 (proj2 (proj2 (@chat_without_attempts E (lit "status?") None None
            4096 0.7%float 0 s (lit "claude-3-5-sonnet@20240620")
            (Example.prompt_of E (lit "status?") None None) _ _ _)))).
  - vm_compute. reflexivity.
  - vm_compute. reflexivity.
  - lia.
Defined.

Lemma chat_failure_is_free_witness :
  let E := Example.env_model_down in
  let s := Example.started E in
  vc_total_cost
    (ss_vertex_claude
       (session (snd (@vertex_claude_v2.chat E (lit "status?") None None
                        4096 0.7%float 3 s)))) =
  vc_total_cost (ss_vertex_claude (session s)).
Proof.
  intros E s.
  refine (proj1 (proj2 (proj2 (@chat_failure_is_free E (lit "status?") None None
            4096 0.7%float 3 s (lit "claude-3-5-sonnet@20240620")
            (Example.prompt_of E (lit "status?") None None) _ _ _ _)))).
  - vm_compute. reflexivity.
  - vm_compute. reflexivity.
  - lia.
  - intros k. exists Example.quota_error. reflexivity.
Defined.

Lemma chat_success_after_retries_witness :
  let E := Example.env_model_flaky (lit "done") in
  let s := Example.started E in
  fst (@vertex_claude_v2.chat E (lit "status?") None None 4096 0.7%float 3 s) =
  Ok (lit "done").
Proof.
  intros E s.
  refine (proj1 (@chat_success_after_retries E (lit "status?") None None
            4096 0.7%float 3 s (lit "claude-3-5-sonnet@20240620")
            (Example.prompt_of E (lit "status?") None None) 1 (lit "done")
            _ _ _ _ _)).
  - vm_compute. reflexivity.
  - vm_compute. reflexivity.
  - lia.
  - intros i Hi. exists Example.quota_error.
    destruct i as [|i]; [reflexivity|lia].
  - vm_compute. reflexivity.
Defined.

Lemma build_prompt_ignores_older_messages_witness :
  let E := Example.env_model_down in
  @vertex_claude_v2._build_prompt E (lit "next") Example.small_context
    (Some (Example.transcript (take 1 Example.turns11) ++
           Example.transcript (drop 1 Example.turns11))) =
  @vertex_claude_v2._build_prompt E (lit "next") Example.small_context
    (Some (Example.transcript (drop 1 Example.turns11))).
Proof.
  intros E.
  refine (@build_prompt_ignores_older_messages E (lit "next") Example.small_context
            (Example.transcript (take 1 Example.turns11))
            (Example.transcript (drop 1 Example.turns11)) _).
  vm_compute. lia.
Defined.

Lemma build_prompt_short_history_witness :
  let E := Example.env_model_down in
  @vertex_claude_v2._build_prompt E (lit "next") None (Some []) =
  @vertex_claude_v2._build_prompt E (lit "next") None None.
Proof.
  intros E.
  refine (proj2 (@build_prompt_short_history E (lit "next") None
                   (take 2 Example.turns11) _)).
  vm_compute. lia.
Defined.

Lemma chat_malformed_message_witness :
  let E := Example.env_model_up (lit "ok") in
  let s := Example.started E in
  let history := [message (lit "user") (lit "one"); [(lit "role", VStr (lit "user"))]; []] in
  fst (@vertex_claude_v2.chat E (lit "next") None (Some history) 4096 0.7%float 3 s) =
  Ok (vertex_claude_v2.format_error_of (ss_vertex_claude (session s))
        (lit "Failed to build prompt") (lit "'content'") None).
Proof.
  intros E s history.
  refine (proj1 (@chat_malformed_message E (lit "next") None history
            [(lit "user", lit "one")] [(lit "role", VStr (lit "user"))] [[]]
            (lit "'content'") 4096 0.7%float 3 s
            (lit "claude-3-5-sonnet@20240620") _ _ _)).
  - vm_compute. reflexivity.
  - reflexivity.
  - right. exists (lit "user"). repeat split; reflexivity.
Defined.

Lemma system_prompt_hides_timestamps_witness :
  let E := Example.env_model_down in
  @vertex_claude_v2._build_system_prompt E
    (Some ([(lit "name", VStr Example.haven)] ++
           (lit "created_at", VDatetime 0) :: [])) =
  @vertex_claude_v2._build_system_prompt E
    (Some ([(lit "name", VStr Example.haven)] ++
           (lit "created_at", VDatetime 1) :: [])).
Proof.
  intros E.
  refine (@system_prompt_hides_timestamps E [(lit "name", VStr Example.haven)] []
            (lit "created_at") (VDatetime 0) (VDatetime 1) _).
  left. reflexivity.
Defined.

Lemma save_then_load_witness :
  let E := Example.env_model_down in
  let messages := Example.transcript Example.turns11 in
  let s1 := snd (@context_manager_v2.save_conversation E Example.haven messages
                   (Example.started E)) in
  fst (@context_manager_v2.get_last_conversation E Example.haven s1) =
  Ok (VList (map VDict messages)).
Proof.
  intros E messages s1.
  refine (@save_then_load E Example.haven Example.haven messages
            (Example.started E) _ _ _).
  - vm_compute. reflexivity.
  - reflexivity.
  - reflexivity.
Defined.

Lemma update_then_get_witness :
  let E := Example.env_model_down in
  let s1 := snd (@context_manager_v2.update_project_status E Example.haven
                   (lit "Paused") None (Example.started E)) in
  exists ctx,
    fst (@context_manager_v2.get_project_context E Example.haven s1) = Ok ctx /\
    dict_get ctx (lit "status") = Some (VStr (lit "Paused")).
Proof.
  intros E s1.
  destruct (@update_then_get E Example.haven (lit "Paused") (Example.started E))
    as (ctx & old & _ & Hctx & Hstatus & _).
  - vm_compute. reflexivity.
  - reflexivity.
  - exists ctx. split; [exact Hctx|exact Hstatus].
Defined.

Lemma update_missing_project_witness :
  let E := Example.env_model_down in
  fst (@context_manager_v2.update_project_status E (lit "Nowhere") (lit "Paused")
         None (Example.started E)) = Ok false.
Proof.
  intros E.
  refine (proj1 (@update_missing_project E (lit "Nowhere") (lit "Paused") None
                   (Example.started E) _)).
  intros old Hold. vm_compute in Hold. discriminate Hold.
Defined.

Lemma update_drops_one_cache_entry_witness :
  let E := Example.env_model_down in
  let s := snd (@context_manager_v2.get_project_context E Example.haven
                  (Example.started E)) in
  cm_cache
    (ss_context_manager
       (session (snd (@context_manager_v2.update_project_status E Example.haven
                        (lit "Paused") None s))))
    !! context_manager_v2.cache_key_of Example.haven = None.
Proof.
  intros E s.
  refine (proj1 (@update_drops_one_cache_entry E Example.haven (lit "Paused") None
                   (lit "Other") s _)).
  vm_compute. reflexivity.
Defined.

Lemma clear_cache_forces_read_witness :
  let E := Example.env_model_down in
  let s := snd (@context_manager_v2.get_project_context E Example.haven
                  (Example.started E)) in
  cm_cache
    (ss_context_manager (session (snd (@context_manager_v2.clear_cache s)))) = ∅.
Proof.
  intros E s.
  refine (proj1 (@clear_cache_forces_read E Example.haven (lit "valhalla") s _)).
  vm_compute. reflexivity.
Defined.

Lemma bootstrap_seeds_store_witness :
  let E := Example.env_model_down in
  is_Some
    (w_docs (world (snd (@context_manager_v2.__init__ E Example.blank_state)))
       !! (lit "mission", lit "bootstrap")).
Proof.
  intros E.
  refine (@bootstrap_seeds_store E Example.blank_state (lit "valhalla")
            _ _ _ _ (lit "mission", lit "bootstrap") _).
  - vm_compute. reflexivity.
  - reflexivity.
  - reflexivity.
  - intros k. reflexivity.
  - left. reflexivity.
Defined.

Lemma bootstrap_stops_at_failed_read_witness :
  let E := Example.env_store_down in
  w_docs (world (snd (@context_manager_v2.__init__ E Example.blank_state))) =
  w_docs (world Example.blank_state).
Proof.
  intros E.
  refine (proj1 (@bootstrap_stops_at_failed_read E Example.blank_state
                   (lit "valhalla") Example.store_error _ _ _ _)).
  - vm_compute. reflexivity.
  - reflexivity.
  - reflexivity.
  - reflexivity.
Defined.

Lemma session_never_deletes_witness :
  let E := Example.env_model_down in
  let s0 := Example.started E in
  is_Some
    (w_docs
       (world (@session_after E s0
                 [HandleUserInput (lit "hello"); ClearCache;
                  UpdateProjectStatus Example.haven (lit "Paused") None]))
       !! (lit "mission", lit "bootstrap")).
Proof.
  intros E s0.
  refine (@session_never_deletes E s0 _ (lit "mission", lit "bootstrap") _).
  exists (default [] (w_docs (world s0) !! (lit "mission", lit "bootstrap"))).
  vm_compute. reflexivity.
Defined.

Lemma turn_prompt_repeats_message_witness :
  let E := Example.env_model_up (lit "ok") in
  let s := Example.started E in
  exists context evs,
    w_trace (world (snd (@app_v2.handle_user_input E (lit "hello") s))) =
      w_trace
        (world
           (snd (@context_manager_v2.get_project_context E
                   (ss_current_project (session s))
                   (with_session
                      (app_v2.set_messages
                         (ss_messages (session s) ++
                          [message (lit "user") (lit "hello")])
                         (session s)) s)))) ++
      EvGenerate
        (@vertex_claude_v2._build_system_prompt E (Some context) ++ nl ++ nl ++
         @rendered E (drop (length (@nil (str * str)) - 9) []) ++
         @str_upper E (lit "user") ++ lit ": " ++ lit "hello" ++ nl ++ nl ++
         lit "USER: " ++ lit "hello" ++ nl ++ nl ++ lit "ASSISTANT:")
        4096 0.7%float :: evs.
Proof.
  intros E s.
  destruct (@turn_prompt_repeats_message E (lit "hello") [] s
              (lit "claude-3-5-sonnet@20240620"))
    as (context & evs & _ & Htrace).
  - vm_compute. reflexivity.
  - reflexivity.
  - exists context, evs. exact Htrace.
Defined.

Lemma turn_can_be_restored_witness :
  let E := Example.env_model_up (lit "ok") in
  let s' := snd (@app_v2.handle_user_input E (lit "hello") (Example.started E)) in
  fst (@context_manager_v2.get_last_conversation E
         (ss_current_project (session s')) s') =
  Ok (VList (map VDict (ss_messages (session s')))).
Proof.
  intros E s'.
  refine (proj2 (@turn_can_be_restored E (lit "hello") (Example.started E)
                   (lit "valhalla") _ _)).
  - vm_compute. reflexivity.
  - intros k. reflexivity.
Defined.

(** ** The cache window: an instance, and what the specification leaves out *)



(** ** An application without a project id *)

